(** * Filament dryer firmware (src/main.cpp): a shallow embedding

    The firmware is a single cooperative control loop plus two interrupt
    handlers.  It is modelled by explicit state passing over a [World]:
    the six global variables of the program together with the hardware
    the program talks to (millisecond clock, future samples of the
    encoder pin, the interrupts that will be delivered, the readings the
    temperature probe will return, and the log of everything written to
    pins and display).

    A call either returns ([Done]), ends in [panic], which never
    returns ([Halted]), waits for ever because the finite supply of
    inputs is used up ([Blocked]), or dereferences the NULL profile
    ([Undefined]). *)

From Stdlib Require Import ZArith List String Bool Lia.
From Stdlib Require Import Floats.SpecFloat.
Import ListNotations.
Local Open Scope string_scope.
Local Open Scope Z_scope.
Local Open Scope list_scope.

(** ** Machine integers (AVR: 8-bit [uint8_t], 16-bit [unsigned int],
       32-bit [unsigned long]) *)

Definition wrap8 (z : Z) : Z := Z.land z 255.
Definition wrap16 (z : Z) : Z := z mod 65536.
Definition wrap32 (z : Z) : Z := z mod 4294967296.

(** ** Constants of the program *)

Definition ENCODER_JITTER : Z := 5.
Definition ENCODER_TIMEOUT : Z := 350.
Definition DOT_LEN : Z := 500.
Definition DASH_LEN : Z := 3 * DOT_LEN.
Definition SIGN_DELAY : Z := DOT_LEN.
Definition LETTER_DELAY : Z := 3 * DOT_LEN.
Definition REPEAT_DELAY : Z := 7 * DOT_LEN.
Definition HOURS (value : Z) : Z := value * 3600.
Definition BEEPER_PIN : Z := 11.
Definition HEATER_PIN : Z := 12.

Inductive EncoderAction : Type :=
| NoAction
| ActionNext
| ActionPrev
| ActionConfirm.

Inductive HeatingStage : Type :=
| Idle
| PreHeating
| Working.

Record Filament : Type := mkFilament {
  name : string;
  temp : Z;        (* uint8_t *)
  time_sec : Z     (* unsigned long *)
}.

Definition filaments : list Filament :=
  [ mkFilament "PLA" 45 (HOURS 6);
    mkFilament "ABS" 60 (HOURS 4);
    mkFilament "PETG" 65 (HOURS 4);
    mkFilament "TPU" 50 (HOURS 8);
    mkFilament "Nylon" 70 (HOURS 12) ].

(** [f->temp] where a local variable is called [temp] as well. *)
Definition target_of (f : Filament) : Z := temp f.

Definition MIN_IDX : Z := 0.
Definition MAX_IDX : Z := Z.of_nat (List.length filaments) - 1.

(** [&(filaments[idx])]: the profile is a pointer to an immutable table
    entry, so the entry itself stands for it. *)
Definition filament_at (idx : Z) : Filament :=
  nth (Z.to_nat idx) filaments (mkFilament "" 0 0).

Definition action_eqb (a b : EncoderAction) : bool :=
  match a, b with
  | NoAction, NoAction
  | ActionNext, ActionNext
  | ActionPrev, ActionPrev
  | ActionConfirm, ActionConfirm => true
  | _, _ => false
  end.

Definition stage_eqb (a b : HeatingStage) : bool :=
  match a, b with
  | Idle, Idle | PreHeating, PreHeating | Working, Working => true
  | _, _ => false
  end.

(** ** The temperature probe's [float]

    A reading is an IEEE value [(-1)^s * m * 2^e] (or a zero, an
    infinity, a NaN).  The program looks at it in two ways only: the
    comparison with [DEVICE_DISCONNECTED_C] (-127 in
    DallasTemperature.h) and the conversion to [unsigned int]. *)

Definition float : Type := spec_float.

Definition DEVICE_DISCONNECTED_C : float := S754_finite true 127 0.

(** [x == y] on floats, by exact value. *)
Definition float_eqb (x y : float) : bool :=
  match x, y with
  | S754_zero _, S754_zero _ => true
  | S754_infinity s1, S754_infinity s2 => Bool.eqb s1 s2
  | S754_finite s1 m1 e1, S754_finite s2 m2 e2 =>
      let e := Z.min e1 e2 in
      Bool.eqb s1 s2 && (Z.pos m1 * 2 ^ (e1 - e) =? Z.pos m2 * 2 ^ (e2 - e))
  | _, _ => false
  end.

(** Truncation toward zero. *)
Definition float_trunc (x : float) : Z :=
  match x with
  | S754_finite s m e =>
      let mag := if 0 <=? e then Z.pos m * 2 ^ e else Z.pos m / 2 ^ (- e) in
      if s then - mag else mag
  | _ => 0
  end.

(** [(unsigned int) value].  C++ defines the conversion for values whose
    truncation is in 0..65535; outside of it the model follows the AVR
    runtime, which wraps. *)
Definition float_to_uint (x : float) : Z := wrap16 (float_trunc x).

(** ** The world *)

Inductive Isr : Type :=
| TIMER1_COMPA_vect
| PCINT1_vect.

Inductive Lcd : Type :=
| LcdInit
| LcdBacklight
| LcdClear
| LcdHome
| LcdSetCursor (col row : Z)
| LcdPrint (s : string)
| LcdPrintNum (n : Z).

Inductive Output : Type :=
| Pin (pin : Z) (high : bool)     (* digitalWrite(pin, HIGH / LOW) *)
| Screen (cmd : Lcd).

Record World : Type := mkWorld {
  (* the program's globals *)
  filament : option Filament;       (* NULL or a table entry *)
  refresh_screen : bool;
  seconds : Z;
  heater_is_on : bool;
  event_on_encoder : bool;
  heating_stage : HeatingStage;
  (* the hardware *)
  clock : Z;                        (* what millis() returns *)
  adc : list Z;                     (* results of the coming analogRead calls *)
  irqs : list (list Isr);           (* interrupts delivered during the coming
                                       blocking calls, one entry per call *)
  probe : list (Z * float);         (* coming conversions: duration, value *)
  trace : list Output               (* pin and display writes, newest first *)
}.

Definition set_filament (v : option Filament) (w : World) : World :=
  mkWorld v (refresh_screen w) (seconds w) (heater_is_on w)
    (event_on_encoder w) (heating_stage w) (clock w) (adc w) (irqs w)
    (probe w) (trace w).
Definition set_refresh_screen (v : bool) (w : World) : World :=
  mkWorld (filament w) v (seconds w) (heater_is_on w)
    (event_on_encoder w) (heating_stage w) (clock w) (adc w) (irqs w)
    (probe w) (trace w).
Definition set_seconds (v : Z) (w : World) : World :=
  mkWorld (filament w) (refresh_screen w) v (heater_is_on w)
    (event_on_encoder w) (heating_stage w) (clock w) (adc w) (irqs w)
    (probe w) (trace w).
Definition set_heater_is_on (v : bool) (w : World) : World :=
  mkWorld (filament w) (refresh_screen w) (seconds w) v
    (event_on_encoder w) (heating_stage w) (clock w) (adc w) (irqs w)
    (probe w) (trace w).
Definition set_event_on_encoder (v : bool) (w : World) : World :=
  mkWorld (filament w) (refresh_screen w) (seconds w) (heater_is_on w)
    v (heating_stage w) (clock w) (adc w) (irqs w)
    (probe w) (trace w).
Definition set_heating_stage (v : HeatingStage) (w : World) : World :=
  mkWorld (filament w) (refresh_screen w) (seconds w) (heater_is_on w)
    (event_on_encoder w) v (clock w) (adc w) (irqs w)
    (probe w) (trace w).
Definition set_clock (v : Z) (w : World) : World :=
  mkWorld (filament w) (refresh_screen w) (seconds w) (heater_is_on w)
    (event_on_encoder w) (heating_stage w) v (adc w) (irqs w)
    (probe w) (trace w).
Definition set_adc (v : list Z) (w : World) : World :=
  mkWorld (filament w) (refresh_screen w) (seconds w) (heater_is_on w)
    (event_on_encoder w) (heating_stage w) (clock w) v (irqs w)
    (probe w) (trace w).
Definition set_irqs (v : list (list Isr)) (w : World) : World :=
  mkWorld (filament w) (refresh_screen w) (seconds w) (heater_is_on w)
    (event_on_encoder w) (heating_stage w) (clock w) (adc w) v
    (probe w) (trace w).
Definition set_probe (v : list (Z * float)) (w : World) : World :=
  mkWorld (filament w) (refresh_screen w) (seconds w) (heater_is_on w)
    (event_on_encoder w) (heating_stage w) (clock w) (adc w) (irqs w)
    v (trace w).
Definition emit (o : Output) (w : World) : World :=
  mkWorld (filament w) (refresh_screen w) (seconds w) (heater_is_on w)
    (event_on_encoder w) (heating_stage w) (clock w) (adc w) (irqs w)
    (probe w) (o :: trace w).

(** ** Outcomes and sequencing *)

Inductive Result (A : Type) : Type :=
| Done (a : A) (w : World)
| Halted (reason : string) (w : World)
| Blocked (w : World)
| Undefined (w : World).
Arguments Done {A} a w.
Arguments Halted {A} reason w.
Arguments Blocked {A} w.
Arguments Undefined {A} w.

Definition M (A : Type) : Type := World -> Result A.

Definition ret {A} (a : A) : M A := fun w => Done a w.

Definition bind {A B} (m : M A) (k : A -> M B) : M B :=
  fun w =>
    match m w with
    | Done a w1 => k a w1
    | Halted r w1 => Halted r w1
    | Blocked w1 => Blocked w1
    | Undefined w1 => Undefined w1
    end.

(** A statement that cannot fail, block or stop. *)
Definition exec (f : World -> World) : M unit := fun w => Done tt (f w).

Declare Scope dryer_scope.
Delimit Scope dryer_scope with dryer.
Notation "x <- m ;; k" := (bind m (fun x => k))
  (at level 61, m at next level, right associativity) : dryer_scope.
Notation "m ;; k" := (bind m (fun _ => k))
  (at level 61, right associativity) : dryer_scope.
Local Open Scope dryer_scope.

(** The world an outcome ends in. *)
Definition final {A} (r : Result A) : World :=
  match r with
  | Done _ w | Halted _ w | Blocked w | Undefined w => w
  end.

(** [filament->...]: the selected profile, or undefined behaviour at NULL. *)
Definition deref_filament : M Filament :=
  fun w =>
    match filament w with
    | Some f => Done f w
    | None => Undefined w
    end.

(** ** Interrupt handlers and time *)

Definition isr (v : Isr) (w : World) : World :=
  match v with
  | TIMER1_COMPA_vect =>
      set_refresh_screen true (set_seconds (wrap32 (seconds w + 1)) w)
  | PCINT1_vect => set_event_on_encoder true w
  end.

(** The program sleeps or waits for [ms] milliseconds; the interrupts of
    the next schedule entry are served meanwhile. *)
Definition delay (ms : Z) (w : World) : World :=
  let w1 := set_clock (wrap32 (clock w + ms)) w in
  match irqs w1 with
  | [] => w1
  | fired :: rest => fold_left (fun u v => isr v u) fired (set_irqs rest w1)
  end.

Definition millis (w : World) : Z := clock w.

(** ** Small helpers of the program *)

Definition reset_timer (w : World) : World :=
  set_refresh_screen false (set_seconds 0 w).

Definition turn_on (w : World) : World :=
  set_heater_is_on true (emit (Pin HEATER_PIN true) w).

Definition turn_off (w : World) : World :=
  set_heater_is_on false (emit (Pin HEATER_PIN false) w).

Definition beep (duration : Z) (w : World) : World :=
  emit (Pin BEEPER_PIN false) (delay duration (emit (Pin BEEPER_PIN true) w)).

Definition lcd (c : Lcd) (w : World) : World := emit (Screen c) w.

Definition clear_screen (w : World) : World := lcd LcdHome (lcd LcdClear w).

(** One round of the distress pattern that [panic] repeats for ever. *)
Definition sos_round (w : World) : World :=
  let dots u :=
    delay LETTER_DELAY (beep DOT_LEN (delay SIGN_DELAY (beep DOT_LEN
      (delay SIGN_DELAY (beep DOT_LEN u))))) in
  let dashes u :=
    delay LETTER_DELAY (beep DASH_LEN (delay SIGN_DELAY (beep DASH_LEN
      (delay SIGN_DELAY (beep DASH_LEN u))))) in
  delay REPEAT_DELAY (dots (dashes (dots w))).

(** [panic] switches the heater off, shows the reason and never returns:
    the outcome is [Halted] in the world in which the endless alarm starts. *)
Definition panic {A} (reason : string) : M A :=
  fun w =>
    Halted reason
      (lcd (LcdPrint reason) (lcd (LcdSetCursor 0 1)
        (lcd (LcdPrint "PANIC! Reason:") (lcd (LcdSetCursor 0 0)
          (clear_screen (turn_off w)))))).

(** ** query_sensor *)

Definition query_sensor : M Z :=
  fun w =>
    match probe w with
    | [] => Blocked w
    | (conversion, value) :: rest =>
        (* sensor.requestTemperatures() waits for the conversion *)
        let w1 := delay conversion (set_probe rest w) in
        if float_eqb value DEVICE_DISCONNECTED_C then panic "Temp NaN." w1
        else
          let temp := wrap8 (float_to_uint value) in
          if temp <=? 1 then panic "Frozen." w1
          else if temp >=? 120 then panic "Burned." w1
          else Done temp w1
    end.

(** ** set_heater_state *)

Definition set_heater_state (temp : Z) : M unit :=
  fun w =>
    match filament w with
    | None => panic "Heater state." w
    | Some f =>
        if temp >? target_of f then
          let w1 := turn_off w in
          if stage_eqb (heating_stage w1) Idle
             || stage_eqb (heating_stage w1) PreHeating
          then Done tt (reset_timer (set_heating_stage Working w1))
          else Done tt w1
        else
          let w1 := turn_on w in
          if stage_eqb (heating_stage w1) Idle
          then Done tt (reset_timer (set_heating_stage PreHeating w1))
          else Done tt w1
    end.

(** ** Display *)

Definition lcd_seq (cmds : list Lcd) (w : World) : World :=
  fold_left (fun u c => lcd c u) cmds w.

Definition present_filament : M unit :=
  f <- deref_filament;;
  exec (lcd_seq
    [ LcdSetCursor 0 0; LcdPrint (name f); LcdPrint " ?   ";
      LcdSetCursor 0 1; LcdPrintNum (time_sec f / 3600);
      LcdPrint " hours at "; LcdPrintNum (temp f); LcdPrint "*      " ]).

(** The tail of [update_screen]: minutes and seconds of [time_val]. *)
Definition print_mins_secs (time_val : Z) (w : World) : World :=
  let mins := wrap8 ((time_val mod 3600) / 60) in
  let secs := wrap8 (time_val mod 60) in
  lcd_seq
    ((if mins <? 10 then [LcdPrint "0"] else []) ++
     [LcdPrintNum mins; LcdPrint ":"] ++
     (if secs <? 10 then [LcdPrint "0"] else []) ++
     [LcdPrintNum secs; LcdPrint "      "]) w.

Definition update_screen (temp : Z) : M unit :=
  f <- deref_filament;;
  fun w =>
    let w1 :=
      lcd_seq
        ([ LcdSetCursor 0 0; LcdPrint (name f); LcdPrint " ";
           LcdPrintNum (target_of f); LcdPrint " / "; LcdPrintNum temp;
           LcdPrint "* " ] ++
         (if heater_is_on w then [LcdPrint "H"] else []) ++
         [ LcdPrint "      "; LcdSetCursor 0 1 ]) w in
    if stage_eqb (heating_stage w1) Working then
      let time_val := wrap32 (time_sec f - seconds w1) in
      let hours := wrap8 (time_val / 3600) in
      let w2 :=
        lcd_seq
          ([LcdPrint "ETA "] ++
           (if hours <? 10 then [LcdPrint "0"] else []) ++
           [LcdPrintNum hours; LcdPrint ":"]) w1 in
      Done tt (print_mins_secs time_val w2)
    else
      let w2 := lcd (LcdPrint "Preheating ") w1 in
      let time_val := seconds w2 in
      if time_val >=? 3600 then panic "Preheating." w2
      else Done tt (print_mins_secs time_val w2).

(** ** The encoder *)

(** The [for (;;)] of [read_action] over the coming samples: a sample
    outside every band is dropped and the pin is read again. *)
Fixpoint read_samples (samples : list Z) : option (EncoderAction * list Z) :=
  match samples with
  | [] => None
  | value :: rest =>
      if value =? 0 then Some (NoAction, rest)
      else if (value >? 840) && (value <? 850) then Some (ActionPrev, rest)
      else if (value >? 690) && (value <? 705) then Some (ActionNext, rest)
      else if (value >? 560) && (value <? 610) then Some (ActionConfirm, rest)
      else read_samples rest
  end.

Definition read_action : M EncoderAction :=
  fun w =>
    match read_samples (adc w) with
    | Some (action, rest) => Done action (set_adc rest w)
    | None => Blocked (set_adc [] w)
    end.

(** [while (!event_on_encoder) delay(1);] *)
Fixpoint await_event (fuel : nat) : M unit :=
  fun w =>
    if event_on_encoder w then Done tt w
    else
      match fuel with
      | O => Blocked w
      | S n => await_event n (delay 1 w)
      end.

(** The two pairing loops; [paired] is the level waited for. *)
Fixpoint await_pair (fuel : nat) (paired : EncoderAction) (time_begin : Z)
  : M unit :=
  match fuel with
  | O => fun w => Blocked w
  | S n =>
      a <- read_action;;
      if action_eqb a paired then ret tt
      else
        exec (delay 1);;
        fun w =>
          if wrap32 (millis w - time_begin) >? ENCODER_TIMEOUT then Done tt w
          else await_pair n paired time_begin w
  end.

(** [while (read_action() != NoAction) delay(1);] *)
Fixpoint await_release (fuel : nat) : M unit :=
  match fuel with
  | O => fun w => Blocked w
  | S n =>
      a <- read_action;;
      if action_eqb a NoAction then ret tt
      else exec (delay 1);; await_release n
  end.

(** Every turn of these loops uses up at least one sample, so the number
    of samples left bounds the number of turns. *)
Definition turns (w : World) : nat := S (List.length (adc w)).

(** Lines 293-319: wait for the second contact, then for the release. *)
Definition debounce (action : EncoderAction) (time_begin : Z) : M unit :=
  (if action_eqb action ActionPrev
   then fun w => await_pair (turns w) ActionNext time_begin w
   else ret tt);;
  (if action_eqb action ActionNext
   then fun w => await_pair (turns w) ActionPrev time_begin w
   else ret tt);;
  fun w => await_release (turns w) w.

(** Lines 330-344: the sleep before returning, and the flag. *)
Definition settle (action : EncoderAction) (time_begin : Z)
  : M EncoderAction :=
  fun w =>
    let time_diff :=
      if action_eqb action ActionConfirm then 0
      else wrap32 (millis w - time_begin) in
    let w1 := delay (wrap32 (time_diff * 2 + ENCODER_JITTER)) w in
    Done action (set_event_on_encoder false w1).

Definition wait_for_action : M EncoderAction :=
  (fun w => await_event (List.length (irqs w)) w);;
  action <- read_action;;
  if action_eqb action NoAction then ret NoAction
  else
    fun w =>
      let time_begin := millis w in
      (debounce action time_begin;; settle action time_begin) w.

(** ** The selection menu *)

(** Lines 360-373: the index after one action. *)
Definition next_index (action : EncoderAction) (cur_idx : Z) : Z :=
  let cur_idx :=
    if action_eqb action ActionNext then
      if cur_idx =? MAX_IDX then 0 else cur_idx + 1
    else cur_idx in
  if action_eqb action ActionPrev then
    if cur_idx =? MIN_IDX then MAX_IDX else cur_idx - 1
  else cur_idx.

Fixpoint menu_loop (fuel : nat) (cur_idx : Z) : M unit :=
  match fuel with
  | O => fun w => Blocked w
  | S n =>
      action <- wait_for_action;;
      if action_eqb action ActionConfirm then ret tt
      else
        let cur_idx := next_index action cur_idx in
        exec (set_filament (Some (filament_at cur_idx)));;
        present_filament;;
        menu_loop n cur_idx
  end.

Definition choose_filament : M unit :=
  exec clear_screen;;
  let cur_idx := MIN_IDX in
  exec (set_filament (Some (filament_at cur_idx)));;
  present_filament;;
  fun w => menu_loop (turns w) cur_idx w.

(** ** setup and loop *)

Definition power_on (samples : list Z) (readings : list (Z * float)) : World :=
  mkWorld None false 0 false false Idle 0 samples [] readings [].

(** Interrupts are enabled at the end of [setup]; [schedule] is what
    will be delivered from then on. *)
Definition setup (schedule : list (list Isr)) (w : World) : World :=
  set_irqs schedule
    (beep 250
      (lcd (LcdPrint "Hello world!")
        (clear_screen (lcd LcdBacklight (lcd LcdInit (turn_off w)))))).

(** Lines 511-518. *)
Definition selection : M unit :=
  exec turn_off;;
  choose_filament;;
  exec clear_screen;;
  exec reset_timer;;
  exec (set_heating_stage Idle);;
  exec (set_refresh_screen true).

(** [heating_stage == Working && seconds > filament->time_sec] *)
Definition session_over : M bool :=
  fun w =>
    if stage_eqb (heating_stage w) Working then
      (f <- deref_filament;; ret (seconds w >? time_sec f)) w
    else Done false w.

(** [while (wait_for_action() != ActionConfirm) ;] *)
Fixpoint await_confirm (fuel : nat) : M unit :=
  match fuel with
  | O => fun w => Blocked w
  | S n =>
      a <- wait_for_action;;
      if action_eqb a ActionConfirm then ret tt else await_confirm n
  end.

(** Lines 524-543. *)
Definition completion : M unit :=
  exec turn_off;;
  exec clear_screen;;
  exec (lcd_seq [LcdSetCursor 0 0; LcdPrint "Finished!"]);;
  exec (beep 2000);;
  exec (delay 1000);;
  exec (beep 2000);;
  exec (delay 1000);;
  exec (beep 2000);;
  exec (lcd_seq [LcdSetCursor 0 1; LcdPrint "Press any key..."]);;
  (fun w => await_confirm (turns w) w);;
  exec (set_filament None).

(** Lines 546-552. *)
Definition control : M unit :=
  temp <- query_sensor;;
  set_heater_state temp;;
  fun w =>
    if refresh_screen w
    then (exec (set_refresh_screen false);; update_screen temp) w
    else Done tt w.

Definition loop : M unit :=
  (fun w =>
     match filament w with
     | None => selection w
     | Some _ => Done tt w
     end);;
  over <- session_over;;
  if over then completion else control.

(** The worlds the firmware can be in between two calls of [loop]. *)
Inductive reachable : World -> Prop :=
| reach_setup : forall samples readings schedule,
    reachable (setup schedule (power_on samples readings))
| reach_loop : forall w w',
    reachable w -> loop w = Done tt w' -> reachable w'.

(** ** Vocabulary of the properties *)

(** The level a sample stands for, if it lies in a band. *)
Definition classify (value : Z) : option EncoderAction :=
  if value =? 0 then Some NoAction
  else if (840 <? value) && (value <? 850) then Some ActionPrev
  else if (690 <? value) && (value <? 705) then Some ActionNext
  else if (560 <? value) && (value <? 610) then Some ActionConfirm
  else None.

(** The levels that successive calls of [read_action] will report. *)
Fixpoint actions (samples : list Z) : list EncoderAction :=
  match samples with
  | [] => []
  | v :: rest =>
      match classify v with
      | Some a => a :: actions rest
      | None => actions rest
      end
  end.

Definition in_band (a : EncoderAction) (v : Z) : Prop :=
  match a with
  | NoAction => v = 0
  | ActionPrev => 840 < v < 850
  | ActionNext => 690 < v < 705
  | ActionConfirm => 560 < v < 610
  end.

Definition out_of_band (v : Z) : Prop := forall a, ~ in_band a v.

(** The second contact of a rotation. *)
Definition opposite (a : EncoderAction) : EncoderAction :=
  match a with
  | ActionPrev => ActionNext
  | ActionNext => ActionPrev
  | other => other
  end.

(** The encoder flag is set or an edge interrupt is on its way. *)
Definition pending (w : World) : Prop :=
  event_on_encoder w = true \/ In PCINT1_vect (List.concat (irqs w)).

(** Nothing but time, inputs and the interrupt-driven variables changed. *)
Definition quiet (w w' : World) : Prop :=
  filament w' = filament w /\
  heating_stage w' = heating_stage w /\
  heater_is_on w' = heater_is_on w /\
  trace w' = trace w /\
  probe w' = probe w /\
  (List.length (adc w') <= List.length (adc w))%nat.

(** The pin writes of a log. *)
Definition pin_writes (tr : list Output) : list Output :=
  filter (fun o => match o with Pin _ _ => true | Screen _ => false end) tr.

(** No pin was written and the heater flag is as before. *)
Definition hands_off (w w' : World) : Prop :=
  heater_is_on w' = heater_is_on w /\
  pin_writes (trace w') = pin_writes (trace w).

(** Log, heater flag and stage are as before. *)
Definition silent (w w' : World) : Prop :=
  trace w' = trace w /\
  heater_is_on w' = heater_is_on w /\
  heating_stage w' = heating_stage w.

(** The log only grew. *)
Definition log_grows (w w' : World) : Prop :=
  exists more, trace w' = more ++ trace w.

(** The sleep before [wait_for_action] returns, [waited] milliseconds
    after the first sample. *)
Definition quiet_period (action : EncoderAction) (waited : Z) : Z :=
  if action_eqb action ActionConfirm then ENCODER_JITTER
  else wrap32 (2 * waited + ENCODER_JITTER).

(** The number of profiles. *)
Definition catalog_size : Z := Z.of_nat (List.length filaments).

(** The world in which [completion] starts to wait for the button. *)
Definition announced (w : World) : World :=
  lcd_seq [LcdSetCursor 0 1; LcdPrint "Press any key..."]
    (beep 2000 (delay 1000 (beep 2000 (delay 1000 (beep 2000
      (lcd_seq [LcdSetCursor 0 0; LcdPrint "Finished!"]
        (clear_screen (turn_off w)))))))).

(** The world in which [selection] starts to wait for the encoder. *)
Definition menu_opened (w : World) : World :=
  lcd_seq
    [ LcdSetCursor 0 0; LcdPrint (name (filament_at MIN_IDX));
      LcdPrint " ?   "; LcdSetCursor 0 1;
      LcdPrintNum (time_sec (filament_at MIN_IDX) / 3600);
      LcdPrint " hours at "; LcdPrintNum (temp (filament_at MIN_IDX));
      LcdPrint "*      " ]
    (set_filament (Some (filament_at MIN_IDX)) (clear_screen (turn_off w))).

(** The level last written to the heater pin. *)
Definition heater_pin (w : World) : option bool :=
  match
    find (fun o => match o with Pin p _ => p =? HEATER_PIN | _ => false end)
      (trace w)
  with
  | Some (Pin _ level) => Some level
  | _ => None
  end.

(** [m] relates every starting world to the world its outcome ends in. *)
Definition always {A} (R : World -> World -> Prop) (m : M A) : Prop :=
  forall w, R w (final (m w)).

(** [w] resolves the actions [script] one call after the other. *)
Inductive resolves : World -> list EncoderAction -> World -> Prop :=
| resolves_nil : forall w, resolves w [] w
| resolves_cons : forall w a w1 script w2,
    wait_for_action w = Done a w1 ->
    resolves w1 script w2 ->
    resolves w (a :: script) w2.

(** The invariant the data model asks for. *)
Definition stage_has_profile (w : World) : Prop :=
  heating_stage w <> Idle -> filament w <> None.

(** [w] is the state left by completion handling: an iteration of [loop]
    that started in a reachable state, in the Working stage with the
    counter past the duration of the profile, ran [completion], which
    returned in [w]. *)
Definition left_by_completion (w : World) : Prop :=
  exists w0 f,
    reachable w0 /\
    filament w0 = Some f /\
    heating_stage w0 = Working /\
    seconds w0 > time_sec f /\
    loop w0 = completion w0 /\
    completion w0 = Done tt w.

(** The index that the actions [script] lead to from [i]. *)
Definition index_after (script : list EncoderAction) (i : Z) : Z :=
  fold_left (fun idx action => next_index action idx) script i.

(** The operator browsing the menu: with the entry at index [i] on the
    screen in [w], the calls of [wait_for_action] resolve the actions
    [script] one after the other, none of them Confirm, each followed
    by [present_filament] for the entry it leads to; the last of these
    entries is on the screen in the final world. *)
Inductive browses : Z -> World -> list EncoderAction -> World -> Prop :=
| browses_nil : forall i w, browses i w [] w
| browses_cons : forall i w a w1 w2 script w3,
    wait_for_action w = Done a w1 ->
    a <> ActionConfirm ->
    present_filament
      (set_filament (Some (filament_at (next_index a i))) w1) = Done tt w2 ->
    browses (next_index a i) w2 script w3 ->
    browses i w (a :: script) w3.

(** What the log gains in [completion], newest first. *)
Definition completion_log : list Output :=
  [ Screen (LcdPrint "Press any key..."); Screen (LcdSetCursor 0 1);
    Pin BEEPER_PIN false; Pin BEEPER_PIN true;
    Pin BEEPER_PIN false; Pin BEEPER_PIN true;
    Pin BEEPER_PIN false; Pin BEEPER_PIN true;
    Screen (LcdPrint "Finished!"); Screen (LcdSetCursor 0 0);
    Screen LcdHome; Screen LcdClear; Pin HEATER_PIN false ].

(** What the log gains when the menu shows the profile [f]. *)
Definition menu_entry_log (f : Filament) : list Output :=
  [ Screen (LcdPrint "*      "); Screen (LcdPrintNum (temp f));
    Screen (LcdPrint " hours at "); Screen (LcdPrintNum (time_sec f / 3600));
    Screen (LcdSetCursor 0 1); Screen (LcdPrint " ?   ");
    Screen (LcdPrint (name f)); Screen (LcdSetCursor 0 0) ].

(** The rest of [loop] after the selection block. *)
Definition run_session : M unit :=
  over <- session_over;;
  if over then completion else control.

(** Milliseconds since [t0], as the program computes them. *)
Definition elapsed (t0 : Z) (w : World) : Z := wrap32 (millis w - t0).

(** Every [panic] that [m] can end in has a reason in [P]. *)
Definition halts_with {A} (P : string -> Prop) (m : M A) : Prop :=
  forall w reason w', m w = Halted reason w' -> P reason.

(** [n] iterations of [loop]. *)
Fixpoint iterate (n : nat) : M unit :=
  match n with
  | O => ret tt
  | S k => loop;; iterate k
  end.

(** An outcome that is neither a panic nor undefined. *)
Definition returns_or_waits {A} (r : Result A) : Prop :=
  match r with
  | Done _ _ | Blocked _ => True
  | Halted _ _ | Undefined _ => False
  end.

(** The heater flag agrees with the level last written to the pin. *)
Definition mirrored (w : World) : Prop :=
  heater_pin w = Some (heater_is_on w).

(** Heater pin and heater flag are as before. *)
Definition same_heater (w w' : World) : Prop :=
  heater_pin w' = heater_pin w /\ heater_is_on w' = heater_is_on w.

(** [m] keeps the heater flag in step with the pin. *)
Definition keeps_mirror {A} (m : M A) : Prop :=
  forall w, mirrored w -> mirrored (final (m w)).

(** The numbers printed on the display, oldest first. *)
Definition printed_numbers (tr : list Output) : list Z :=
  flat_map (fun o => match o with
                     | Screen (LcdPrintNum n) => [n]
                     | _ => []
                     end) (rev tr).

(** What the log gains in one round of the alarm, newest first: three
    short, three long and three short beeps. *)
Definition sos_log : list Output :=
  flat_map (fun _ => [Pin BEEPER_PIN false; Pin BEEPER_PIN true])
    (seq 0 9).

(** Next applied [n] times to an index. *)
Fixpoint turn_next (n : nat) (cur_idx : Z) : Z :=
  match n with
  | O => cur_idx
  | S k => turn_next k (next_index ActionNext cur_idx)
  end.

(** ** Worlds used in the examples *)

Definition PLA : Filament := filament_at 0.

(** 50.0 and 45.0 degrees as binary32 values. *)
Definition celsius_50 : float := S754_finite false 13107200 (-18).
Definition celsius_45 : float := S754_finite false 11796480 (-18).

(** Idle, PLA selected, the probe about to report 50 degrees. *)
Definition idle_pla : World :=
  mkWorld (Some PLA) false 7 false false Idle 1000 [] []
    [(94, celsius_50)] [].

(** The encoder pin reads 500 (in no band), then 845. *)
Definition stray_sample : World :=
  mkWorld None false 0 false true Idle 0 [500; 845] [] [] [].

(** The encoder pin reads 500 and nothing else. *)
Definition only_stray : World :=
  mkWorld None false 0 false true Idle 0 [500] [] [] [].

(** The button is pressed at time 1000 and released at once. *)
Definition short_press : World :=
  mkWorld None false 0 false true Idle 1000 [580; 0] [] [] [].

(** A whole session on PLA, from power-on: the operator presses the
    button at once, the probe reports 50 degrees every time, the timer
    ticks once during each of the 21601 conversions that follow the
    first, and the operator presses the button again after the
    announcement. *)
Definition session_ticks : nat := Z.to_nat 21601.
Definition session_samples : list Z := [580; 0; 580; 0].
Definition session_readings : list (Z * float) :=
  (94, celsius_50) :: repeat (94, celsius_50) session_ticks.
Definition session_schedule : list (list Isr) :=
  [PCINT1_vect] :: [] :: [] ::
  repeat [TIMER1_COMPA_vect] session_ticks ++
  [[]; []; []; []; []; [PCINT1_vect]].
Definition session_start : World :=
  setup session_schedule (power_on session_samples session_readings).

(** Six hours and a second into the Working stage on PLA; the operator
    will press the button after the announcement. *)
Definition session_done : World :=
  mkWorld (Some PLA) false 21601 true false Working 0 [580; 0]
    [[]; []; []; []; []; [PCINT1_vect]] [] [].

(** The world in which the call on [short_press] returns. *)
Definition short_press_end : World :=
  mkWorld None false 0 false false Idle 1005 [] [] [] [].

(** A rotation whose second contact never shows: the pin reads 845 for
    352 samplings, then 0; a press of the button follows. *)
Definition long_turn : World :=
  mkWorld None false 0 false true Idle 0 (845 :: repeat 845 351 ++ [0; 580])
    [] [] [].

(** A rotation the other way with both contacts, noticed through the
    edge interrupt 2 ms after the call. *)
Definition quick_turn : World :=
  mkWorld None false 0 false false Idle 0 [700; 700; 845; 845; 0; 580]
    [[]; [PCINT1_vect]] [] [].

(** One second short of an hour of preheating on PLA; the timer ticks
    during the next conversion, which reports 45 degrees. *)
Definition preheating_hour : World :=
  mkWorld (Some PLA) false 3599 true false PreHeating 0 []
    [[TIMER1_COMPA_vect]] [(94, celsius_45)] [].

(** An hour of preheating on the counter. *)
Definition preheating_over : World :=
  mkWorld (Some PLA) true 3600 true false PreHeating 0 [] [] [] [].

(** No profile, the heater flag still set, the button pressed. *)
Definition no_profile : World :=
  mkWorld None false 0 true true Working 0 [580; 0] [] [] [].

(** The menu at the last profile, the button pressed. *)
Definition menu_at_last : World :=
  mkWorld (Some (filament_at 4)) false 0 false true Idle 0 [580; 0] [] [] [].

(** 300.0 degrees (an exact value, not normalised). *)
Definition celsius_300 : float := S754_finite false 300 0.

(** The probe is about to report 300 degrees; PLA is being preheated. *)
Definition overheated : World :=
  mkWorld (Some PLA) false 10 true false PreHeating 0 [] []
    [(94, celsius_300)] [].

(** The last second of a session on PLA: the counter equals the
    duration and the timer ticks during the next conversion. *)
Definition last_second : World :=
  mkWorld (Some PLA) false 21600 false false Working 0 [] 
    [[TIMER1_COMPA_vect]] [(94, celsius_45)] [].

(** Half an hour into a session on PLA, five seconds past. *)
Definition half_hour_in : World :=
  mkWorld (Some PLA) false 1805 false false Working 0 [] [[]]
    [(94, celsius_50)] [].

(** Ten minutes and five seconds of preheating on PLA. *)
Definition ten_minutes_in : World :=
  mkWorld (Some PLA) true 605 true false PreHeating 0 [] [[]]
    [(94, celsius_45)] [].

(** No profile, nothing on the encoder and no interrupt to come. *)
Definition nobody_there : World :=
  mkWorld None false 0 false false Idle 0 [845; 0] [[]; [TIMER1_COMPA_vect]]
    [] [].

(** The encoder flag is up but the pin is back at zero. *)
Definition bounce : World :=
  mkWorld None false 0 false true Idle 77 [500; 0; 580] [] [] [].

(** No profile; the operator presses the button and the probe reports
    50 degrees. *)
Definition fresh_choice : World :=
  mkWorld None false 0 false true Idle 0 [580; 0] [] [(94, celsius_50)] [].

(** A rotation under way: the first contact has been seen at time 5,
    the pin still shows it once, then the second contact. *)
Definition second_contact : World :=
  mkWorld None false 0 false true Idle 5 [700; 845; 0] [] [] [].

(** No profile, the heater flag still set; the operator turns the
    encoder one notch forward and then presses the button. *)
Definition one_notch : World :=
  mkWorld None false 0 true true Working 0 [700; 845; 0; 580; 0]
    [[]; [PCINT1_vect]] [] [].

(** Power-on with the operator pressing the button at once and the
    probe reporting 50 degrees, and the state after the first iteration
    of [loop]. *)
Definition first_power_on : World :=
  setup [[PCINT1_vect]; []; []] (power_on session_samples [(94, celsius_50)]).
Definition pla_started : World := final (loop first_power_on).

(** The second contact never shows: the pin reads 700 for 351
    samplings. *)
Definition lone_contact : World :=
  mkWorld None false 0 false true Idle 5 (repeat 700 351) [] [] [].

(** * Properties *)

(** ** Frames *)

Lemma quiet_refl : forall w, quiet w w.
Proof. intros w; repeat split; auto. Qed.

Lemma quiet_trans : forall a b c, quiet a b -> quiet b c -> quiet a c.
Proof.
  unfold quiet;
    intros a b c (H1 & H2 & H3 & H4 & H5 & H6) (K1 & K2 & K3 & K4 & K5 & K6).
  repeat split; try congruence. lia.
Qed.

Lemma hands_off_refl : forall w, hands_off w w.
Proof. intros w; repeat split. Qed.

Lemma hands_off_trans :
  forall a b c, hands_off a b -> hands_off b c -> hands_off a c.
Proof.
  unfold hands_off; intros a b c (H1 & H2) (K1 & K2).
  repeat split; congruence.
Qed.

Lemma quiet_hands_off : forall w w', quiet w w' -> hands_off w w'.
Proof.
  unfold quiet, hands_off; intros w w' (H1 & H2 & H3 & H4 & H5 & H6).
  repeat split; congruence.
Qed.

Lemma always_ret : forall A R (a : A),
  (forall w, R w w) -> always R (ret a).
Proof. intros A R a HR w; apply HR. Qed.

Lemma always_exec : forall R (f : World -> World),
  (forall w, R w (f w)) -> always R (exec f).
Proof. intros R f HR w; apply HR. Qed.

Lemma always_bind : forall A B R (m : M A) (k : A -> M B),
  (forall a b c, R a b -> R b c -> R a c) ->
  always R m -> (forall a, always R (k a)) -> always R (bind m k).
Proof.
  intros A B R m k Htrans Hm Hk w. unfold bind.
  specialize (Hm w). destruct (m w) as [a w1|r w1|w1|w1]; cbn in *; auto.
  eapply Htrans; [exact Hm|apply Hk].
Qed.

(** A sequence that returns: its first part returned as well. *)
Lemma bind_done : forall A B (m : M A) (k : A -> M B) w b w',
  bind m k w = Done b w' ->
  exists a w1, m w = Done a w1 /\ k a w1 = Done b w'.
Proof.
  intros A B m k w b w' H. unfold bind in H.
  destruct (m w) as [a w1| | |]; try discriminate H. eauto.
Qed.

Lemma isr_quiet : forall v w, quiet w (isr v w).
Proof. intros [] w; repeat split; auto. Qed.

Lemma serve_quiet : forall fired w,
  quiet w (fold_left (fun u v => isr v u) fired w).
Proof.
  induction fired as [|v fired IH]; intros w; cbn.
  - apply quiet_refl.
  - eapply quiet_trans; [apply (isr_quiet v)|apply IH].
Qed.

Lemma delay_quiet : forall ms w, quiet w (delay ms w).
Proof.
  intros ms w. unfold delay. cbn.
  destruct (irqs w) as [|fired rest].
  - repeat split; auto.
  - eapply quiet_trans; [|apply serve_quiet]. repeat split; auto.
Qed.

Lemma serve_adc : forall fired w,
  adc (fold_left (fun u v => isr v u) fired w) = adc w.
Proof.
  induction fired as [|v fired IH]; intros w; cbn; auto.
  rewrite IH. destruct v; reflexivity.
Qed.

Lemma serve_clock : forall fired w,
  clock (fold_left (fun u v => isr v u) fired w) = clock w.
Proof.
  induction fired as [|v fired IH]; intros w; cbn; auto.
  rewrite IH. destruct v; reflexivity.
Qed.

Lemma serve_irqs : forall fired w,
  irqs (fold_left (fun u v => isr v u) fired w) = irqs w.
Proof.
  induction fired as [|v fired IH]; intros w; cbn; auto.
  rewrite IH. destruct v; reflexivity.
Qed.

Lemma delay_adc : forall ms w, adc (delay ms w) = adc w.
Proof.
  intros ms w. unfold delay. cbn. destruct (irqs w); cbn; auto.
  rewrite serve_adc; reflexivity.
Qed.

Lemma delay_clock : forall ms w, clock (delay ms w) = wrap32 (clock w + ms).
Proof.
  intros ms w. unfold delay. cbn. destruct (irqs w); cbn; auto.
  rewrite serve_clock; reflexivity.
Qed.

Lemma delay_irqs : forall ms w, irqs (delay ms w) = tl (irqs w).
Proof.
  intros ms w. unfold delay. cbn. destruct (irqs w) eqn:E; cbn; auto.
  rewrite serve_irqs; reflexivity.
Qed.

(** ** panic *)

Lemma panic_heater_off : forall A reason w w',
  @panic A reason w = Halted reason w' ->
  heater_is_on w' = false /\ heater_pin w' = Some false.
Proof.
  intros A reason w w' H. unfold panic in H. injection H as <-.
  split; reflexivity.
Qed.

Lemma panic_halts : forall A reason w,
  exists w', @panic A reason w = Halted reason w' /\
             heater_is_on w' = false /\ heater_pin w' = Some false.
Proof.
  intros A reason w. eexists. split; [reflexivity|].
  split; reflexivity.
Qed.

(** ** C1: the stage machine of set_heater_state *)

(** C1.  With a profile selected, a reading strictly above the target
    switches the heater off and takes Idle and PreHeating to Working
    with the seconds counter at 0 (from Idle in one step, without passing
    through PreHeating); any other reading switches the heater on and
    takes Idle to PreHeating with the counter at 0.  In the remaining
    cases stage and counter stay as they are. *)
Theorem set_heater_state_transition :
  forall (w : World) (f : Filament) (t : Z),
    filament w = Some f ->
    exists w',
      set_heater_state t w = Done tt w' /\
      filament w' = Some f /\
      (t > temp f ->
         heater_is_on w' = false /\
         trace w' = Pin HEATER_PIN false :: trace w /\
         (heating_stage w = Idle \/ heating_stage w = PreHeating ->
            heating_stage w' = Working /\ seconds w' = 0) /\
         (heating_stage w = Working ->
            heating_stage w' = Working /\ seconds w' = seconds w)) /\
      (t <= temp f ->
         heater_is_on w' = true /\
         trace w' = Pin HEATER_PIN true :: trace w /\
         (heating_stage w = Idle ->
            heating_stage w' = PreHeating /\ seconds w' = 0) /\
         (heating_stage w <> Idle ->
            heating_stage w' = heating_stage w /\ seconds w' = seconds w)).
Proof.
  intros w f t Hf. unfold set_heater_state. rewrite Hf.
  unfold target_of.
  destruct (Z.gtb_spec t (temp f)) as [Hgt|Hle];
    cbn [turn_off turn_on heating_stage set_heater_is_on emit];
    destruct (heating_stage w) eqn:Hs; cbn [stage_eqb orb];
    eexists; (split; [reflexivity|]); cbn; rewrite ?Hs;
    (split; [exact Hf|]); split; intros Hcmp; try lia;
    repeat split; try tauto; try congruence;
    try (intros [K|K]; discriminate K); try (intros K; discriminate K);
    try match goal with H : _ \/ _ |- _ => destruct H; discriminate end.
Qed.

(** ** C2: the plausibility checks of query_sensor *)

Lemma sentinel_truncation : forall value,
  float_eqb value DEVICE_DISCONNECTED_C = true ->
  wrap8 (float_to_uint value) = 129.
Proof.
  intros [s|s| |s m e]; cbn [float_eqb DEVICE_DISCONNECTED_C];
    try discriminate.
  intros H. apply andb_true_iff in H as [Hs Hm].
  apply Bool.eqb_prop in Hs. subst s. apply Z.eqb_eq in Hm.
  unfold float_to_uint, float_trunc.
  assert (Hmag : (if 0 <=? e then Z.pos m * 2 ^ e
                  else Z.pos m / 2 ^ (- e)) = 127).
  { destruct (Z.leb_spec 0 e) as [Hge|Hlt].
    - rewrite Z.min_r in Hm by lia.
      replace (e - 0) with e in Hm by lia.
      replace (0 - 0) with 0 in Hm by lia.
      rewrite Z.pow_0_r in Hm. lia.
    - rewrite Z.min_l in Hm by lia.
      replace (e - e) with 0 in Hm by lia.
      replace (0 - e) with (- e) in Hm by lia.
      rewrite Z.pow_0_r in Hm. rewrite Z.mul_1_r in Hm. rewrite Hm.
      apply Z.div_mul. apply Z.pow_nonzero; lia. }
  rewrite Hmag. reflexivity.
Qed.

(** A plausible reading is returned once the conversion is over. *)
Lemma query_sensor_plausible : forall w conversion value rest,
  probe w = (conversion, value) :: rest ->
  2 <= wrap8 (float_to_uint value) <= 119 ->
  query_sensor w =
    Done (wrap8 (float_to_uint value)) (delay conversion (set_probe rest w)).
Proof.
  intros w conversion value rest Hp Ht. unfold query_sensor. rewrite Hp.
  pose proof (sentinel_truncation value) as Hsent.
  destruct (float_eqb value DEVICE_DISCONNECTED_C);
    [specialize (Hsent eq_refl); lia|].
  destruct (Z.leb_spec (wrap8 (float_to_uint value)) 1); [lia|].
  destruct (Z.geb_spec (wrap8 (float_to_uint value)) 120); [lia|].
  reflexivity.
Qed.

(** C2.  A reading equal to the disconnect value ends in [panic] with
    the heater off; a reading whose truncation to 8 bits is at most 1 or
    at least 120 ends in [panic] (frozen, burned); a reading whose
    truncation is in 2..119 is returned as that truncation, and nothing
    but the wait for the conversion happens. *)
Theorem query_sensor_checks :
  forall (w : World) (conversion : Z) (value : float)
         (rest : list (Z * float)),
    probe w = (conversion, value) :: rest ->
    let t := wrap8 (float_to_uint value) in
    (float_eqb value DEVICE_DISCONNECTED_C = true ->
       exists w', query_sensor w = Halted "Temp NaN." w' /\
                  heater_is_on w' = false /\ heater_pin w' = Some false) /\
    (t <= 1 ->
       exists w', query_sensor w = Halted "Frozen." w' /\
                  heater_is_on w' = false /\ heater_pin w' = Some false) /\
    (120 <= t ->
       exists w',
         query_sensor w =
           Halted (if float_eqb value DEVICE_DISCONNECTED_C
                   then "Temp NaN." else "Burned.") w' /\
         heater_is_on w' = false /\ heater_pin w' = Some false) /\
    (2 <= t <= 119 ->
       query_sensor w = Done t (delay conversion (set_probe rest w)) /\
       quiet (set_probe rest w) (delay conversion (set_probe rest w))).
Proof.
  intros w conversion value rest Hp t. unfold query_sensor. rewrite Hp.
  pose proof (sentinel_truncation value) as Hsent. fold t in Hsent.
  destruct (float_eqb value DEVICE_DISCONNECTED_C) eqn:Heq.
  - specialize (Hsent eq_refl).
    split; [intros _; apply panic_halts|].
    split; [intros; lia|].
    split; [intros _; apply panic_halts|intros; lia].
  - clear Hsent. fold t.
    split; [discriminate|].
    destruct (Z.leb_spec t 1) as [Hlow|Hlow].
    + split; [intros _; apply panic_halts|].
      split; intros; lia.
    + split; [intros; lia|].
      destruct (Z.geb_spec t 120) as [Hhigh|Hhigh].
      * split; [intros _; apply panic_halts|intros; lia].
      * split; [intros; lia|]. intros _. split; [reflexivity|].
        apply delay_quiet.
Qed.

(** ** read_action *)

Lemma classify_in_band : forall v a, classify v = Some a <-> in_band a v.
Proof.
  intros v a. unfold classify, in_band.
  destruct (Z.eqb_spec v 0) as [E|E];
    [|destruct (Z.ltb_spec 840 v), (Z.ltb_spec v 850); cbn [andb];
      [|destruct (Z.ltb_spec 690 v), (Z.ltb_spec v 705); cbn [andb];
        [|destruct (Z.ltb_spec 560 v), (Z.ltb_spec v 610);
          cbn [andb]..]..]];
    destruct a; split; intros Hx; try lia; try congruence.
Qed.

Lemma classify_out_of_band : forall v, classify v = None <-> out_of_band v.
Proof.
  intros v. unfold out_of_band. split.
  - intros H a Ha. apply classify_in_band in Ha. congruence.
  - intros H. destruct (classify v) as [a|] eqn:E; auto.
    exfalso. apply (H a). apply classify_in_band. exact E.
Qed.

(** The loop of [read_action], one sample at a time. *)
Lemma read_samples_cons : forall v rest,
  read_samples (v :: rest) =
    match classify v with
    | Some a => Some (a, rest)
    | None => read_samples rest
    end.
Proof.
  intros v rest. cbn [read_samples]. unfold classify.
  rewrite !Z.gtb_ltb.
  destruct (v =? 0); auto.
  destruct ((840 <? v) && (v <? 850)); auto.
  destruct ((690 <? v) && (v <? 705)); auto.
  destruct ((560 <? v) && (v <? 610)); auto.
Qed.

Lemma read_samples_actions : forall samples,
  match read_samples samples with
  | Some (a, rest) =>
      actions samples = a :: actions rest /\
      (List.length rest < List.length samples)%nat
  | None => actions samples = []
  end.
Proof.
  induction samples as [|v rest IH].
  - reflexivity.
  - rewrite read_samples_cons. cbn [actions].
    destruct (classify v) as [a|].
    + split; [reflexivity|cbn; lia].
    + destruct (read_samples rest) as [[a rest']|]; auto.
      destruct IH as [IH1 IH2]. split; [exact IH1|cbn; lia].
Qed.

Lemma read_samples_skip : forall skipped v rest a,
  Forall out_of_band skipped -> in_band a v ->
  read_samples (skipped ++ v :: rest) = Some (a, rest).
Proof.
  induction skipped as [|s skipped IH]; intros v rest a Hs Hv.
  - cbn [app]. rewrite read_samples_cons.
    apply classify_in_band in Hv. rewrite Hv. reflexivity.
  - inversion Hs as [|? ? Hout Hrest]; subst.
    cbn [app]. rewrite read_samples_cons.
    apply classify_out_of_band in Hout. rewrite Hout. auto.
Qed.

Lemma read_samples_starved : forall samples,
  Forall out_of_band samples -> read_samples samples = None.
Proof.
  induction samples as [|s samples IH]; intros Hs; auto.
  inversion Hs as [|? ? Hout Hrest]; subst.
  rewrite read_samples_cons.
  apply classify_out_of_band in Hout. rewrite Hout. auto.
Qed.

(** What a call of [read_action] does, in terms of the levels to come. *)
Lemma read_action_cases : forall w,
  match actions (adc w) with
  | [] => read_action w = Blocked (set_adc [] w)
  | a :: coming =>
      exists rest,
        read_action w = Done a (set_adc rest w) /\
        actions rest = coming /\
        (List.length rest < List.length (adc w))%nat
  end.
Proof.
  intros w. unfold read_action.
  pose proof (read_samples_actions (adc w)) as H.
  destruct (read_samples (adc w)) as [[a rest]|].
  - destruct H as [H1 H2]. rewrite H1. exists rest. auto.
  - rewrite H. reflexivity.
Qed.

Lemma read_action_quiet : always quiet read_action.
Proof.
  intros w. unfold read_action.
  pose proof (read_samples_actions (adc w)) as H.
  destruct (read_samples (adc w)) as [[a rest]|]; cbn; repeat split;
    cbn; try lia.
Qed.

(** C6 as stated fails: the sample 500 lies in no band, and
    [read_action] neither reports NoAction for it nor returns on it; it
    reads the pin again and reports the next sample, 845, as Prev.  With
    no further sample it does not return. *)
Lemma read_action_resamples :
  out_of_band 500 /\
  read_action stray_sample = Done ActionPrev (set_adc [] stray_sample) /\
  (forall w', read_action stray_sample <> Done NoAction w') /\
  read_action only_stray = Blocked (set_adc [] only_stray).
Proof.
  split; [apply classify_out_of_band; reflexivity|].
  split; [reflexivity|]. split; [|reflexivity].
  intros w' H. discriminate H.
Qed.

(** C6, amended.  [read_action] samples the pin until a sample is zero
    or lies in a band: the samples before it, which lie in no band, are
    dropped, and the first one that does decides the result (zero: none,
    841..849: Prev, 691..704: Next, 561..609: Confirm).  If no such
    sample comes it does not return.  The bands exclude one another, so
    a sample stands for one action at most. *)
Theorem read_action_first_in_band :
  forall (w : World),
    (forall skipped v rest a,
       adc w = skipped ++ v :: rest ->
       Forall out_of_band skipped ->
       in_band a v ->
       read_action w = Done a (set_adc rest w)) /\
    (Forall out_of_band (adc w) -> read_action w = Blocked (set_adc [] w)) /\
    (forall v a b, in_band a v -> in_band b v -> a = b).
Proof.
  intros w. split; [|split].
  - intros skipped v rest a Hadc Hs Hv. unfold read_action.
    rewrite Hadc, (read_samples_skip skipped v rest a Hs Hv). reflexivity.
  - intros Hall. unfold read_action.
    rewrite (read_samples_starved _ Hall). reflexivity.
  - intros v a b Ha Hb.
    apply classify_in_band in Ha. apply classify_in_band in Hb. congruence.
Qed.

(** ** The waiting loops of wait_for_action *)

Lemma action_eqb_eq : forall a b, action_eqb a b = true <-> a = b.
Proof. intros [] []; cbn; split; intros H; try discriminate; auto. Qed.

Lemma action_eqb_refl : forall a, action_eqb a a = true.
Proof. intros []; reflexivity. Qed.

Lemma action_eqb_neq : forall a b, a <> b -> action_eqb a b = false.
Proof.
  intros a b H. destruct (action_eqb a b) eqn:E; auto.
  apply action_eqb_eq in E. contradiction.
Qed.

Lemma serve_event_kept : forall fired w,
  event_on_encoder w = true ->
  event_on_encoder (fold_left (fun u v => isr v u) fired w) = true.
Proof.
  induction fired as [|v fired IH]; intros w H; cbn; auto.
  apply IH. destruct v; cbn; auto.
Qed.

Lemma serve_event_set : forall fired w,
  In PCINT1_vect fired ->
  event_on_encoder (fold_left (fun u v => isr v u) fired w) = true.
Proof.
  induction fired as [|v fired IH]; intros w H; cbn.
  - destruct H.
  - destruct H as [->|H].
    + apply serve_event_kept. reflexivity.
    + apply IH. exact H.
Qed.

Lemma await_event_quiet : forall fuel, always quiet (await_event fuel).
Proof.
  induction fuel as [|n IH]; intros w; cbn [await_event];
    destruct (event_on_encoder w); cbn [final]; try apply quiet_refl.
  eapply quiet_trans; [apply (delay_quiet 1)|apply IH].
Qed.

Lemma await_event_adc : forall fuel w,
  adc (final (await_event fuel w)) = adc w.
Proof.
  induction fuel as [|n IH]; intros w; cbn [await_event];
    destruct (event_on_encoder w); cbn [final]; auto.
  rewrite IH. apply delay_adc.
Qed.

(** The first loop ends as soon as the edge interrupt has been served. *)
Lemma await_event_returns : forall schedule w,
  irqs w = schedule ->
  pending w ->
  exists w0,
    await_event (List.length schedule) w = Done tt w0 /\
    event_on_encoder w0 = true.
Proof.
  induction schedule as [|fired rest IH]; intros w Hirq Hp.
  - cbn [List.length await_event].
    destruct Hp as [Hp|Hp].
    + rewrite Hp. eauto.
    + rewrite Hirq in Hp. destruct Hp.
  - cbn [List.length await_event].
    destruct (event_on_encoder w) eqn:Hev; [eauto|].
    apply IH.
    + rewrite delay_irqs, Hirq. reflexivity.
    + unfold pending. destruct Hp as [Hp|Hp]; [congruence|].
      rewrite Hirq in Hp. cbn [List.concat] in Hp.
      apply in_app_or in Hp. destruct Hp as [Hp|Hp]; [left|right].
      * unfold delay. cbn. rewrite Hirq. apply serve_event_set. exact Hp.
      * rewrite delay_irqs, Hirq. exact Hp.
Qed.

Lemma elapsed_range : forall t0 w, 0 <= elapsed t0 w < 4294967296.
Proof. intros t0 w. unfold elapsed, wrap32. apply Z.mod_pos_bound. lia. Qed.

Lemma elapsed_delay : forall t0 ms w,
  elapsed t0 (delay ms w) = wrap32 (elapsed t0 w + ms).
Proof.
  intros t0 ms w. unfold elapsed, millis. rewrite delay_clock.
  unfold wrap32. rewrite Zminus_mod_idemp_l, Zplus_mod_idemp_l.
  f_equal. lia.
Qed.

Lemma elapsed_set_adc : forall t0 rest w,
  elapsed t0 (set_adc rest w) = elapsed t0 w.
Proof. reflexivity. Qed.

Lemma elapsed_start : forall w, elapsed (millis w) w = 0.
Proof.
  intros w. unfold elapsed. rewrite Z.sub_diag. reflexivity.
Qed.

Lemma await_pair_quiet : forall fuel paired t0,
  always quiet (await_pair fuel paired t0).
Proof.
  induction fuel as [|n IH]; intros paired t0; cbn [await_pair].
  - intros w. apply quiet_refl.
  - apply always_bind; [apply quiet_trans|apply read_action_quiet|].
    intros a. destruct (action_eqb a paired).
    + apply always_ret, quiet_refl.
    + apply always_bind; [apply quiet_trans| |].
      * apply always_exec. apply delay_quiet.
      * intros _ w.
        destruct (wrap32 (millis w - t0) >? ENCODER_TIMEOUT).
        -- apply quiet_refl.
        -- apply IH.
Qed.

Lemma await_release_quiet : forall fuel, always quiet (await_release fuel).
Proof.
  induction fuel as [|n IH]; cbn [await_release].
  - intros w. apply quiet_refl.
  - apply always_bind; [apply quiet_trans|apply read_action_quiet|].
    intros a. destruct (action_eqb a NoAction).
    + apply always_ret, quiet_refl.
    + apply always_bind; [apply quiet_trans| |].
      * apply always_exec. apply delay_quiet.
      * intros _. apply IH.
Qed.

(** The second contact shows up after [pre] other levels, in time. *)
Lemma await_pair_found : forall pre fuel paired t0 w coming,
  actions (adc w) = pre ++ paired :: coming ->
  ~ In paired pre ->
  elapsed t0 w + Z.of_nat (List.length pre) <= ENCODER_TIMEOUT ->
  (List.length (adc w) < fuel)%nat ->
  exists w',
    await_pair fuel paired t0 w = Done tt w' /\
    actions (adc w') = coming /\
    elapsed t0 w' = elapsed t0 w + Z.of_nat (List.length pre).
Proof.
  induction pre as [|p pre IH]; intros fuel paired t0 w coming Hact Hnot Ht Hf;
    (destruct fuel as [|n]; [lia|]); cbn [await_pair]; unfold bind;
    pose proof (read_action_cases w) as Hr; rewrite Hact in Hr;
    cbn [app] in Hr; destruct Hr as (rest & Hr & Hrest & Hlen); rewrite Hr.
  - rewrite action_eqb_refl. cbn [ret]. eexists. split; [reflexivity|].
    split; [exact Hrest|]. cbn [List.length]. rewrite elapsed_set_adc. lia.
  - rewrite action_eqb_neq by (intros ->; apply Hnot; left; reflexivity).
    cbn [exec]. fold (elapsed t0 (delay 1 (set_adc rest w))).
    pose proof (elapsed_range t0 w) as Hrange.
    assert (He : elapsed t0 (delay 1 (set_adc rest w)) = elapsed t0 w + 1).
    { rewrite elapsed_delay, elapsed_set_adc. unfold wrap32.
      apply Z.mod_small. unfold ENCODER_TIMEOUT in Ht.
      cbn [List.length] in Ht. lia. }
    rewrite He. cbn [List.length] in Ht.
    destruct (Z.gtb_spec (elapsed t0 w + 1) ENCODER_TIMEOUT) as [Hgt|Hle];
      [lia|].
    destruct (IH n paired t0 (delay 1 (set_adc rest w)) coming)
      as (w' & Hw' & Hcoming & Hel).
    + rewrite delay_adc. exact Hrest.
    + intros Hin. apply Hnot. right. exact Hin.
    + rewrite He. lia.
    + rewrite delay_adc. cbn. lia.
    + exists w'. split; [exact Hw'|]. split; [exact Hcoming|].
      rewrite Hel, He. cbn [List.length]. lia.
Qed.

(** The second contact does not show up during the [S n] samplings that
    are left before the timeout. *)
Lemma await_pair_timeout : forall n polls fuel paired t0 w coming,
  List.length polls = S n ->
  actions (adc w) = polls ++ coming ->
  ~ In paired polls ->
  elapsed t0 w + Z.of_nat (S n) = ENCODER_TIMEOUT + 1 ->
  (List.length (adc w) < fuel)%nat ->
  exists w',
    await_pair fuel paired t0 w = Done tt w' /\
    actions (adc w') = coming /\
    elapsed t0 w' = ENCODER_TIMEOUT + 1.
Proof.
  induction n as [|n IH]; intros polls fuel paired t0 w coming Hlen Hact Hnot
    Ht Hf;
    (destruct polls as [|p polls]; [discriminate Hlen|]);
    (destruct fuel as [|m]; [lia|]); cbn [await_pair]; unfold bind;
    pose proof (read_action_cases w) as Hr; rewrite Hact in Hr;
    cbn [app] in Hr; destruct Hr as (rest & Hr & Hrest & Hlenr); rewrite Hr;
    rewrite action_eqb_neq by (intros ->; apply Hnot; left; reflexivity);
    cbn [exec]; fold (elapsed t0 (delay 1 (set_adc rest w)));
    pose proof (elapsed_range t0 w) as Hrange;
    assert (He : elapsed t0 (delay 1 (set_adc rest w)) = elapsed t0 w + 1)
      by (rewrite elapsed_delay, elapsed_set_adc; unfold wrap32;
          apply Z.mod_small; unfold ENCODER_TIMEOUT in Ht; lia);
    rewrite He.
  - destruct (Z.gtb_spec (elapsed t0 w + 1) ENCODER_TIMEOUT) as [Hgt|Hle];
      [|lia].
    eexists. split; [reflexivity|]. rewrite delay_adc. cbn [adc set_adc].
    destruct polls; [|discriminate Hlen]. split; [exact Hrest|].
    rewrite He. lia.
  - destruct (Z.gtb_spec (elapsed t0 w + 1) ENCODER_TIMEOUT) as [Hgt|Hle];
      [lia|].
    apply (IH polls m paired t0 (delay 1 (set_adc rest w)) coming).
    + cbn [List.length] in Hlen. lia.
    + rewrite delay_adc. exact Hrest.
    + intros Hin. apply Hnot. right. exact Hin.
    + rewrite He. lia.
    + rewrite delay_adc. cbn. lia.
Qed.

(** The contacts open after [held] samplings. *)
Lemma await_release_found : forall held fuel w coming,
  actions (adc w) = held ++ NoAction :: coming ->
  ~ In NoAction held ->
  (List.length (adc w) < fuel)%nat ->
  exists w',
    await_release fuel w = Done tt w' /\
    actions (adc w') = coming.
Proof.
  induction held as [|p held IH]; intros fuel w coming Hact Hnot Hf;
    (destruct fuel as [|n]; [lia|]); cbn [await_release]; unfold bind;
    pose proof (read_action_cases w) as Hr; rewrite Hact in Hr;
    cbn [app] in Hr; destruct Hr as (rest & Hr & Hrest & Hlen); rewrite Hr.
  - cbn. eauto.
  - rewrite action_eqb_neq by (intros ->; apply Hnot; left; reflexivity).
    cbn [exec]. apply IH.
    + rewrite delay_adc. exact Hrest.
    + intros Hin. apply Hnot. right. exact Hin.
    + rewrite delay_adc. cbn. lia.
Qed.

(** ** wait_for_action as a whole *)

Lemma debounce_quiet : forall action t0, always quiet (debounce action t0).
Proof.
  intros action t0. unfold debounce.
  apply always_bind; [apply quiet_trans| |intros _].
  - destruct (action_eqb action ActionPrev).
    + intros w. apply await_pair_quiet.
    + apply always_ret, quiet_refl.
  - apply always_bind; [apply quiet_trans| |intros _].
    + destruct (action_eqb action ActionNext).
      * intros w. apply await_pair_quiet.
      * apply always_ret, quiet_refl.
    + intros w. apply await_release_quiet.
Qed.

Lemma settle_quiet : forall action t0, always quiet (settle action t0).
Proof.
  intros action t0 w. unfold settle. cbn [final].
  eapply quiet_trans; [apply delay_quiet|]. repeat split; auto.
Qed.

Lemma wait_for_action_quiet : always quiet wait_for_action.
Proof.
  unfold wait_for_action.
  apply always_bind; [apply quiet_trans| |intros _].
  - intros w. apply await_event_quiet.
  - apply always_bind; [apply quiet_trans|apply read_action_quiet|].
    intros action. destruct (action_eqb action NoAction).
    + apply always_ret, quiet_refl.
    + intros w.
      apply (always_bind _ _ quiet (debounce action (millis w))
               (fun _ => settle action (millis w)) quiet_trans).
      * apply debounce_quiet.
      * intros _. apply settle_quiet.
Qed.

(** The stations of a call that returns. *)
Lemma wait_for_action_returned : forall w a w',
  wait_for_action w = Done a w' ->
  exists w0 w1,
    await_event (List.length (irqs w)) w = Done tt w0 /\
    read_action w0 = Done a w1 /\
    (a = NoAction -> w' = w1) /\
    (a <> NoAction ->
       exists w4,
         debounce a (millis w1) w1 = Done tt w4 /\
         settle a (millis w1) w4 = Done a w').
Proof.
  intros w a w' H. unfold wait_for_action, bind in H.
  destruct (await_event (List.length (irqs w)) w) as [[] w0| | |] eqn:E0;
    try discriminate H.
  destruct (read_action w0) as [a1 w1| | |] eqn:E1; try discriminate H.
  exists w0, w1. split; [reflexivity|].
  destruct (action_eqb a1 NoAction) eqn:Ea.
  - apply action_eqb_eq in Ea. subst a1. cbn [ret] in H.
    injection H as <- <-. split; [exact E1|]. split; [auto|].
    intros K. contradiction.
  - destruct (debounce a1 (millis w1) w1) as [[] w4| | |] eqn:E4;
      try discriminate H.
    assert (a1 = a) by (unfold settle in H; congruence). subst a1.
    split; [exact E1|]. split.
    + intros ->. discriminate Ea.
    + intros _. exists w4. split; [exact E4|exact H].
Qed.

(** Putting a returning call together from its stations. *)
Lemma wait_for_action_stations : forall w w0 a w1 w4,
  await_event (List.length (irqs w)) w = Done tt w0 ->
  read_action w0 = Done a w1 ->
  a <> NoAction ->
  debounce a (millis w1) w1 = Done tt w4 ->
  wait_for_action w = settle a (millis w1) w4.
Proof.
  intros w w0 a w1 w4 H0 H1 Ha H4. unfold wait_for_action, bind.
  rewrite H0, H1, (action_eqb_neq _ _ Ha), H4. reflexivity.
Qed.

(** A call that returns has used up at least one sample. *)
Lemma wait_for_action_consumes : forall w a w',
  wait_for_action w = Done a w' ->
  (List.length (adc w') < List.length (adc w))%nat.
Proof.
  intros w a w' H.
  destruct (wait_for_action_returned _ _ _ H)
    as (w0 & w1 & H0 & H1 & Hnone & Hsome).
  pose proof (await_event_adc (List.length (irqs w)) w) as Hadc0.
  rewrite H0 in Hadc0. cbn [final] in Hadc0.
  pose proof (read_action_cases w0) as Hr. rewrite H1 in Hr.
  assert (Hlt : (List.length (adc w1) < List.length (adc w0))%nat).
  { destruct (actions (adc w0)); [discriminate Hr|].
    destruct Hr as (rest & Hr & _ & Hlen). injection Hr as _ Hw1.
    rewrite Hw1. exact Hlen. }
  rewrite Hadc0 in Hlt.
  destruct (action_eqb a NoAction) eqn:Ea.
  - apply action_eqb_eq in Ea. rewrite (Hnone Ea). exact Hlt.
  - destruct Hsome as (w4 & H4 & H5).
    { intros ->. discriminate Ea. }
    pose proof (debounce_quiet a (millis w1) w1) as Q4. rewrite H4 in Q4.
    pose proof (settle_quiet a (millis w1) w4) as Q5. rewrite H5 in Q5.
    destruct Q4 as (_ & _ & _ & _ & _ & L4).
    destruct Q5 as (_ & _ & _ & _ & _ & L5). cbn [final] in *. lia.
Qed.

(** A press of the button, held for [held] samplings, resolves to one
    Confirm. *)
Lemma wait_for_action_press : forall w held coming,
  pending w ->
  actions (adc w) = ActionConfirm :: held ++ NoAction :: coming ->
  ~ In NoAction held ->
  exists w',
    wait_for_action w = Done ActionConfirm w' /\
    actions (adc w') = coming /\
    event_on_encoder w' = false.
Proof.
  intros w held coming Hp Hact Hheld.
  destruct (await_event_returns (irqs w) w eq_refl Hp) as (w0 & H0 & _).
  pose proof (await_event_adc (List.length (irqs w)) w) as Hadc0.
  rewrite H0 in Hadc0. cbn [final] in Hadc0.
  pose proof (read_action_cases w0) as Hr. rewrite Hadc0, Hact in Hr.
  destruct Hr as (rest & Hr & Hrest & _).
  destruct (await_release_found held (turns (set_adc rest w0))
              (set_adc rest w0) coming Hrest Hheld)
    as (w4 & H4 & Hcoming).
  { unfold turns. lia. }
  assert (Hd : debounce ActionConfirm (millis (set_adc rest w0))
                 (set_adc rest w0) = Done tt w4).
  { unfold debounce, bind. cbn [action_eqb ret]. exact H4. }
  rewrite (wait_for_action_stations w w0 ActionConfirm _ w4 H0 Hr
             ltac:(discriminate) Hd).
  unfold settle. eexists. split; [reflexivity|].
  cbn [adc set_event_on_encoder event_on_encoder]. rewrite delay_adc.
  auto.
Qed.

(** ** C7: a rotation resolves to the direction that started it *)

Lemma debounce_rotation : forall dir t0 w1 w2,
  dir = ActionPrev \/ dir = ActionNext ->
  await_pair (turns w1) (opposite dir) t0 w1 = Done tt w2 ->
  debounce dir t0 w1 = await_release (turns w2) w2.
Proof.
  intros dir t0 w1 w2 [->| ->] H; unfold debounce, bind;
    cbn [action_eqb opposite ret] in *; rewrite H; reflexivity.
Qed.

(** The first sample of a call, once the flag is up. *)
Lemma first_sample : forall w a coming,
  pending w ->
  actions (adc w) = a :: coming ->
  exists w0 rest,
    await_event (List.length (irqs w)) w = Done tt w0 /\
    read_action w0 = Done a (set_adc rest w0) /\
    actions rest = coming.
Proof.
  intros w a coming Hp Hact.
  destruct (await_event_returns (irqs w) w eq_refl Hp) as (w0 & H0 & _).
  pose proof (await_event_adc (List.length (irqs w)) w) as Hadc0.
  rewrite H0 in Hadc0. cbn [final] in Hadc0.
  pose proof (read_action_cases w0) as Hr. rewrite Hadc0, Hact in Hr.
  destruct Hr as (rest & Hr & Hrest & _).
  exists w0, rest. auto.
Qed.

(** A rotation whose second contact is dealt with by [await_pair], and
    whose contacts open after [held] further samplings. *)
Lemma rotation_resolved : forall w dir rest w0 w2 held coming,
  dir = ActionPrev \/ dir = ActionNext ->
  await_event (List.length (irqs w)) w = Done tt w0 ->
  read_action w0 = Done dir (set_adc rest w0) ->
  await_pair (turns (set_adc rest w0)) (opposite dir)
    (millis (set_adc rest w0)) (set_adc rest w0) = Done tt w2 ->
  actions (adc w2) = held ++ NoAction :: coming ->
  ~ In NoAction held ->
  exists w',
    wait_for_action w = Done dir w' /\ actions (adc w') = coming.
Proof.
  intros w dir rest w0 w2 held coming Hdir H0 H1 H2 Hact Hheld.
  destruct (await_release_found held (turns w2) w2 coming Hact Hheld)
    as (w4 & H4 & Hcoming).
  { unfold turns. lia. }
  assert (Hd : debounce dir (millis (set_adc rest w0)) (set_adc rest w0)
               = Done tt w4).
  { rewrite (debounce_rotation dir _ _ w2 Hdir H2). exact H4. }
  assert (Hne : dir <> NoAction) by (destruct Hdir; subst; discriminate).
  rewrite (wait_for_action_stations w w0 dir _ w4 H0 H1 Hne Hd).
  unfold settle. eexists. split; [reflexivity|].
  cbn [adc set_event_on_encoder]. rewrite delay_adc. exact Hcoming.
Qed.

(** C7.  A call whose first sample is Prev (or Next) returns that same
    direction, once: both when the opposite level is not seen during the
    351 samplings the timeout allows, and when it is seen among them, and
    the samples up to the release are used up by that one call.  No such
    call returns anything else. *)
Theorem rotation_resolves_to_initiating_direction :
  forall (w : World) (dir : EncoderAction) (polls : list EncoderAction),
    dir = ActionPrev \/ dir = ActionNext ->
    pending w ->
    actions (adc w) = dir :: polls ->
    (forall waited held coming,
       polls = waited ++ held ++ NoAction :: coming ->
       List.length waited = 351%nat ->
       ~ In (opposite dir) waited ->
       ~ In NoAction held ->
       exists w',
         wait_for_action w = Done dir w' /\ actions (adc w') = coming) /\
    (forall waited held coming,
       polls = waited ++ opposite dir :: held ++ NoAction :: coming ->
       (List.length waited <= 350)%nat ->
       ~ In (opposite dir) waited ->
       ~ In NoAction held ->
       exists w',
         wait_for_action w = Done dir w' /\ actions (adc w') = coming) /\
    (forall a w', wait_for_action w = Done a w' -> a = dir).
Proof.
  intros w dir polls Hdir Hp Hact.
  destruct (first_sample w dir polls Hp Hact) as (w0 & rest & H0 & H1 & Hrest).
  split; [|split].
  - intros waited held coming Hpolls Hlen Hnot Hheld.
    destruct (await_pair_timeout 350 waited (turns (set_adc rest w0))
                (opposite dir) (millis (set_adc rest w0)) (set_adc rest w0)
                (held ++ NoAction :: coming))
      as (w2 & H2 & Hact2 & _).
    + exact Hlen.
    + cbn [adc set_adc]. rewrite Hrest. exact Hpolls.
    + exact Hnot.
    + rewrite elapsed_start. reflexivity.
    + unfold turns. lia.
    + eapply rotation_resolved; eauto.
  - intros waited held coming Hpolls Hlen Hnot Hheld.
    destruct (await_pair_found waited (turns (set_adc rest w0))
                (opposite dir) (millis (set_adc rest w0)) (set_adc rest w0)
                (held ++ NoAction :: coming))
      as (w2 & H2 & Hact2 & _).
    + cbn [adc set_adc]. rewrite Hrest. exact Hpolls.
    + exact Hnot.
    + rewrite elapsed_start. unfold ENCODER_TIMEOUT. lia.
    + unfold turns. lia.
    + eapply rotation_resolved; eauto.
  - intros a w' Hret.
    destruct (wait_for_action_returned _ _ _ Hret)
      as (v0 & v1 & K0 & K1 & _).
    rewrite H0 in K0. injection K0 as <-. rewrite H1 in K1.
    congruence.
Qed.

(** ** C8: the sleep before wait_for_action returns *)

(** C8 as stated fails: after a press of the button the routine does not
    return at once.  The button is released at time 1000 and the call
    returns at 1005: it sleeps for the jitter margin. *)
Lemma confirm_sleeps_jitter :
  exists w4 w',
    debounce ActionConfirm 1000 (set_adc [0] short_press) = Done tt w4 /\
    wait_for_action short_press = Done ActionConfirm w' /\
    millis w4 = 1000 /\
    millis w' = 1005 /\
    millis w' - millis w4 <> 0.
Proof.
  eexists. eexists. split; [reflexivity|]. split; [reflexivity|].
  split; [reflexivity|]. split; [reflexivity|]. discriminate.
Qed.

(** C8, amended.  A call that returns an action has slept, between the
    release of the contacts and its return, for the jitter margin (5 ms)
    when the action is Confirm, and otherwise for twice the time from
    the first sample to the release plus the jitter margin, in 32-bit
    arithmetic; the encoder flag is cleared afterwards. *)
Theorem quiet_period_before_return :
  forall (w : World) (a : EncoderAction) (w' : World),
    wait_for_action w = Done a w' ->
    a <> NoAction ->
    exists w0 w1 w4,
      await_event (List.length (irqs w)) w = Done tt w0 /\
      read_action w0 = Done a w1 /\
      debounce a (millis w1) w1 = Done tt w4 /\
      millis w' =
        wrap32 (millis w4 + quiet_period a (elapsed (millis w1) w4)) /\
      event_on_encoder w' = false /\
      quiet_period ActionConfirm (elapsed (millis w1) w4) = ENCODER_JITTER /\
      (a <> ActionConfirm ->
       elapsed (millis w1) w4 <= 2147483645 ->
       quiet_period a (elapsed (millis w1) w4) =
         2 * elapsed (millis w1) w4 + ENCODER_JITTER).
Proof.
  intros w a w' H Ha.
  destruct (wait_for_action_returned _ _ _ H)
    as (w0 & w1 & H0 & H1 & _ & Hsome).
  destruct (Hsome Ha) as (w4 & H4 & H5).
  exists w0, w1, w4. split; [exact H0|]. split; [exact H1|].
  split; [exact H4|].
  unfold settle in H5. injection H5 as <-.
  cbn [millis clock set_event_on_encoder event_on_encoder].
  rewrite delay_clock. unfold quiet_period, elapsed, millis.
  split; [|split; [reflexivity|split; [reflexivity|]]].
  - destruct (action_eqb a ActionConfirm); [reflexivity|].
    do 2 f_equal. f_equal. lia.
  - intros Hc Hsmall. rewrite (action_eqb_neq _ _ Hc).
    pose proof (elapsed_range (clock w1) w4) as Hr.
    unfold elapsed, millis in Hr.
    unfold wrap32 at 1. apply Z.mod_small. unfold ENCODER_JITTER. lia.
Qed.

(** ** C9: the index of the selection menu *)

Lemma lcd_seq_world : forall cmds w,
  lcd_seq cmds w =
    mkWorld (filament w) (refresh_screen w) (seconds w) (heater_is_on w)
      (event_on_encoder w) (heating_stage w) (clock w) (adc w) (irqs w)
      (probe w) (rev (map Screen cmds) ++ trace w).
Proof.
  unfold lcd_seq. induction cmds as [|c cmds IH]; intros w.
  - destruct w; reflexivity.
  - cbn [fold_left]. rewrite IH. cbn. rewrite <- app_assoc. reflexivity.
Qed.

(** C9.  For an index [i] of the catalog: Next moves it to 0 from the
    last index and to [i + 1] otherwise, Prev moves it to the last index
    from 0 and to [i - 1] otherwise, no action leaves it, the index stays
    in the catalog, and on Confirm the menu returns with the profile at
    [i] selected; on any other action it selects and shows the profile
    at the new index and goes on from there. *)
Theorem menu_index_cycles :
  forall (i : Z),
    0 <= i < catalog_size ->
    (i = catalog_size - 1 -> next_index ActionNext i = 0) /\
    (i <> catalog_size - 1 -> next_index ActionNext i = i + 1) /\
    (i = 0 -> next_index ActionPrev i = catalog_size - 1) /\
    (i <> 0 -> next_index ActionPrev i = i - 1) /\
    next_index NoAction i = i /\
    (forall a, 0 <= next_index a i < catalog_size) /\
    (forall fuel w w1,
       filament w = Some (filament_at i) ->
       wait_for_action w = Done ActionConfirm w1 ->
       menu_loop (S fuel) i w = Done tt w1 /\
       filament w1 = Some (filament_at i)) /\
    (forall fuel w a w1,
       wait_for_action w = Done a w1 ->
       a <> ActionConfirm ->
       exists w2,
         menu_loop (S fuel) i w = menu_loop fuel (next_index a i) w2 /\
         filament w2 = Some (filament_at (next_index a i)) /\
         trace w2 = menu_entry_log (filament_at (next_index a i)) ++ trace w1).
Proof.
  intros i Hi. unfold catalog_size in *. cbn [filaments List.length] in *.
  change (Z.of_nat 5) with 5 in *.
  assert (Hnext : forall a, 0 <= next_index a i < 5).
  { intros a. unfold next_index, MAX_IDX, MIN_IDX.
    cbn [filaments List.length]. change (Z.of_nat 5 - 1) with 4.
    destruct a; cbn [action_eqb];
      try destruct (Z.eqb_spec i 4); try destruct (Z.eqb_spec i 0); lia. }
  unfold next_index, MAX_IDX, MIN_IDX. cbn [filaments List.length action_eqb].
  change (Z.of_nat 5 - 1) with 4. change (5 - 1) with 4.
  split; [intros ->; reflexivity|].
  split; [intros Hne; destruct (Z.eqb_spec i 4); [contradiction|reflexivity]|].
  split; [intros ->; reflexivity|].
  split; [intros Hne; destruct (Z.eqb_spec i 0); [contradiction|reflexivity]|].
  split; [reflexivity|].
  split; [exact Hnext|].
  split.
  - intros fuel w w1 Hf Hw. cbn [menu_loop]. unfold bind. rewrite Hw.
    cbn [action_eqb ret]. split; [reflexivity|].
    pose proof (wait_for_action_quiet w) as Q. rewrite Hw in Q.
    destruct Q as (Q & _). cbn [final] in Q. congruence.
  - intros fuel w a w1 Hw Ha. cbn [menu_loop]. unfold bind. rewrite Hw.
    rewrite (action_eqb_neq _ _ Ha).
    unfold exec, present_filament, bind, deref_filament.
    cbn [filament set_filament]. eexists. split; [reflexivity|].
    rewrite lcd_seq_world. cbn. split; reflexivity.
Qed.

(** ** C5: an hour of preheating *)

(** C5.  In [update_screen], with the stage at PreHeating and the
    seconds counter at 3600 or more, the program ends in [panic] with the
    reason "Preheating." and the heater off.  So does the iteration of
    [loop] in which the counter has reached 3600 when the conversion is
    over, the timer has asked for a refresh, and the reading is plausible
    and not above the target, which keeps the stage at PreHeating. *)
Theorem preheating_timeout :
  forall (w : World) (f : Filament),
    filament w = Some f ->
    heating_stage w = PreHeating ->
    (forall t,
       3600 <= seconds w ->
       exists w',
         update_screen t w = Halted "Preheating." w' /\
         heater_is_on w' = false /\ heater_pin w' = Some false) /\
    (forall conversion value rest,
       probe w = (conversion, value) :: rest ->
       let measured := delay conversion (set_probe rest w) in
       let t := wrap8 (float_to_uint value) in
       3600 <= seconds measured ->
       refresh_screen measured = true ->
       2 <= t <= 119 ->
       t <= temp f ->
       exists w',
         loop w = Halted "Preheating." w' /\
         heater_is_on w' = false /\ heater_pin w' = Some false).
Proof.
  intros w f Hf Hs.
  assert (Hscreen : forall t u,
            filament u = Some f -> heating_stage u = PreHeating ->
            3600 <= seconds u ->
            exists w',
              update_screen t u = Halted "Preheating." w' /\
              heater_is_on w' = false /\ heater_pin w' = Some false).
  { intros t u Hfu Hsu Hsec.
    unfold update_screen, bind, deref_filament. rewrite Hfu.
    rewrite lcd_seq_world. cbn [heating_stage lcd emit seconds].
    rewrite Hsu. cbn [stage_eqb].
    destruct (Z.geb_spec (seconds u) 3600) as [_|Hlt]; [|lia].
    apply panic_halts. }
  split; [intros t; apply Hscreen; assumption|].
  intros conversion value rest Hp measured t Hsec Href Ht Hle.
  pose proof (query_sensor_plausible w conversion value rest Hp Ht) as Hq.
  pose proof (delay_quiet conversion (set_probe rest w)) as Hquiet.
  fold t measured in Hq, Hquiet.
  clearbody measured t.
  destruct Hquiet as (Qf & Qs & _).
  cbn [filament heating_stage set_probe] in Qf, Qs.
  unfold loop, bind. rewrite Hf. unfold session_over.
  rewrite Hs. cbn [stage_eqb]. unfold control, bind. rewrite Hq.
  unfold set_heater_state. rewrite Qf, Hf. unfold target_of.
  destruct (Z.gtb_spec t (temp f)) as [Hgt|_]; [lia|].
  cbn [turn_on heating_stage set_heater_is_on emit]. rewrite Qs, Hs.
  cbn [stage_eqb].
  change (refresh_screen (turn_on measured)) with (refresh_screen measured).
  rewrite Href.
  unfold exec. apply Hscreen.
  - cbn. rewrite Qf. exact Hf.
  - cbn. rewrite Qs. exact Hs.
  - cbn. exact Hsec.
Qed.

(** ** The selection menu and the selection block *)

Lemma log_grows_refl : forall w, log_grows w w.
Proof. intros w. exists []. reflexivity. Qed.

Lemma log_grows_trans :
  forall a b c, log_grows a b -> log_grows b c -> log_grows a c.
Proof.
  intros a b c [m1 H1] [m2 H2]. exists (m2 ++ m1).
  rewrite H2, H1. apply app_assoc.
Qed.

Lemma quiet_log_grows : forall w w', quiet w w' -> log_grows w w'.
Proof.
  intros w w' (_ & _ & _ & H & _). exists []. exact H.
Qed.

Lemma pin_writes_screen : forall cmds tr,
  pin_writes (rev (map Screen cmds) ++ tr) = pin_writes tr.
Proof.
  intros cmds tr. unfold pin_writes. rewrite filter_app.
  match goal with
  | |- ?l ++ _ = _ => assert (H : l = [])
  end.
  { induction cmds as [|c cmds IH]; [reflexivity|].
    cbn [map rev]. rewrite filter_app, IH. reflexivity. }
  rewrite H. reflexivity.
Qed.

Lemma lcd_seq_hands_off : forall cmds w, hands_off w (lcd_seq cmds w).
Proof.
  intros cmds w. rewrite lcd_seq_world. split; [reflexivity|].
  cbn [trace]. apply pin_writes_screen.
Qed.

Lemma lcd_seq_log_grows : forall cmds w, log_grows w (lcd_seq cmds w).
Proof.
  intros cmds w. rewrite lcd_seq_world. eexists. reflexivity.
Qed.

Lemma deref_filament_same : forall R : World -> World -> Prop,
  (forall w, R w w) -> always R deref_filament.
Proof.
  intros R HR w. unfold deref_filament. destruct (filament w); apply HR.
Qed.

Lemma present_filament_hands_off : always hands_off present_filament.
Proof.
  unfold present_filament.
  apply always_bind;
    [apply hands_off_trans|apply deref_filament_same, hands_off_refl|].
  intros f. apply always_exec. intros w. apply lcd_seq_hands_off.
Qed.

Lemma present_filament_log_grows : always log_grows present_filament.
Proof.
  unfold present_filament.
  apply always_bind;
    [apply log_grows_trans|apply deref_filament_same, log_grows_refl|].
  intros f. apply always_exec. intros w. apply lcd_seq_log_grows.
Qed.

Lemma wait_for_action_hands_off : always hands_off wait_for_action.
Proof. intros w. apply quiet_hands_off, wait_for_action_quiet. Qed.

Lemma wait_for_action_log_grows : always log_grows wait_for_action.
Proof. intros w. apply quiet_log_grows, wait_for_action_quiet. Qed.

Lemma menu_loop_hands_off : forall fuel i, always hands_off (menu_loop fuel i).
Proof.
  induction fuel as [|n IH]; intros i; cbn [menu_loop].
  - intros w. apply hands_off_refl.
  - apply always_bind;
      [apply hands_off_trans|apply wait_for_action_hands_off|].
    intros a. destruct (action_eqb a ActionConfirm).
    + apply always_ret, hands_off_refl.
    + apply always_bind; [apply hands_off_trans| |intros _].
      * apply always_exec. intros w. split; reflexivity.
      * apply always_bind;
          [apply hands_off_trans|apply present_filament_hands_off|].
        intros _. apply IH.
Qed.

Lemma menu_loop_log_grows : forall fuel i, always log_grows (menu_loop fuel i).
Proof.
  induction fuel as [|n IH]; intros i; cbn [menu_loop].
  - intros w. apply log_grows_refl.
  - apply always_bind;
      [apply log_grows_trans|apply wait_for_action_log_grows|].
    intros a. destruct (action_eqb a ActionConfirm).
    + apply always_ret, log_grows_refl.
    + apply always_bind; [apply log_grows_trans| |intros _].
      * apply always_exec. intros w. exists []. reflexivity.
      * apply always_bind;
          [apply log_grows_trans|apply present_filament_log_grows|].
        intros _. apply IH.
Qed.

(** The menu returns with a profile selected. *)
Lemma menu_loop_selects : forall fuel i w w',
  filament w <> None ->
  menu_loop fuel i w = Done tt w' ->
  filament w' <> None.
Proof.
  induction fuel as [|n IH]; intros i w w' Hf H; cbn [menu_loop] in H.
  - discriminate H.
  - unfold bind in H.
    pose proof (wait_for_action_quiet w) as Q.
    destruct (wait_for_action w) as [a w1| | |]; try discriminate H.
    destruct Q as (Q & _). cbn [final] in Q.
    destruct (action_eqb a ActionConfirm).
    + cbn [ret] in H. injection H as <-. congruence.
    + unfold exec, present_filament, bind, deref_filament in H.
      cbn [filament set_filament] in H.
      eapply IH; [|exact H]. rewrite lcd_seq_world. discriminate.
Qed.

(** [selection], from the world in which the menu is open. *)
Lemma selection_from_menu : forall w,
  selection w =
    ((fun m => menu_loop (turns m) MIN_IDX m);;
     exec clear_screen;;
     exec reset_timer;;
     exec (set_heating_stage Idle);;
     exec (set_refresh_screen true)) (menu_opened w).
Proof.
  intros w.
  unfold selection, choose_filament, present_filament, deref_filament,
    menu_opened, bind, exec.
  cbn [filament set_filament]. reflexivity.
Qed.

Lemma selection_tail_hands_off :
  always hands_off
    ((fun m => menu_loop (turns m) MIN_IDX m);;
     exec clear_screen;;
     exec reset_timer;;
     exec (set_heating_stage Idle);;
     exec (set_refresh_screen true)).
Proof.
  apply always_bind; [apply hands_off_trans| |intros _].
  { intros w. apply menu_loop_hands_off. }
  apply always_bind; [apply hands_off_trans| |intros _].
  { apply always_exec. intros w. split; reflexivity. }
  apply always_bind; [apply hands_off_trans| |intros _].
  { apply always_exec. intros w. split; reflexivity. }
  apply always_bind; [apply hands_off_trans| |intros _].
  { apply always_exec. intros w. split; reflexivity. }
  apply always_exec. intros w. split; reflexivity.
Qed.

Lemma selection_tail_log_grows :
  always log_grows
    ((fun m => menu_loop (turns m) MIN_IDX m);;
     exec clear_screen;;
     exec reset_timer;;
     exec (set_heating_stage Idle);;
     exec (set_refresh_screen true)).
Proof.
  apply always_bind; [apply log_grows_trans| |intros _].
  { intros w. apply menu_loop_log_grows. }
  apply always_bind; [apply log_grows_trans| |intros _].
  { apply always_exec. intros w. eexists [_; _]. reflexivity. }
  apply always_bind; [apply log_grows_trans| |intros _].
  { apply always_exec. intros w. exists []. reflexivity. }
  apply always_bind; [apply log_grows_trans| |intros _].
  { apply always_exec. intros w. exists []. reflexivity. }
  apply always_exec. intros w. exists []. reflexivity.
Qed.

(** What [selection] leaves behind when it returns. *)
Lemma selection_returned : forall w w',
  selection w = Done tt w' ->
  filament w' <> None /\ heating_stage w' = Idle /\ seconds w' = 0 /\
  heater_is_on w' = false.
Proof.
  intros w w' H. rewrite selection_from_menu in H.
  assert (Hoff : heater_is_on (menu_opened w) = false)
    by (unfold menu_opened; rewrite lcd_seq_world; reflexivity).
  assert (Hsel : filament (menu_opened w) <> None)
    by (unfold menu_opened; rewrite lcd_seq_world; discriminate).
  remember (menu_opened w) as m eqn:Hm. clear Hm.
  apply bind_done in H. destruct H as ([] & w1 & E & H).
  pose proof (menu_loop_hands_off (turns m) MIN_IDX m) as Hh.
  cbv beta in E. rewrite E in Hh.
  apply menu_loop_selects in E; [|exact Hsel].
  destruct Hh as (Hh & _). cbn [final] in Hh.
  unfold bind, exec in H. injection H as <-.
  repeat split; try reflexivity.
  - exact E.
  - cbn [heater_is_on set_refresh_screen set_heating_stage reset_timer
         set_seconds clear_screen lcd emit].
    congruence.
Qed.

(** ** C10: the heater is off while the operator chooses *)

Lemma menu_opened_log : forall w,
  trace (menu_opened w) =
    menu_entry_log (filament_at 0) ++
    [Screen LcdHome; Screen LcdClear; Pin HEATER_PIN false] ++ trace w.
Proof. intros w. unfold menu_opened. rewrite lcd_seq_world. reflexivity. Qed.

Lemma menu_opened_inputs : forall w,
  adc (menu_opened w) = adc w /\
  irqs (menu_opened w) = irqs w /\
  event_on_encoder (menu_opened w) = event_on_encoder w /\
  heater_is_on (menu_opened w) = false /\
  filament (menu_opened w) = Some (filament_at 0).
Proof.
  intros w. unfold menu_opened. rewrite lcd_seq_world. repeat split.
Qed.

Lemma next_index_in_catalog : forall a i,
  0 <= i < catalog_size -> 0 <= next_index a i < catalog_size.
Proof.
  intros a i Hi. unfold catalog_size in *.
  cbn [filaments List.length] in *. change (Z.of_nat 5) with 5 in *.
  assert (Hc : i = 0 \/ i = 1 \/ i = 2 \/ i = 3 \/ i = 4) by lia.
  destruct Hc as [->|[->|[->|[->| ->]]]];
    destruct a; split; (discriminate || reflexivity).
Qed.

(** What [present_filament] does with the profile at index [i]. *)
Lemma present_filament_at : forall i w w',
  present_filament (set_filament (Some (filament_at i)) w) = Done tt w' ->
  filament w' = Some (filament_at i) /\ adc w' = adc w.
Proof.
  intros i w w' H.
  unfold present_filament, bind, deref_filament, exec in H.
  cbn [filament set_filament] in H. injection H as <-.
  split; reflexivity.
Qed.

(** The entry on the screen after browsing is the one the actions lead
    to. *)
Lemma browses_filament : forall i w script w',
  browses i w script w' ->
  filament w = Some (filament_at i) ->
  filament w' = Some (filament_at (index_after script i)).
Proof.
  intros i w script w' H.
  induction H as [i w|i w a w1 w2 script w3 Hw Ha Hp _ IH]; intros Hf.
  - exact Hf.
  - cbn [index_after fold_left]. apply IH.
    apply present_filament_at in Hp. tauto.
Qed.

(** The menu run from index [i] follows the operator, and returns at
    the first Confirm. *)
Lemma menu_loop_browses : forall i w script w',
  browses i w script w' ->
  forall fuel chosen,
    (List.length (adc w) < fuel)%nat ->
    wait_for_action w' = Done ActionConfirm chosen ->
    menu_loop fuel i w = Done tt chosen.
Proof.
  intros i w script w' H.
  induction H as [i w|i w a w1 w2 script w3 Hw Ha Hp _ IH];
    intros fuel chosen Hfuel Hc;
    (destruct fuel as [|n]; [lia|]); cbn [menu_loop]; unfold bind at 1.
  - rewrite Hc. reflexivity.
  - rewrite Hw. rewrite (action_eqb_neq _ _ Ha).
    unfold bind at 1. unfold exec at 1. unfold bind at 1. rewrite Hp.
    apply IH; [|exact Hc].
    apply present_filament_at in Hp. destruct Hp as (_ & Hadc).
    apply wait_for_action_consumes in Hw. rewrite Hadc. lia.
Qed.

(** C10.  An iteration of [loop] that starts without a profile runs the
    selection block first.  Whatever the block ends in (a choice, or an
    operator who is still choosing when the inputs stop), the heater
    flag is off and the one pin write since its start is the heater
    pin going low; that write precedes the menu, which opens at the
    first profile of the catalog; a press of the button right away
    selects that first profile; and whatever the operator does at the
    menu before pressing the button, the profile selected is the one
    these actions lead to from index 0, whatever was selected or shown
    before. *)
Theorem selection_keeps_heater_off :
  forall (w : World),
    filament w = None ->
    loop w = (selection;; run_session) w /\
    heater_is_on (final (selection w)) = false /\
    pin_writes (trace (final (selection w))) =
      Pin HEATER_PIN false :: pin_writes (trace w) /\
    (exists more,
       trace (final (selection w)) =
         more ++ menu_entry_log (filament_at 0) ++
         [Screen LcdHome; Screen LcdClear; Pin HEATER_PIN false] ++ trace w /\
       pin_writes more = []) /\
    (forall held coming,
       pending w ->
       actions (adc w) = ActionConfirm :: held ++ NoAction :: coming ->
       ~ In NoAction held ->
       exists w',
         selection w = Done tt w' /\
         filament w' = Some (filament_at 0) /\
         heater_is_on w' = false) /\
    (forall script shown chosen,
       browses 0 (menu_opened w) script shown ->
       wait_for_action shown = Done ActionConfirm chosen ->
       exists w',
         selection w = Done tt w' /\
         filament w' = Some (filament_at (index_after script 0)) /\
         0 <= index_after script 0 < catalog_size /\
         heater_is_on w' = false).
Proof.
  intros w Hf.
  destruct (menu_opened_inputs w) as (Madc & Mirq & Mev & Moff & Mfil).
  pose proof (menu_opened_log w) as Mlog.
  pose proof (selection_tail_hands_off (menu_opened w)) as Hh.
  pose proof (selection_tail_log_grows (menu_opened w)) as Hg.
  rewrite <- selection_from_menu in Hh, Hg.
  destruct Hh as (Hheater & Hpins). destruct Hg as (more & Hmore).
  assert (Hpins' : pin_writes (trace (final (selection w))) =
                   Pin HEATER_PIN false :: pin_writes (trace w)).
  { rewrite Hpins, Mlog. reflexivity. }
  split; [unfold loop, run_session, bind; rewrite Hf; reflexivity|].
  split; [congruence|]. split; [exact Hpins'|]. split; [|split].
  - exists more. rewrite Hmore, Mlog. split; [reflexivity|].
    rewrite Hmore, Mlog in Hpins'. unfold pin_writes in *.
    rewrite filter_app in Hpins'. cbn [menu_entry_log app filter] in Hpins'.
    change (Pin HEATER_PIN false :: filter _ (trace w))
      with ([] ++ Pin HEATER_PIN false ::
            filter (fun o => match o with Pin _ _ => true | _ => false end)
              (trace w)) in Hpins' at 2.
    apply app_inv_tail in Hpins'. exact Hpins'.
  - intros held coming Hp Hact Hheld.
    destruct (wait_for_action_press (menu_opened w) held coming)
      as (w1 & Hw1 & _ & _).
    + unfold pending. rewrite Mev, Mirq. exact Hp.
    + rewrite Madc. exact Hact.
    + exact Hheld.
    + pose proof (wait_for_action_quiet (menu_opened w)) as Q.
      rewrite Hw1 in Q. destruct Q as (Qf & _ & Qh & _). cbn [final] in Qf, Qh.
      rewrite selection_from_menu.
      remember (menu_opened w) as m eqn:Em. clear Em.
      unfold turns. cbn [menu_loop]. unfold bind at 1 2. rewrite Hw1.
      cbn [action_eqb ret]. unfold bind, exec.
      eexists. split; [reflexivity|]. split.
      * cbn [filament set_refresh_screen set_heating_stage reset_timer
             set_seconds clear_screen lcd emit]. congruence.
      * cbn [heater_is_on set_refresh_screen set_heating_stage reset_timer
             set_seconds clear_screen lcd emit]. congruence.
  - intros script shown chosen Hb Hc.
    pose proof (browses_filament _ _ _ _ Hb Mfil) as Hshown.
    pose proof (wait_for_action_quiet shown) as Q.
    rewrite Hc in Q. destruct Q as (Qf & _). cbn [final] in Qf.
    assert (Hrun : menu_loop (turns (menu_opened w)) 0 (menu_opened w) =
                   Done tt chosen).
    { apply (menu_loop_browses _ _ _ _ Hb); [unfold turns; lia|exact Hc]. }
    assert (Hidx : 0 <= index_after script 0 < catalog_size).
    { assert (Hall : forall l i,
                0 <= i < catalog_size ->
                0 <= index_after l i < catalog_size).
      { induction l as [|a l IHl]; intros i Hi; [exact Hi|].
        cbn [index_after fold_left]. apply IHl.
        apply next_index_in_catalog. exact Hi. }
      apply Hall. split; [discriminate|reflexivity]. }
    assert (Hchosen : heater_is_on chosen = false).
    { pose proof (menu_loop_hands_off (turns (menu_opened w)) 0
                    (menu_opened w)) as Hh0.
      rewrite Hrun in Hh0. destruct Hh0 as (Hh0 & _). cbn [final] in Hh0.
      congruence. }
    rewrite selection_from_menu.
    remember (menu_opened w) as m eqn:Em. clear Em.
    unfold bind at 1. change MIN_IDX with 0. rewrite Hrun.
    unfold bind, exec. eexists. split; [reflexivity|]. split; [|split].
    + cbn [filament set_refresh_screen set_heating_stage reset_timer
           set_seconds clear_screen lcd emit]. congruence.
    + exact Hidx.
    + cbn [heater_is_on set_refresh_screen set_heating_stage reset_timer
           set_seconds clear_screen lcd emit]. exact Hchosen.
Qed.

(** ** The end of a session *)

Lemma silent_refl : forall w, silent w w.
Proof. intros w; repeat split. Qed.

Lemma silent_trans : forall a b c, silent a b -> silent b c -> silent a c.
Proof.
  unfold silent; intros a b c (H1 & H2 & H3) (K1 & K2 & K3).
  repeat split; congruence.
Qed.

Lemma quiet_silent : forall w w', quiet w w' -> silent w w'.
Proof.
  unfold quiet, silent; intros w w' (H1 & H2 & H3 & H4 & _).
  repeat split; congruence.
Qed.

Lemma await_confirm_quiet : forall fuel, always quiet (await_confirm fuel).
Proof.
  induction fuel as [|n IH]; cbn [await_confirm].
  - intros w. apply quiet_refl.
  - apply always_bind; [apply quiet_trans|apply wait_for_action_quiet|].
    intros a. destruct (action_eqb a ActionConfirm).
    + apply always_ret, quiet_refl.
    + apply IH.
Qed.

(** The wait returns right after a call that resolved to Confirm, and
    the calls before it resolved to something else. *)
Lemma await_confirm_returned : forall fuel w w',
  await_confirm fuel w = Done tt w' ->
  exists others u,
    resolves w others u /\
    ~ In ActionConfirm others /\
    wait_for_action u = Done ActionConfirm w'.
Proof.
  induction fuel as [|n IH]; intros w w' H; cbn [await_confirm] in H.
  - discriminate H.
  - apply bind_done in H. destruct H as (a & w1 & Hw & H).
    destruct (action_eqb a ActionConfirm) eqn:Ea.
    + apply action_eqb_eq in Ea. subst a. cbn [ret] in H.
      injection H as <-. exists [], w.
      split; [constructor|]. split; [intros []|exact Hw].
    + destruct (IH _ _ H) as (others & u & Hres & Hnot & Hu).
      exists (a :: others), u. split; [econstructor; eauto|].
      split; [|exact Hu]. intros [K|K]; [|contradiction].
      subst a. discriminate Ea.
Qed.

Lemma resolves_consumes : forall w script u,
  resolves w script u ->
  (List.length script + List.length (adc u) <= List.length (adc w))%nat.
Proof.
  induction 1 as [w|w a w1 script w2 Hw _ IH]; cbn [List.length]; [lia|].
  apply wait_for_action_consumes in Hw. lia.
Qed.

(** Actions other than Confirm are passed over; the first Confirm ends
    the wait. *)
Lemma await_confirm_resolves : forall w others u,
  resolves w others u ->
  forall fuel w',
    ~ In ActionConfirm others ->
    wait_for_action u = Done ActionConfirm w' ->
    (List.length (adc w) < fuel)%nat ->
    await_confirm fuel w = Done tt w'.
Proof.
  induction 1 as [w|w a w1 script w2 Hw Hres IH];
    intros fuel w' Hnot Hu Hfuel;
    (destruct fuel as [|n]; [lia|]); cbn [await_confirm]; unfold bind.
  - rewrite Hu. reflexivity.
  - rewrite Hw.
    rewrite action_eqb_neq by (intros ->; apply Hnot; left; reflexivity).
    apply IH; [|exact Hu|].
    + intros K. apply Hnot. right. exact K.
    + apply wait_for_action_consumes in Hw. lia.
Qed.

Lemma delay_silent : forall ms w, silent w (delay ms w).
Proof. intros ms w. apply quiet_silent, delay_quiet. Qed.

Lemma delay_trace : forall ms w, trace (delay ms w) = trace w.
Proof. intros ms w. apply (delay_quiet ms w). Qed.

Lemma delay_heater : forall ms w, heater_is_on (delay ms w) = heater_is_on w.
Proof. intros ms w. apply (delay_quiet ms w). Qed.

Lemma delay_stage : forall ms w, heating_stage (delay ms w) = heating_stage w.
Proof. intros ms w. apply (delay_quiet ms w). Qed.

Lemma delay_filament : forall ms w, filament (delay ms w) = filament w.
Proof. intros ms w. apply (delay_quiet ms w). Qed.

Lemma beep_trace : forall d w,
  trace (beep d w) = Pin BEEPER_PIN false :: Pin BEEPER_PIN true :: trace w.
Proof.
  intros d w. unfold beep. cbn [trace emit]. rewrite delay_trace. reflexivity.
Qed.

Lemma beep_heater : forall d w, heater_is_on (beep d w) = heater_is_on w.
Proof.
  intros d w. unfold beep. cbn [heater_is_on emit]. rewrite delay_heater.
  reflexivity.
Qed.

Lemma beep_stage : forall d w, heating_stage (beep d w) = heating_stage w.
Proof.
  intros d w. unfold beep. cbn [heating_stage emit]. rewrite delay_stage.
  reflexivity.
Qed.

Lemma beep_filament : forall d w, filament (beep d w) = filament w.
Proof.
  intros d w. unfold beep. cbn [filament emit]. rewrite delay_filament.
  reflexivity.
Qed.

Lemma lcd_seq_trace : forall cmds w,
  trace (lcd_seq cmds w) = rev (map Screen cmds) ++ trace w.
Proof. intros cmds w. rewrite lcd_seq_world. reflexivity. Qed.

Lemma lcd_seq_heater : forall cmds w,
  heater_is_on (lcd_seq cmds w) = heater_is_on w.
Proof. intros cmds w. rewrite lcd_seq_world. reflexivity. Qed.

Lemma lcd_seq_stage : forall cmds w,
  heating_stage (lcd_seq cmds w) = heating_stage w.
Proof. intros cmds w. rewrite lcd_seq_world. reflexivity. Qed.

Lemma lcd_seq_filament : forall cmds w,
  filament (lcd_seq cmds w) = filament w.
Proof. intros cmds w. rewrite lcd_seq_world. reflexivity. Qed.

(** The announcement: heater off, the message, three beeps. *)
Lemma announced_log : forall w,
  trace (announced w) = completion_log ++ trace w /\
  heater_is_on (announced w) = false /\
  heating_stage (announced w) = heating_stage w /\
  filament (announced w) = filament w.
Proof.
  intros w. unfold announced.
  repeat rewrite ?lcd_seq_trace, ?lcd_seq_heater, ?lcd_seq_stage,
    ?lcd_seq_filament, ?beep_trace, ?beep_heater, ?beep_stage,
    ?beep_filament, ?delay_trace, ?delay_heater, ?delay_stage,
    ?delay_filament.
  repeat split.
Qed.

Lemma completion_from_announcement : forall w,
  completion w =
    ((fun u => await_confirm (turns u) u);; exec (set_filament None))
      (announced w).
Proof. intros w. unfold completion, announced, bind, exec. reflexivity. Qed.

Lemma completion_tail_silent :
  always silent
    ((fun u => await_confirm (turns u) u);; exec (set_filament None)).
Proof.
  apply always_bind; [apply silent_trans| |intros _].
  - intros w. apply quiet_silent, await_confirm_quiet.
  - apply always_exec. intros w. repeat split.
Qed.

(** What [completion] leaves behind when it returns. *)
Lemma completion_returned : forall w w',
  completion w = Done tt w' ->
  filament w' = None /\ heating_stage w' = heating_stage w /\
  exists others u confirmed,
    resolves (announced w) others u /\
    ~ In ActionConfirm others /\
    wait_for_action u = Done ActionConfirm confirmed /\
    w' = set_filament None confirmed.
Proof.
  intros w w' H.
  pose proof (completion_tail_silent (announced w)) as S.
  rewrite <- completion_from_announcement, H in S.
  destruct S as (_ & _ & Ss). cbn [final] in Ss.
  destruct (announced_log w) as (_ & _ & As & _).
  rewrite completion_from_announcement in H.
  apply bind_done in H. destruct H as ([] & w1 & E & H). cbv beta in E.
  unfold exec in H. injection H as <-.
  split; [reflexivity|]. split; [congruence|].
  destruct (await_confirm_returned _ _ _ E) as (others & u & H1 & H2 & H3).
  exists others, u, w1. auto.
Qed.

(** ** C4: the completion sequence *)

Lemma loop_completes : forall w f,
  filament w = Some f ->
  heating_stage w = Working ->
  seconds w > time_sec f ->
  loop w = completion w.
Proof.
  intros w f Hf Hs Hover. unfold loop, bind. rewrite Hf.
  unfold session_over. rewrite Hs. cbn [stage_eqb].
  unfold bind, deref_filament. rewrite Hf. cbn [ret].
  destruct (Z.gtb_spec (seconds w) (time_sec f)) as [_|Hle]; [|lia].
  reflexivity.
Qed.

(** The first Confirm after the announcement ends [completion]. *)
Lemma completion_confirmed : forall w others u confirmed,
  resolves (announced w) others u ->
  ~ In ActionConfirm others ->
  wait_for_action u = Done ActionConfirm confirmed ->
  completion w = Done tt (set_filament None confirmed).
Proof.
  intros w others u confirmed Hres Hnot Hu.
  rewrite completion_from_announcement. unfold bind.
  rewrite (await_confirm_resolves _ _ _ Hres (turns (announced w))
             confirmed Hnot Hu) by (unfold turns; lia).
  reflexivity.
Qed.

(** C4, amended.  With the stage at Working and the seconds counter
    above the duration of the selected profile, the iteration of [loop]
    is the completion sequence: the heater is switched off, the message
    is shown and exactly three beeps are given, whatever follows; then
    the program waits, passing over every action that is not Confirm;
    right after the first Confirm it clears the profile and the
    iteration ends, with the stage still at Working.  The stage is set
    back to Idle in the next iteration, by the selection block, which
    runs because no profile is selected, after a profile has been
    chosen. *)
Theorem completion_sequence :
  forall (w : World) (f : Filament),
    filament w = Some f ->
    heating_stage w = Working ->
    seconds w > time_sec f ->
    loop w = completion w /\
    heater_is_on (final (loop w)) = false /\
    trace (final (loop w)) = completion_log ++ trace w /\
    (forall w',
       loop w = Done tt w' ->
       filament w' = None /\ heating_stage w' = Working /\
       exists others u confirmed,
         resolves (announced w) others u /\
         ~ In ActionConfirm others /\
         wait_for_action u = Done ActionConfirm confirmed /\
         w' = set_filament None confirmed) /\
    (forall others u confirmed,
       resolves (announced w) others u ->
       ~ In ActionConfirm others ->
       wait_for_action u = Done ActionConfirm confirmed ->
       loop w = Done tt (set_filament None confirmed)) /\
    (forall w' w'',
       loop w = Done tt w' ->
       selection w' = Done tt w'' ->
       loop w' = run_session w'' /\
       heating_stage w'' = Idle /\ filament w'' <> None).
Proof.
  intros w f Hf Hs Hover.
  pose proof (loop_completes w f Hf Hs Hover) as Hloop.
  destruct (announced_log w) as (Alog & Aoff & Astage & Afil).
  pose proof (completion_tail_silent (announced w)) as S.
  rewrite <- completion_from_announcement, <- Hloop in S.
  destruct S as (St & Sh & Ss).
  split; [exact Hloop|]. split; [congruence|]. split; [congruence|].
  split; [|split].
  - intros w' Hw'. rewrite Hloop in Hw'.
    destruct (completion_returned _ _ Hw') as (H1 & H2 & H3).
    split; [exact H1|]. split; [congruence|exact H3].
  - intros others u confirmed Hres Hnot Hu.
    rewrite Hloop. eapply completion_confirmed; eassumption.
  - intros w' w'' Hw' Hsel. rewrite Hloop in Hw'.
    destruct (completion_returned _ _ Hw') as (H1 & _).
    destruct (selection_returned _ _ Hsel) as (K1 & K2 & _).
    split; [|split; assumption].
    unfold loop, run_session, bind. rewrite H1, Hsel. reflexivity.
Qed.

(** ** C3: stage and profile *)

Lemma set_heater_state_returned : forall t w w',
  set_heater_state t w = Done tt w' ->
  filament w' = filament w /\ filament w <> None.
Proof.
  intros t w w' H. unfold set_heater_state in H.
  destruct (filament w) as [f|] eqn:Hf; [|discriminate H].
  split; [|discriminate].
  destruct (t >? target_of f);
    cbn [turn_off turn_on heating_stage set_heater_is_on emit] in H;
    destruct (heating_stage w); cbn [stage_eqb orb] in H;
    injection H as <-; cbn; exact Hf.
Qed.

Lemma print_mins_secs_filament : forall v w,
  filament (print_mins_secs v w) = filament w.
Proof. intros v w. unfold print_mins_secs. apply lcd_seq_filament. Qed.

Lemma update_screen_returned : forall t w w',
  update_screen t w = Done tt w' -> filament w' = filament w.
Proof.
  intros t w w' H. unfold update_screen in H.
  apply bind_done in H. destruct H as (f & w1 & Hd & H).
  unfold deref_filament in Hd.
  destruct (filament w) eqn:Hf; [|discriminate Hd]. injection Hd as <- <-.
  cbv beta zeta in H.
  assert (Hlcd : forall c u, filament (lcd c u) = filament u)
    by reflexivity.
  match type of H with
  | (if ?c then _ else _) = _ => destruct c
  end.
  - injection H as <-.
    rewrite print_mins_secs_filament.
    repeat rewrite ?lcd_seq_filament, ?Hlcd. exact Hf.
  - match type of H with
    | (if ?c then _ else _) = _ => destruct c
    end; [discriminate H|].
    injection H as <-.
    rewrite print_mins_secs_filament.
    repeat rewrite ?lcd_seq_filament, ?Hlcd. exact Hf.
Qed.

Lemma query_sensor_returned : forall w t w',
  query_sensor w = Done t w' -> filament w' = filament w.
Proof.
  intros w t w' H. unfold query_sensor in H.
  destruct (probe w) as [|[conversion value] rest]; [discriminate H|].
  destruct (float_eqb value DEVICE_DISCONNECTED_C); [discriminate H|].
  destruct (wrap8 (float_to_uint value) <=? 1); [discriminate H|].
  destruct (wrap8 (float_to_uint value) >=? 120); [discriminate H|].
  injection H as _ <-. rewrite delay_filament. reflexivity.
Qed.

Lemma control_returned : forall w w',
  control w = Done tt w' -> filament w' <> None.
Proof.
  intros w w' H. unfold control in H.
  apply bind_done in H. destruct H as (t & w1 & _ & H).
  apply bind_done in H. destruct H as ([] & w2 & Hh & H).
  apply set_heater_state_returned in Hh. destruct Hh as (Hsame & Hsome).
  cbv beta in H. destruct (refresh_screen w2).
  - apply bind_done in H. destruct H as ([] & w3 & Hr & H).
    unfold exec in Hr. injection Hr as <-.
    apply update_screen_returned in H. cbn [filament set_refresh_screen] in H.
    congruence.
  - injection H as <-. congruence.
Qed.

(** An iteration that returns has either a profile selected, or has
    just cleared it in [completion], with the stage left at Working. *)
Lemma loop_returned : forall w w',
  loop w = Done tt w' ->
  filament w' <> None \/ (filament w' = None /\ heating_stage w' = Working).
Proof.
  intros w w' H. unfold loop in H.
  apply bind_done in H. destruct H as ([] & w1 & _ & H).
  apply bind_done in H. destruct H as (over & w2 & Hover & H).
  unfold session_over in Hover.
  destruct (heating_stage w1) eqn:Hs; cbn [stage_eqb] in Hover;
    try (injection Hover as <- <-; left; eapply control_returned; eassumption).
  apply bind_done in Hover. destruct Hover as (f & w3 & Hd & Hover).
  unfold deref_filament in Hd.
  destruct (filament w1) as [f1|]; [|discriminate Hd].
  injection Hd as Hf1 Hw3. subst f w3.
  cbn [ret] in Hover. injection Hover as <- <-.
  destruct (seconds w1 >? time_sec f1).
  - right. apply completion_returned in H. destruct H as (H1 & H2 & _).
    split; congruence.
  - left. eapply control_returned; eassumption.
Qed.

Lemma halts_bind : forall A B P (m : M A) (k : A -> M B),
  halts_with P m -> (forall a, halts_with P (k a)) ->
  halts_with P (bind m k).
Proof.
  intros A B P m k Hm Hk w reason w' H. unfold bind in H.
  destruct (m w) as [a w1|r w1|w1|w1] eqn:E; try discriminate H.
  - eapply Hk. exact H.
  - injection H as <- <-. eapply Hm. exact E.
Qed.

Lemma halts_exec : forall P f, halts_with P (exec f).
Proof. intros P f w reason w' H. discriminate H. Qed.

Lemma halts_ret : forall A P (a : A), halts_with P (ret a).
Proof. intros A P a w reason w' H. discriminate H. Qed.

Lemma read_action_no_panic : halts_with (fun _ => False) read_action.
Proof.
  intros w reason w' H. unfold read_action in H.
  destruct (read_samples (adc w)) as [[a rest]|]; discriminate H.
Qed.

Lemma await_event_no_panic : forall fuel,
  halts_with (fun _ => False) (await_event fuel).
Proof.
  induction fuel as [|n IH]; intros w reason w' H; cbn [await_event] in H;
    destruct (event_on_encoder w); try discriminate H.
  eapply IH. exact H.
Qed.

Lemma await_pair_no_panic : forall fuel paired t0,
  halts_with (fun _ => False) (await_pair fuel paired t0).
Proof.
  induction fuel as [|n IH]; intros paired t0; cbn [await_pair].
  - intros w reason w' H. discriminate H.
  - apply halts_bind; [apply read_action_no_panic|].
    intros a. destruct (action_eqb a paired); [apply halts_ret|].
    apply halts_bind; [apply halts_exec|]. intros _ w reason w' H.
    destruct (wrap32 (millis w - t0) >? ENCODER_TIMEOUT);
      [discriminate H|]. eapply IH. exact H.
Qed.

Lemma await_release_no_panic : forall fuel,
  halts_with (fun _ => False) (await_release fuel).
Proof.
  induction fuel as [|n IH]; cbn [await_release].
  - intros w reason w' H. discriminate H.
  - apply halts_bind; [apply read_action_no_panic|].
    intros a. destruct (action_eqb a NoAction); [apply halts_ret|].
    apply halts_bind; [apply halts_exec|]. intros _. apply IH.
Qed.

Lemma wait_for_action_no_panic : halts_with (fun _ => False) wait_for_action.
Proof.
  unfold wait_for_action. apply halts_bind.
  { intros w. apply await_event_no_panic. }
  intros _. apply halts_bind; [apply read_action_no_panic|].
  intros action. destruct (action_eqb action NoAction); [apply halts_ret|].
  intros w.
  apply (halts_bind _ _ _ (debounce action (millis w))
           (fun _ => settle action (millis w))).
  - unfold debounce. apply halts_bind.
    { destruct (action_eqb action ActionPrev); [|apply halts_ret].
      intros u. apply await_pair_no_panic. }
    intros _. apply halts_bind.
    { destruct (action_eqb action ActionNext); [|apply halts_ret].
      intros u. apply await_pair_no_panic. }
    intros _ u. apply await_release_no_panic.
  - intros _ u reason u' H. discriminate H.
Qed.

Lemma present_filament_no_panic : halts_with (fun _ => False) present_filament.
Proof.
  unfold present_filament. apply halts_bind.
  - intros w reason w' H. unfold deref_filament in H.
    destruct (filament w); discriminate H.
  - intros f. apply halts_exec.
Qed.

Lemma menu_loop_no_panic : forall fuel i,
  halts_with (fun _ => False) (menu_loop fuel i).
Proof.
  induction fuel as [|n IH]; intros i; cbn [menu_loop].
  - intros w reason w' H. discriminate H.
  - apply halts_bind; [apply wait_for_action_no_panic|].
    intros a. destruct (action_eqb a ActionConfirm); [apply halts_ret|].
    apply halts_bind; [apply halts_exec|]. intros _.
    apply halts_bind; [apply present_filament_no_panic|]. intros _.
    apply IH.
Qed.

Lemma selection_no_panic : halts_with (fun _ => False) selection.
Proof.
  unfold selection. apply halts_bind; [apply halts_exec|]. intros _.
  apply halts_bind.
  - unfold choose_filament. apply halts_bind; [apply halts_exec|].
    intros _. apply halts_bind; [apply halts_exec|]. intros _.
    apply halts_bind; [apply present_filament_no_panic|]. intros _ w.
    apply menu_loop_no_panic.
  - intros _. repeat (apply halts_bind; [apply halts_exec|]; intros _).
    apply halts_exec.
Qed.

Lemma await_confirm_no_panic : forall fuel,
  halts_with (fun _ => False) (await_confirm fuel).
Proof.
  induction fuel as [|n IH]; cbn [await_confirm].
  - intros w reason w' H. discriminate H.
  - apply halts_bind; [apply wait_for_action_no_panic|].
    intros a. destruct (action_eqb a ActionConfirm); [apply halts_ret|].
    apply IH.
Qed.

Lemma completion_no_panic : halts_with (fun _ => False) completion.
Proof.
  unfold completion.
  repeat (apply halts_bind; [apply halts_exec|]; intros _).
  apply halts_bind; [|intros _; apply halts_exec].
  intros w. apply await_confirm_no_panic.
Qed.

Lemma bind_halted : forall A B (m : M A) (k : A -> M B) w reason w',
  bind m k w = Halted reason w' ->
  m w = Halted reason w' \/
  exists a w1, m w = Done a w1 /\ k a w1 = Halted reason w'.
Proof.
  intros A B m k w reason w' H. unfold bind in H.
  destruct (m w) as [a w1|r w1|w1|w1]; try discriminate H.
  - right. exists a, w1. split; [reflexivity|exact H].
  - left. injection H as -> ->. reflexivity.
Qed.

Lemma query_sensor_panics : forall w reason w',
  query_sensor w = Halted reason w' ->
  reason = "Temp NaN." \/ reason = "Frozen." \/ reason = "Burned.".
Proof.
  intros w reason w' H. unfold query_sensor in H.
  destruct (probe w) as [|[conversion value] rest]; [discriminate H|].
  destruct (float_eqb value DEVICE_DISCONNECTED_C);
    [unfold panic in H; injection H as <- _; auto|].
  destruct (wrap8 (float_to_uint value) <=? 1);
    [unfold panic in H; injection H as <- _; auto|].
  destruct (wrap8 (float_to_uint value) >=? 120);
    [unfold panic in H; injection H as <- _; auto|].
  discriminate H.
Qed.

Lemma set_heater_state_panics : forall t w reason w',
  set_heater_state t w = Halted reason w' -> filament w = None.
Proof.
  intros t w reason w' H. unfold set_heater_state in H.
  destruct (filament w) as [f|]; [|reflexivity]. exfalso.
  destruct (t >? target_of f); cbv zeta in H;
    match type of H with
    | (if ?c then _ else _) = _ => destruct c
    end; discriminate H.
Qed.

Lemma update_screen_panics : forall t w reason w',
  update_screen t w = Halted reason w' -> reason = "Preheating.".
Proof.
  intros t w reason w' H. unfold update_screen, bind, deref_filament in H.
  destruct (filament w); [|discriminate H]. cbv beta zeta in H.
  match type of H with
  | (if ?c then _ else _) = _ => destruct c
  end; [discriminate H|].
  match type of H with
  | (if ?c then _ else _) = _ => destruct c
  end; [|discriminate H].
  unfold panic in H. injection H as <- _. reflexivity.
Qed.

(** With a profile selected, the control part never ends in the panic
    of [set_heater_state]. *)
Lemma control_panics : forall w reason w',
  filament w <> None ->
  control w = Halted reason w' ->
  reason <> "Heater state.".
Proof.
  intros w reason w' Hf H. unfold control in H.
  apply bind_halted in H. destruct H as [H|(t & w1 & Hq & H)].
  { apply query_sensor_panics in H. destruct H as [->|[->| ->]]; discriminate. }
  apply query_sensor_returned in Hq.
  apply bind_halted in H. destruct H as [H|([] & w2 & _ & H)].
  { apply set_heater_state_panics in H. congruence. }
  cbv beta in H. destruct (refresh_screen w2); [|discriminate H].
  apply bind_halted in H. destruct H as [H|([] & w3 & _ & H)].
  { discriminate H. }
  apply update_screen_panics in H. subst reason. discriminate.
Qed.

Lemma session_over_outcome : forall w,
  (exists over, session_over w = Done over w) \/ session_over w = Undefined w.
Proof.
  intros w. unfold session_over, bind, deref_filament.
  destruct (stage_eqb (heating_stage w) Working); [|left; eauto].
  destruct (filament w); [left; cbn [ret]; eauto|right; reflexivity].
Qed.

(** [loop] never calls [set_heater_state] without a profile. *)
Lemma loop_panics : forall w reason w',
  loop w = Halted reason w' -> reason <> "Heater state.".
Proof.
  intros w reason w' H. unfold loop in H.
  apply bind_halted in H. destruct H as [H|([] & w1 & H1 & H)].
  { destruct (filament w); [discriminate H|].
    exfalso. eapply selection_no_panic. exact H. }
  assert (Hf : filament w1 <> None).
  { destruct (filament w) eqn:E.
    - injection H1 as <-. congruence.
    - apply selection_returned in H1. tauto. }
  apply bind_halted in H. destruct H as [H|(over & w2 & H2 & H)].
  { destruct (session_over_outcome w1) as [(over & K)|K];
      rewrite K in H; discriminate H. }
  destruct (session_over_outcome w1) as [(over' & K)|K];
    rewrite K in H2; [|discriminate H2].
  injection H2 as _ <-. destruct over.
  - exfalso. eapply completion_no_panic. exact H.
  - eapply control_panics; eassumption.
Qed.

(** ** A whole session, iteration by iteration *)

Lemma tick_served : forall ms w rest_i,
  irqs w = [TIMER1_COMPA_vect] :: rest_i ->
  delay ms w =
    set_refresh_screen true
      (set_seconds (wrap32 (seconds w + 1))
         (set_irqs rest_i (set_clock (wrap32 (clock w + ms)) w))).
Proof.
  intros ms w rest_i Hirq. unfold delay. cbn [irqs set_clock].
  rewrite Hirq. reflexivity.
Qed.

Lemma set_heater_state_working : forall t w f,
  filament w = Some f ->
  heating_stage w = Working ->
  exists on,
    set_heater_state t w =
      Done tt (set_heater_is_on on (emit (Pin HEATER_PIN on) w)).
Proof.
  intros t w f Hf Hs. unfold set_heater_state. rewrite Hf.
  destruct (t >? target_of f); cbv zeta;
    cbn [turn_off turn_on heating_stage set_heater_is_on emit];
    rewrite Hs; cbn [stage_eqb orb]; [exists false|exists true];
    reflexivity.
Qed.

Lemma lcd_seq_app : forall a b w,
  lcd_seq b (lcd_seq a w) = lcd_seq (a ++ b) w.
Proof. intros a b w. unfold lcd_seq. symmetry. apply fold_left_app. Qed.

Lemma update_screen_working : forall t w f,
  filament w = Some f ->
  heating_stage w = Working ->
  exists cmds, update_screen t w = Done tt (lcd_seq cmds w).
Proof.
  intros t w f Hf Hs. unfold update_screen, bind, deref_filament.
  rewrite Hf. cbv beta zeta. rewrite lcd_seq_stage, Hs. cbn [stage_eqb].
  unfold print_mins_secs. rewrite !lcd_seq_app. eauto.
Qed.

Lemma working_tick : forall w f conversion rest_p rest_i,
  filament w = Some f ->
  heating_stage w = Working ->
  0 <= seconds w <= time_sec f ->
  seconds w + 1 < 4294967296 ->
  probe w = (conversion, celsius_50) :: rest_p ->
  irqs w = [TIMER1_COMPA_vect] :: rest_i ->
  exists w',
    loop w = Done tt w' /\
    filament w' = Some f /\
    heating_stage w' = Working /\
    seconds w' = seconds w + 1 /\
    adc w' = adc w /\
    irqs w' = rest_i /\
    probe w' = rest_p /\
    event_on_encoder w' = event_on_encoder w.
Proof.
  intros w f conversion rest_p rest_i Hf Hs Hsec Hmax Hp Hirq.
  unfold loop, bind. rewrite Hf. unfold session_over. rewrite Hs.
  cbn [stage_eqb]. unfold bind, deref_filament. rewrite Hf. cbn [ret].
  destruct (Z.gtb_spec (seconds w) (time_sec f)) as [Hgt|_]; [lia|].
  unfold control, bind.
  rewrite (query_sensor_plausible w conversion celsius_50 rest_p Hp)
    by (change (wrap8 (float_to_uint celsius_50)) with 50; lia).
  change (wrap8 (float_to_uint celsius_50)) with 50.
  rewrite (tick_served conversion (set_probe rest_p w) rest_i Hirq).
  cbn [seconds clock set_probe].
  match goal with
  | |- context [set_heater_state 50 ?m] =>
      destruct (set_heater_state_working 50 m f) as (on & Hh);
      [exact Hf|exact Hs|rewrite Hh]
  end.
  cbn [refresh_screen set_heater_is_on emit set_refresh_screen]. unfold exec.
  match goal with
  | |- context [update_screen 50 ?m] =>
      destruct (update_screen_working 50 m f) as (cmds & Hu);
      [exact Hf|exact Hs|rewrite Hu]
  end.
  eexists. split; [reflexivity|]. rewrite lcd_seq_world.
  cbn [filament heating_stage seconds adc irqs probe event_on_encoder
       set_refresh_screen set_heater_is_on emit set_seconds set_irqs
       set_clock set_probe].
  repeat split; auto. unfold wrap32. apply Z.mod_small. lia.
Qed.

Lemma reachable_iterate : forall n w w',
  reachable w -> iterate n w = Done tt w' -> reachable w'.
Proof.
  induction n as [|n IH]; intros w w' Hr H; cbn [iterate] in H.
  - injection H as <-. exact Hr.
  - apply bind_done in H. destruct H as ([] & w1 & H1 & H).
    eapply IH; [|exact H]. eapply reach_loop; eassumption.
Qed.

Lemma working_run : forall n w f rest_p rest_i,
  filament w = Some f ->
  heating_stage w = Working ->
  0 <= seconds w ->
  seconds w + Z.of_nat n <= time_sec f + 1 ->
  time_sec f + 1 < 4294967296 ->
  probe w = repeat (94, celsius_50) n ++ rest_p ->
  irqs w = repeat [TIMER1_COMPA_vect] n ++ rest_i ->
  exists w',
    iterate n w = Done tt w' /\
    filament w' = Some f /\
    heating_stage w' = Working /\
    seconds w' = seconds w + Z.of_nat n /\
    adc w' = adc w /\
    irqs w' = rest_i /\
    probe w' = rest_p /\
    event_on_encoder w' = event_on_encoder w.
Proof.
  induction n as [|n IH]; intros w f rest_p rest_i Hf Hs H0 Hend Hmax Hp Hi.
  - exists w. cbn [iterate ret repeat app] in *.
    repeat split; auto. cbn. lia.
  - cbn [repeat app] in Hp, Hi.
    destruct (working_tick w f 94 _ _ Hf Hs ltac:(lia) ltac:(lia) Hp Hi)
      as (w1 & Hl & Hf1 & Hs1 & Hsec1 & Ha1 & Hi1 & Hp1 & He1).
    destruct (IH w1 f rest_p rest_i Hf1 Hs1 ltac:(lia) ltac:(lia) Hmax
                Hp1 Hi1)
      as (w' & Hit & Hf' & Hs' & Hsec' & Ha' & Hi' & Hp' & He').
    exists w'. cbn [iterate]. unfold bind. rewrite Hl.
    repeat split; try congruence. lia.
Qed.

Lemma session_first_iteration : forall later readings,
  exists w1,
    loop (setup ([PCINT1_vect] :: [] :: [] :: later)
            (power_on session_samples ((94, celsius_50) :: readings)))
      = Done tt w1 /\
    filament w1 = Some PLA /\
    heating_stage w1 = Working /\
    seconds w1 = 0 /\
    adc w1 = [580; 0] /\
    irqs w1 = later /\
    probe w1 = readings /\
    event_on_encoder w1 = false.
Proof.
  intros later readings. eexists. split; [vm_compute; reflexivity|].
  repeat split.
Qed.

Lemma lcd_seq_adc : forall cmds w, adc (lcd_seq cmds w) = adc w.
Proof. intros cmds w. rewrite lcd_seq_world. reflexivity. Qed.

Lemma lcd_seq_irqs : forall cmds w, irqs (lcd_seq cmds w) = irqs w.
Proof. intros cmds w. rewrite lcd_seq_world. reflexivity. Qed.

Lemma beep_adc : forall d w, adc (beep d w) = adc w.
Proof.
  intros d w. unfold beep. cbn [adc emit]. rewrite delay_adc. reflexivity.
Qed.

Lemma beep_irqs : forall d w, irqs (beep d w) = tl (irqs w).
Proof.
  intros d w. unfold beep. cbn [irqs emit]. rewrite delay_irqs. reflexivity.
Qed.

Lemma announced_inputs : forall w,
  adc (announced w) = adc w /\
  irqs (announced w) = skipn 5 (irqs w).
Proof.
  intros w. unfold announced.
  repeat rewrite ?lcd_seq_adc, ?lcd_seq_irqs, ?beep_adc, ?beep_irqs,
    ?delay_adc, ?delay_irqs.
  change (adc (clear_screen (turn_off w))) with (adc w).
  change (irqs (clear_screen (turn_off w))) with (irqs w).
  split; [reflexivity|].
  destruct (irqs w) as [|a [|b [|c [|d [|e l]]]]]; reflexivity.
Qed.

(** The world at the end of the six hours, and the iteration after it. *)
Lemma session_last_iteration : forall w,
  filament w = Some PLA ->
  heating_stage w = Working ->
  seconds w = 21601 ->
  adc w = [580; 0] ->
  irqs w = [[]; []; []; []; []; [PCINT1_vect]] ->
  exists w',
    loop w = Done tt w' /\
    filament w' = None /\
    heating_stage w' = Working.
Proof.
  intros w Hf Hs Hsec Hadc Hirq.
  destruct (announced_inputs w) as (Aadc & Airq).
  destruct (announced_log w) as (_ & _ & Astage & _).
  rewrite Hadc in Aadc. rewrite Hirq in Airq. cbn [skipn] in Airq.
  destruct (wait_for_action_press (announced w) [] [])
    as (confirmed & Hc & _ & _).
  { right. rewrite Airq. left. reflexivity. }
  { rewrite Aadc. reflexivity. }
  { intros []. }
  pose proof (wait_for_action_quiet (announced w)) as Q. rewrite Hc in Q.
  destruct Q as (_ & Qs & _). cbn [final] in Qs.
  exists (set_filament None confirmed).
  rewrite (loop_completes w PLA Hf Hs) by (rewrite Hsec; reflexivity).
  rewrite (completion_confirmed w [] (announced w) confirmed
             (resolves_nil _) ltac:(intros []) Hc).
  split; [reflexivity|]. split; [reflexivity|].
  cbn [heating_stage set_filament]. congruence.
Qed.

(** C3 as stated fails: a state with the stage at Working and no
    profile selected is reached.  From power-on the operator selects
    PLA, the probe reports 50 degrees throughout, the timer ticks 21601
    times in the Working stage, the session is announced as complete
    and the operator presses the button: [completion] clears the
    profile and leaves the stage as it is. *)
Lemma stage_without_profile_reached :
  exists w,
    reachable w /\
    heating_stage w = Working /\
    filament w = None /\
    ~ stage_has_profile w.
Proof.
  destruct (session_first_iteration
              (repeat [TIMER1_COMPA_vect] session_ticks ++
               [[]; []; []; []; []; [PCINT1_vect]])
              (repeat (94, celsius_50) session_ticks))
    as (w1 & H1 & Hf1 & Hs1 & Hsec1 & Ha1 & Hi1 & Hp1 & He1).
  assert (R1 : reachable w1).
  { eapply reach_loop; [|exact H1]. apply reach_setup. }
  assert (Hticks : Z.of_nat session_ticks = 21601)
    by (unfold session_ticks; apply Z2Nat.id; lia).
  assert (Hp1' : probe w1 = repeat (94, celsius_50) session_ticks ++ [])
    by (rewrite app_nil_r; exact Hp1).
  assert (Hstart : 0 <= seconds w1) by lia.
  assert (Hend : seconds w1 + Z.of_nat session_ticks <= time_sec PLA + 1)
    by (rewrite Hsec1, Hticks; cbn; lia).
  assert (Hmax : time_sec PLA + 1 < 4294967296) by (cbn; lia).
  destruct (working_run session_ticks w1 PLA []
              [[]; []; []; []; []; [PCINT1_vect]]
              Hf1 Hs1 Hstart Hend Hmax Hp1' Hi1)
    as (w2 & H2 & Hf2 & Hs2 & Hsec2 & Ha2 & Hi2 & Hp2 & He2).
  assert (R2 : reachable w2) by (eapply reachable_iterate; eassumption).
  assert (Hsec2' : seconds w2 = 21601) by (rewrite Hsec2, Hsec1, Hticks; lia).
  assert (Ha2' : adc w2 = [580; 0]) by congruence.
  destruct (session_last_iteration w2 Hf2 Hs2 Hsec2' Ha2' Hi2)
    as (w3 & H3 & Hf3 & Hs3).
  exists w3. split; [eapply reach_loop; eassumption|].
  split; [exact Hs3|]. split; [exact Hf3|].
  intros Hinv. apply Hinv; [|exact Hf3]. rewrite Hs3. discriminate.
Qed.

Lemma setup_stage : forall schedule w,
  heating_stage (setup schedule w) = heating_stage w.
Proof.
  intros schedule w. unfold setup.
  assert (H1 : forall v u, heating_stage (set_irqs v u) = heating_stage u)
    by reflexivity.
  assert (H2 : forall c u, heating_stage (lcd c u) = heating_stage u)
    by reflexivity.
  assert (H3 : forall u, heating_stage (clear_screen u) = heating_stage u)
    by reflexivity.
  assert (H4 : forall u, heating_stage (turn_off u) = heating_stage u)
    by reflexivity.
  rewrite H1, beep_stage, H2, H3, !H2, H4. reflexivity.
Qed.

(** An iteration that returns without a profile has run [completion]
    and nothing else: it started with a profile, in the Working stage
    and past the duration. *)
Lemma loop_returned_from : forall w w',
  loop w = Done tt w' ->
  filament w' <> None \/
  (exists f,
     filament w = Some f /\ heating_stage w = Working /\
     seconds w > time_sec f /\
     loop w = completion w /\ completion w = Done tt w' /\
     filament w' = None /\ heating_stage w' = Working).
Proof.
  intros w w' H. destruct (filament w) as [f|] eqn:Hf.
  - assert (Hl : loop w = run_session w)
      by (unfold loop, run_session, bind; rewrite Hf; reflexivity).
    destruct (heating_stage w) eqn:Hs;
      try (left; rewrite Hl in H; unfold run_session, session_over, bind in H;
           rewrite Hs in H; cbn [stage_eqb] in H;
           eapply control_returned; exact H).
    destruct (Z.gtb_spec (seconds w) (time_sec f)) as [Hgt|Hle].
    + right. exists f.
      assert (Hover : seconds w > time_sec f) by lia.
      pose proof (loop_completes w f Hf Hs Hover) as Hc.
      rewrite Hc in H.
      destruct (completion_returned _ _ H) as (Hnone & Hstage & _).
      repeat split; try assumption. congruence.
    + left. rewrite Hl in H.
      unfold run_session, session_over, bind, deref_filament in H.
      rewrite Hs, Hf in H. cbn [stage_eqb ret] in H.
      destruct (Z.gtb_spec (seconds w) (time_sec f)) as [Hgt|_]; [lia|].
      eapply control_returned; exact H.
  - left. unfold loop in H.
    apply bind_done in H. destruct H as ([] & w1 & Hsel & H).
    rewrite Hf in Hsel. apply selection_returned in Hsel.
    destruct Hsel as (_ & Hidle & _).
    apply bind_done in H. destruct H as (over & w2 & Hover & H).
    unfold session_over in Hover. rewrite Hidle in Hover.
    cbn [stage_eqb] in Hover. injection Hover as <- <-.
    eapply control_returned; exact H.
Qed.

(** C3, amended.  In every reachable state the invariant (a stage other
    than Idle has a profile) holds, or the state is the one left by
    completion handling: the iteration before it started in a reachable
    state in the Working stage with a profile whose duration was over,
    ran [completion] and returned, and the stage is Working with no
    profile.  Such a state violates the invariant.  In particular the
    stage PreHeating always has a profile.  The selection block and
    [set_heater_state] return in states that satisfy the invariant, with
    a profile selected.  [completion] does not: it clears the profile
    and leaves the stage as it is.  [loop] never calls
    [set_heater_state] without a profile. *)
Theorem stage_profile_invariant :
  (forall w,
     reachable w ->
     stage_has_profile w \/
     (left_by_completion w /\
      filament w = None /\ heating_stage w = Working)) /\
  (forall w,
     left_by_completion w ->
     reachable w /\ heating_stage w = Working /\ filament w = None /\
     ~ stage_has_profile w) /\
  (forall w,
     reachable w -> heating_stage w = PreHeating -> filament w <> None) /\
  (forall w w',
     selection w = Done tt w' ->
     stage_has_profile w' /\ filament w' <> None) /\
  (forall t w w',
     set_heater_state t w = Done tt w' ->
     stage_has_profile w' /\ filament w' <> None) /\
  (forall w w',
     completion w = Done tt w' ->
     filament w' = None /\ heating_stage w' = heating_stage w) /\
  (forall w reason w',
     loop w = Halted reason w' -> reason <> "Heater state.").
Proof.
  assert (Hreach : forall w,
            reachable w ->
            stage_has_profile w \/
            (left_by_completion w /\
             filament w = None /\ heating_stage w = Working)).
  { intros w Hr. induction Hr as [samples readings schedule|w w' Hr _ Hl].
    - left. intros Hs. exfalso. apply Hs.
      rewrite setup_stage. reflexivity.
    - destruct (loop_returned_from _ _ Hl)
        as [Hsome|(f & Hf & Hs & Hover & Hlc & Hc & Hnone & Hw)].
      + left. intros _. exact Hsome.
      + right. split; [|split; assumption].
        exists w, f. repeat split; assumption. }
  split; [exact Hreach|]. split; [|split; [|split; [|split; [|split]]]].
  - intros w (w0 & f & Hr & Hf & Hs & Hover & Hlc & Hc).
    destruct (completion_returned _ _ Hc) as (Hnone & Hstage & _).
    assert (Hw : heating_stage w = Working) by congruence.
    split; [|split; [exact Hw|split; [exact Hnone|]]].
    + apply reach_loop with (w := w0); [exact Hr|]. rewrite Hlc. exact Hc.
    + intros Hinv. apply Hinv; [|exact Hnone]. rewrite Hw. discriminate.
  - intros w Hr Hs. destruct (Hreach w Hr) as [Hinv|(_ & _ & Hw)].
    + apply Hinv. rewrite Hs. discriminate.
    + congruence.
  - intros w w' H. apply selection_returned in H.
    destruct H as (Hf & _). split; [intros _|]; exact Hf.
  - intros t w w' H. apply set_heater_state_returned in H.
    destruct H as (Hsame & Hsome).
    assert (filament w' <> None) by congruence.
    split; [intros _|]; assumption.
  - intros w w' H. apply completion_returned in H. tauto.
  - exact loop_panics.
Qed.

(** C4 as stated fails: when the button has been pressed after the
    announcement, the iteration ends with the profile cleared and the
    stage still at Working, not Idle. *)
Lemma completion_leaves_stage :
  exists w',
    loop session_done = Done tt w' /\
    filament w' = None /\
    heating_stage w' = Working /\
    heating_stage w' <> Idle.
Proof.
  eexists. split; [vm_compute; reflexivity|].
  split; [reflexivity|]. split; [reflexivity|]. discriminate.
Qed.

(** ** The theorems at work on concrete worlds *)

(** PLA, target 45: a reading of 50 in Idle leads to Working at once. *)
Lemma set_heater_state_transition_witness :
  filament idle_pla = Some PLA /\
  exists w',
    set_heater_state 50 idle_pla = Done tt w' /\
    heater_is_on w' = false /\
    heating_stage w' = Working /\
    seconds w' = 0.
Proof.
  split; [reflexivity|].
  destruct (set_heater_state_transition idle_pla PLA 50 eq_refl)
    as (w' & Hrun & _ & Hhigh & _).
  exists w'. split; [exact Hrun|].
  destruct (Hhigh eq_refl) as (Hoff & _ & Hfresh & _).
  destruct (Hfresh (or_introl eq_refl)) as (Hstage & Hsec).
  split; [exact Hoff|]. split; [exact Hstage|exact Hsec].
Defined.

(** A reading of 50.0 degrees is returned as 50. *)
Lemma query_sensor_checks_witness :
  probe idle_pla = [(94, celsius_50)] /\
  query_sensor idle_pla = Done 50 (delay 94 (set_probe [] idle_pla)).
Proof.
  split; [reflexivity|].
  destruct (query_sensor_checks idle_pla 94 celsius_50 [] eq_refl)
    as (_ & _ & _ & Hok).
  apply Hok. split; discriminate.
Defined.

(** After power-on and a press of the button, with the probe at 50
    degrees, the first iteration ends in the Working stage: the state
    is reachable, its stage is not Idle, it is not one left by
    [completion], and a profile is selected. *)
Lemma stage_profile_invariant_witness :
  reachable pla_started /\
  heating_stage pla_started = Working /\
  heating_stage pla_started <> Idle /\
  stage_has_profile pla_started /\
  filament pla_started = Some PLA.
Proof.
  assert (Hrun : loop first_power_on = Done tt pla_started)
    by (vm_compute; reflexivity).
  assert (Hr : reachable pla_started).
  { apply reach_loop with (w := first_power_on); [|exact Hrun].
    apply reach_setup. }
  split; [exact Hr|]. split; [reflexivity|]. split; [discriminate|].
  split; [|reflexivity].
  destruct (proj1 stage_profile_invariant pla_started Hr)
    as [Hp|(_ & Hnone & _)]; [exact Hp|discriminate Hnone].
Defined.

(** Six hours and a second on PLA: heater off, three beeps, and after
    the press of the button the profile is cleared. *)
Lemma completion_sequence_witness :
  filament session_done = Some PLA /\
  heating_stage session_done = Working /\
  seconds session_done > time_sec PLA /\
  loop session_done = completion session_done /\
  heater_is_on (final (loop session_done)) = false /\
  trace (final (loop session_done)) = completion_log ++ trace session_done.
Proof.
  split; [reflexivity|]. split; [reflexivity|]. split; [reflexivity|].
  destruct (completion_sequence session_done PLA eq_refl eq_refl eq_refl)
    as (H1 & H2 & H3 & _).
  split; [exact H1|]. split; [exact H2|exact H3].
Defined.

(** The 3600th second of preheating ends in the panic "Preheating.". *)
Lemma preheating_timeout_witness :
  filament preheating_hour = Some PLA /\
  heating_stage preheating_hour = PreHeating /\
  (exists w',
     loop preheating_hour = Halted "Preheating." w' /\
     heater_is_on w' = false /\ heater_pin w' = Some false) /\
  (exists w',
     update_screen 45 preheating_over = Halted "Preheating." w' /\
     heater_is_on w' = false /\ heater_pin w' = Some false).
Proof.
  split; [reflexivity|]. split; [reflexivity|]. split.
  - destruct (preheating_timeout preheating_hour PLA eq_refl eq_refl)
      as (_ & Hloop).
    apply (Hloop 94 celsius_45 [] eq_refl).
    + discriminate.
    + reflexivity.
    + split; discriminate.
    + discriminate.
  - destruct (preheating_timeout preheating_over PLA eq_refl eq_refl)
      as (Hscreen & _).
    apply Hscreen. discriminate.
Defined.

(** The stray sample 500 is dropped and 845 is reported as Prev. *)
Lemma read_action_first_in_band_witness :
  adc stray_sample = [500] ++ 845 :: [] /\
  Forall out_of_band [500] /\
  in_band ActionPrev 845 /\
  read_action stray_sample = Done ActionPrev (set_adc [] stray_sample).
Proof.
  assert (Hstray : Forall out_of_band [500]).
  { constructor; [|constructor]. apply classify_out_of_band. reflexivity. }
  assert (Hband : in_band ActionPrev 845) by (split; reflexivity).
  split; [reflexivity|]. split; [exact Hstray|]. split; [exact Hband|].
  destruct (read_action_first_in_band stray_sample) as (Hfirst & _).
  apply (Hfirst [500] 845 [] ActionPrev eq_refl Hstray Hband).
Defined.

(** Prev without a second contact for 351 samplings, and Next with its
    second contact: each call returns its own direction, and the press
    of the button that follows is still to come. *)
Lemma rotation_resolves_witness :
  pending long_turn /\
  actions (adc long_turn) =
    ActionPrev :: repeat ActionPrev 351 ++ [NoAction; ActionConfirm] /\
  (exists w',
     wait_for_action long_turn = Done ActionPrev w' /\
     actions (adc w') = [ActionConfirm]) /\
  pending quick_turn /\
  (exists w',
     wait_for_action quick_turn = Done ActionNext w' /\
     actions (adc w') = [ActionConfirm]).
Proof.
  assert (P1 : pending long_turn) by (left; reflexivity).
  assert (P2 : pending quick_turn) by (right; cbn; left; reflexivity).
  assert (A1 : actions (adc long_turn) =
               ActionPrev :: repeat ActionPrev 351 ++
               [NoAction; ActionConfirm]) by (vm_compute; reflexivity).
  split; [exact P1|]. split; [exact A1|]. split; [|split; [exact P2|]].
  - destruct (rotation_resolves_to_initiating_direction long_turn ActionPrev
                (repeat ActionPrev 351 ++ [NoAction; ActionConfirm])
                (or_introl eq_refl) P1 A1) as (Htimeout & _).
    apply (Htimeout (repeat ActionPrev 351) [] [ActionConfirm]).
    + reflexivity.
    + apply repeat_length.
    + intros Hin. apply repeat_spec in Hin. discriminate Hin.
    + intros [].
  - destruct (rotation_resolves_to_initiating_direction quick_turn ActionNext
                [ActionNext; ActionPrev; ActionPrev; NoAction; ActionConfirm]
                (or_intror eq_refl) P2 eq_refl) as (_ & Hpaired & _).
    apply (Hpaired [ActionNext] [ActionPrev] [ActionConfirm]).
    + reflexivity.
    + cbn. lia.
    + intros [Hin|[]]. discriminate Hin.
    + intros [Hin|[]]. discriminate Hin.
Defined.

(** After the short press the call sleeps 5 ms and clears the flag. *)
Lemma quiet_period_before_return_witness :
  wait_for_action short_press = Done ActionConfirm short_press_end /\
  ActionConfirm <> NoAction /\
  exists w0 w1 w4,
    await_event (List.length (irqs short_press)) short_press = Done tt w0 /\
    read_action w0 = Done ActionConfirm w1 /\
    debounce ActionConfirm (millis w1) w1 = Done tt w4 /\
    millis short_press_end =
      wrap32 (millis w4 +
              quiet_period ActionConfirm (elapsed (millis w1) w4)) /\
    event_on_encoder short_press_end = false.
Proof.
  assert (Hrun : wait_for_action short_press =
                 Done ActionConfirm short_press_end) by reflexivity.
  assert (Hact : ActionConfirm <> NoAction) by discriminate.
  split; [exact Hrun|]. split; [exact Hact|].
  destruct (quiet_period_before_return short_press ActionConfirm
              short_press_end Hrun Hact)
    as (w0 & w1 & w4 & H0 & H1 & H4 & Hclock & Hflag & _).
  exists w0, w1, w4. auto.
Defined.

(** From the last index Next wraps to 0, and Confirm selects Nylon. *)
Lemma menu_index_cycles_witness :
  0 <= 4 < catalog_size /\
  next_index ActionNext 4 = 0 /\
  next_index ActionPrev 4 = 3 /\
  menu_loop 1 4 menu_at_last =
    Done tt (final (wait_for_action menu_at_last)) /\
  filament (final (wait_for_action menu_at_last)) = Some (filament_at 4).
Proof.
  assert (Hi : 0 <= 4 < catalog_size) by (split; [discriminate|reflexivity]).
  split; [exact Hi|].
  destruct (menu_index_cycles 4 Hi)
    as (Hlast & _ & _ & Hprev & _ & _ & Hconfirm & _).
  split; [apply Hlast; reflexivity|].
  split; [apply Hprev; discriminate|].
  apply (Hconfirm O menu_at_last (final (wait_for_action menu_at_last))).
  - reflexivity.
  - reflexivity.
Defined.

(** With no profile the heater goes off before the menu opens, and a
    press of the button selects PLA; one notch forward and then a press
    selects ABS, the second profile. *)
Lemma selection_keeps_heater_off_witness :
  filament no_profile = None /\
  heater_is_on (final (selection no_profile)) = false /\
  pin_writes (trace (final (selection no_profile))) =
    Pin HEATER_PIN false :: pin_writes (trace no_profile) /\
  (exists w',
     selection no_profile = Done tt w' /\
     filament w' = Some (filament_at 0) /\
     heater_is_on w' = false) /\
  filament one_notch = None /\
  heater_is_on one_notch = true /\
  exists w',
    selection one_notch = Done tt w' /\
    filament w' = Some (filament_at 1) /\
    name (filament_at 1) = "ABS" /\
    heater_is_on w' = false.
Proof.
  split; [reflexivity|].
  destruct (selection_keeps_heater_off no_profile eq_refl)
    as (_ & Hoff & Hpins & _ & Hpress & _).
  split; [exact Hoff|]. split; [exact Hpins|]. split.
  { apply (Hpress [] []).
    - left. reflexivity.
    - reflexivity.
    - intros []. }
  split; [reflexivity|]. split; [reflexivity|].
  destruct (selection_keeps_heater_off one_notch eq_refl)
    as (_ & _ & _ & _ & _ & Hbrowse).
  assert (H1 : wait_for_action (menu_opened one_notch) =
               Done ActionNext (final (wait_for_action (menu_opened one_notch))))
    by (vm_compute; reflexivity).
  assert (H2 : present_filament
                 (set_filament (Some (filament_at (next_index ActionNext 0)))
                    (final (wait_for_action (menu_opened one_notch)))) =
               Done tt
                 (final (present_filament
                    (set_filament (Some (filament_at (next_index ActionNext 0)))
                       (final (wait_for_action (menu_opened one_notch)))))))
    by (vm_compute; reflexivity).
  assert (Hb : browses 0 (menu_opened one_notch) [ActionNext]
                 (final (present_filament
                    (set_filament (Some (filament_at (next_index ActionNext 0)))
                       (final (wait_for_action (menu_opened one_notch))))))).
  { eapply browses_cons; [exact H1|discriminate|exact H2|apply browses_nil]. }
  destruct (Hbrowse [ActionNext] _
              (final (wait_for_action
                 (final (present_filament
                    (set_filament
                       (Some (filament_at (next_index ActionNext 0)))
                       (final (wait_for_action (menu_opened one_notch))))))))
              Hb ltac:(vm_compute; reflexivity))
    as (w' & Hsel & Hfil & _ & Hoff').
  exists w'. split; [exact Hsel|]. split; [exact Hfil|].
  split; [reflexivity|exact Hoff'].
Defined.

(** * Further properties of the code *)

(** ** The encoder: events, samples, and what a call leaves alone *)

Lemma await_event_ready : forall fuel w,
  event_on_encoder w = true -> await_event fuel w = Done tt w.
Proof.
  intros [|n] w H; cbn [await_event]; rewrite H; reflexivity.
Qed.

(** With the encoder flag up and a zero on the pin, [wait_for_action]
    returns NoAction at once: nothing changes but the samples read, no
    time passes, and the flag is left up (lines 264-271). *)
Theorem spurious_event_returns_at_once :
  forall (w : World) (coming : list EncoderAction),
    event_on_encoder w = true ->
    actions (adc w) = NoAction :: coming ->
    exists rest,
      wait_for_action w = Done NoAction (set_adc rest w) /\
      actions rest = coming /\
      event_on_encoder (set_adc rest w) = true /\
      clock (set_adc rest w) = clock w.
Proof.
  intros w coming Hev Hact.
  pose proof (read_action_cases w) as Hr. rewrite Hact in Hr.
  destruct Hr as (rest & Hr & Hrest & _).
  exists rest. unfold wait_for_action, bind.
  rewrite (await_event_ready _ w Hev), Hr. cbn [action_eqb ret].
  repeat split; auto.
Qed.

Lemma serve_event_unset : forall fired w,
  event_on_encoder w = false ->
  ~ In PCINT1_vect fired ->
  event_on_encoder (fold_left (fun u v => isr v u) fired w) = false.
Proof.
  induction fired as [|v fired IH]; intros w Hev Hnot; cbn; auto.
  apply IH.
  - destruct v; [exact Hev|]. exfalso. apply Hnot. left. reflexivity.
  - intros K. apply Hnot. right. exact K.
Qed.

Lemma await_event_starved : forall schedule w,
  irqs w = schedule ->
  ~ pending w ->
  exists w', await_event (List.length schedule) w = Blocked w'.
Proof.
  induction schedule as [|fired rest IH]; intros w Hirq Hnot;
    cbn [List.length await_event];
    (destruct (event_on_encoder w) eqn:Hev;
       [exfalso; apply Hnot; left; exact Hev|]).
  - eauto.
  - apply IH.
    + rewrite delay_irqs, Hirq. reflexivity.
    + intros [Hp|Hp].
      * unfold delay in Hp. cbn [irqs set_clock] in Hp. rewrite Hirq in Hp.
        rewrite serve_event_unset in Hp; [discriminate Hp|exact Hev|].
        intros K. apply Hnot. right. rewrite Hirq. cbn [List.concat].
        apply in_or_app. left. exact K.
      * rewrite delay_irqs, Hirq in Hp. cbn [tl] in Hp.
        apply Hnot. right. rewrite Hirq. cbn [List.concat].
        apply in_or_app. right. exact Hp.
Qed.

(** Without the encoder flag and without an edge interrupt to come,
    [wait_for_action] never reads the pin: it waits for ever and every
    sample is still to come (lines 264-265). *)
Theorem no_sampling_without_event :
  forall (w : World),
    ~ pending w ->
    exists w',
      wait_for_action w = Blocked w' /\
      adc w' = adc w /\
      quiet w w'.
Proof.
  intros w Hnot.
  destruct (await_event_starved (irqs w) w eq_refl Hnot) as (w' & H).
  pose proof (await_event_adc (List.length (irqs w)) w) as Hadc.
  pose proof (await_event_quiet (List.length (irqs w)) w) as Hq.
  rewrite H in Hadc, Hq. cbn [final] in Hadc, Hq.
  exists w'. unfold wait_for_action, bind. rewrite H. auto.
Qed.

Lemma bind_returns_or_waits : forall A B (m : M A) (k : A -> M B),
  (forall w, returns_or_waits (m w)) ->
  (forall a w, returns_or_waits (k a w)) ->
  forall w, returns_or_waits (bind m k w).
Proof.
  intros A B m k Hm Hk w. unfold bind. specialize (Hm w).
  destruct (m w); cbn in *; auto.
Qed.

Lemma read_action_returns_or_waits : forall w,
  returns_or_waits (read_action w).
Proof.
  intros w. unfold read_action.
  destruct (read_samples (adc w)) as [[a rest]|]; exact I.
Qed.

Lemma await_event_returns_or_waits : forall fuel w,
  returns_or_waits (await_event fuel w).
Proof.
  induction fuel as [|n IH]; intros w; cbn [await_event];
    destruct (event_on_encoder w); try exact I. apply IH.
Qed.

Lemma await_pair_returns_or_waits : forall fuel paired t0 w,
  returns_or_waits (await_pair fuel paired t0 w).
Proof.
  induction fuel as [|n IH]; intros paired t0; cbn [await_pair].
  - intros w. exact I.
  - apply bind_returns_or_waits; [apply read_action_returns_or_waits|].
    intros a. destruct (action_eqb a paired); [intros w; exact I|].
    apply bind_returns_or_waits; [intros w; exact I|]. intros _ w.
    destruct (wrap32 (millis w - t0) >? ENCODER_TIMEOUT);
      [exact I|apply IH].
Qed.

Lemma await_release_returns_or_waits : forall fuel w,
  returns_or_waits (await_release fuel w).
Proof.
  induction fuel as [|n IH]; cbn [await_release].
  - intros w. exact I.
  - apply bind_returns_or_waits; [apply read_action_returns_or_waits|].
    intros a. destruct (action_eqb a NoAction); [intros w; exact I|].
    apply bind_returns_or_waits; [intros w; exact I|]. intros _. apply IH.
Qed.

Lemma wait_for_action_returns_or_waits : forall w,
  returns_or_waits (wait_for_action w).
Proof.
  unfold wait_for_action. apply bind_returns_or_waits.
  { intros w. apply await_event_returns_or_waits. }
  intros _. apply bind_returns_or_waits;
    [apply read_action_returns_or_waits|].
  intros action. destruct (action_eqb action NoAction);
    [intros w; exact I|].
  intros w.
  apply (bind_returns_or_waits _ _ (debounce action (millis w))
           (fun _ => settle action (millis w))).
  - unfold debounce. apply bind_returns_or_waits.
    { destruct (action_eqb action ActionPrev); [|intros u; exact I].
      intros u. apply await_pair_returns_or_waits. }
    intros _. apply bind_returns_or_waits.
    { destruct (action_eqb action ActionNext); [|intros u; exact I].
      intros u. apply await_pair_returns_or_waits. }
    intros _ u. apply await_release_returns_or_waits.
  - intros _ u. exact I.
Qed.

(** Whatever the encoder does and however a call of [wait_for_action]
    ends, the call leaves profile, stage, heater flag, probe and log as
    they were, only uses up samples, and never ends in [panic]. *)
Theorem wait_for_action_is_inert :
  forall (w : World),
    quiet w (final (wait_for_action w)) /\
    returns_or_waits (wait_for_action w) /\
    (forall a w',
       wait_for_action w = Done a w' ->
       (List.length (adc w') < List.length (adc w))%nat).
Proof.
  intros w. split; [apply wait_for_action_quiet|].
  split; [apply wait_for_action_returns_or_waits|].
  intros a w'. apply wait_for_action_consumes.
Qed.

Lemma read_action_clock : forall w a w',
  read_action w = Done a w' -> clock w' = clock w.
Proof.
  intros w a w' H. unfold read_action in H.
  destruct (read_samples (adc w)) as [[a1 rest]|]; [|discriminate H].
  injection H as _ <-. reflexivity.
Qed.

Lemma await_pair_bounded : forall fuel paired t0 w w',
  elapsed t0 w <= ENCODER_TIMEOUT ->
  await_pair fuel paired t0 w = Done tt w' ->
  elapsed t0 w <= elapsed t0 w' <= ENCODER_TIMEOUT + 1.
Proof.
  induction fuel as [|n IH]; intros paired t0 w w' Hle H;
    cbn [await_pair] in H; [discriminate H|].
  apply bind_done in H. destruct H as (a & w1 & Hr & H).
  apply read_action_clock in Hr.
  assert (He1 : elapsed t0 w1 = elapsed t0 w)
    by (unfold elapsed, millis; rewrite Hr; reflexivity).
  destruct (action_eqb a paired).
  - cbn [ret] in H. injection H as <-. rewrite He1. lia.
  - apply bind_done in H. destruct H as ([] & w2 & Hd & H).
    unfold exec in Hd. injection Hd as <-.
    pose proof (elapsed_range t0 w) as Hrange.
    assert (He2 : elapsed t0 (delay 1 w1) = elapsed t0 w + 1).
    { rewrite elapsed_delay, He1. unfold wrap32. apply Z.mod_small.
      unfold ENCODER_TIMEOUT in Hle. lia. }
    cbv beta in H. fold (elapsed t0 (delay 1 w1)) in H.
    rewrite He2 in H.
    destruct (Z.gtb_spec (elapsed t0 w + 1) ENCODER_TIMEOUT) as [Hgt|Hok].
    + injection H as <-. rewrite He2. lia.
    + apply IH in H; [|rewrite He2; exact Hok]. rewrite He2 in H. lia.
Qed.

(** Among the levels to come, the awaited one shows within [n]
    samplings, or [n] samplings pass without it. *)
Lemma first_occurrence : forall (paired : EncoderAction) n l,
  In paired l \/ (n <= List.length l)%nat ->
  (exists pre coming,
     l = pre ++ paired :: coming /\ ~ In paired pre /\
     (List.length pre < n)%nat) \/
  (exists polls coming,
     l = polls ++ coming /\ List.length polls = n /\ ~ In paired polls).
Proof.
  intros paired n. induction n as [|n IH]; intros l H.
  - right. exists [], l. split; [reflexivity|]. split; [reflexivity|].
    intros [].
  - destruct l as [|x l].
    { destruct H as [[]|H]. cbn in H. lia. }
    destruct (action_eqb x paired) eqn:Ex.
    + apply action_eqb_eq in Ex. subst x. left. exists [], l.
      split; [reflexivity|]. split; [intros []|cbn; lia].
    + assert (Hx : x <> paired)
        by (intros ->; rewrite action_eqb_refl in Ex; discriminate Ex).
      assert (H' : In paired l \/ (n <= List.length l)%nat).
      { destruct H as [[Hin|Hin]|Hlen]; [contradiction|left; exact Hin|].
        right. cbn [List.length] in Hlen. lia. }
      destruct (IH l H') as [(pre & coming & El & Hnot & Hlen)
                            |(polls & coming & El & Hlen & Hnot)].
      * left. exists (x :: pre), coming. split; [rewrite El; reflexivity|].
        split; [|cbn [List.length]; lia].
        intros [Hin|Hin]; [contradiction|exact (Hnot Hin)].
      * right. exists (x :: polls), coming.
        split; [rewrite El; reflexivity|].
        split; [cbn [List.length]; lia|].
        intros [Hin|Hin]; [contradiction|exact (Hnot Hin)].
Qed.

(** The wait for the second contact of a rotation, started at the first
    sample (lines 293-311).  When the awaited level is among the levels
    that the samples to come stand for, or at least 351 of them lie in a
    band, the wait returns, at most 351 ms after the first sample, time
    passing in [delay(1)] only.  Whatever the samples are, a wait that
    returns has taken at most 351 ms, and a wait never ends in [panic]:
    it can only be held up inside [read_action], by samples that lie in
    no band. *)
Theorem pairing_wait_is_bounded :
  forall (paired : EncoderAction) (w : World),
    (In paired (actions (adc w)) \/
     (351 <= List.length (actions (adc w)))%nat ->
     exists w',
       await_pair (turns w) paired (millis w) w = Done tt w' /\
       0 <= elapsed (millis w) w' <= ENCODER_TIMEOUT + 1) /\
    (forall fuel w',
       await_pair fuel paired (millis w) w = Done tt w' ->
       0 <= elapsed (millis w) w' <= ENCODER_TIMEOUT + 1) /\
    (forall fuel,
       returns_or_waits (await_pair fuel paired (millis w) w)).
Proof.
  intros paired w.
  assert (Hbound : forall fuel w',
            await_pair fuel paired (millis w) w = Done tt w' ->
            0 <= elapsed (millis w) w' <= ENCODER_TIMEOUT + 1).
  { intros fuel w' H. apply await_pair_bounded in H.
    - rewrite elapsed_start in H. exact H.
    - rewrite elapsed_start. unfold ENCODER_TIMEOUT. lia. }
  split; [|split; [exact Hbound|]].
  - intros H.
    assert (Hrun : exists w',
              await_pair (turns w) paired (millis w) w = Done tt w').
    { destruct (first_occurrence paired 351 _ H)
        as [(pre & coming & El & Hnot & Hlen)
           |(polls & coming & El & Hlen & Hnot)].
      - destruct (await_pair_found pre (turns w) paired (millis w) w coming
                    El Hnot) as (w' & Hw' & _).
        + rewrite elapsed_start. unfold ENCODER_TIMEOUT. lia.
        + unfold turns. lia.
        + exists w'. exact Hw'.
      - destruct (await_pair_timeout 350 polls (turns w) paired (millis w) w
                    coming Hlen El Hnot) as (w' & Hw' & _).
        + rewrite elapsed_start. unfold ENCODER_TIMEOUT. lia.
        + unfold turns. lia.
        + exists w'. exact Hw'. }
    destruct Hrun as (w' & Hw'). exists w'. split; [exact Hw'|].
    exact (Hbound _ _ Hw').
  - intros fuel. apply await_pair_returns_or_waits.
Qed.

(** A press of the button resolves to one Confirm: whatever levels the
    pin shows while the button is held (rotation levels included), the
    call returns Confirm when the pin is back at zero, has used up the
    samples of the press, and has cleared the encoder flag
    (lines 267-344). *)
Theorem press_resolves_to_confirm :
  forall (w : World) (held coming : list EncoderAction),
    pending w ->
    actions (adc w) = ActionConfirm :: held ++ NoAction :: coming ->
    ~ In NoAction held ->
    exists w',
      wait_for_action w = Done ActionConfirm w' /\
      actions (adc w') = coming /\
      event_on_encoder w' = false /\
      quiet w w'.
Proof.
  intros w held coming Hp Hact Hheld.
  destruct (wait_for_action_press w held coming Hp Hact Hheld)
    as (w' & Hw & Hcoming & Hflag).
  exists w'. split; [exact Hw|]. split; [exact Hcoming|].
  split; [exact Hflag|].
  pose proof (wait_for_action_quiet w) as Q. rewrite Hw in Q. exact Q.
Qed.

(** ** The selection menu *)

Lemma index_cases : forall i,
  0 <= i < catalog_size -> i = 0 \/ i = 1 \/ i = 2 \/ i = 3 \/ i = 4.
Proof.
  intros i Hi. unfold catalog_size in Hi. cbn [filaments List.length] in Hi.
  change (Z.of_nat 5) with 5 in Hi. lia.
Qed.

(** On the indices of the catalog Prev undoes Next and Next undoes Prev,
    and as many Next actions as there are profiles lead back to the
    profile one started from: the menu is a cycle (lines 360-373). *)
Theorem menu_is_a_cycle :
  forall (i : Z),
    0 <= i < catalog_size ->
    next_index ActionPrev (next_index ActionNext i) = i /\
    next_index ActionNext (next_index ActionPrev i) = i /\
    turn_next (List.length filaments) i = i /\
    (forall n, (0 < n < List.length filaments)%nat -> turn_next n i <> i).
Proof.
  intros i Hi.
  destruct (index_cases i Hi) as [->|[->|[->|[->| ->]]]];
    (split; [reflexivity|]); (split; [reflexivity|]);
    (split; [reflexivity|]); intros n Hn; cbn [filaments List.length] in Hn;
    (assert (Hc : (n = 1 \/ n = 2 \/ n = 3 \/ n = 4)%nat) by lia);
    destruct Hc as [->|[->|[->| ->]]]; discriminate.
Qed.

Lemma menu_loop_in_catalog : forall fuel i w w',
  0 <= i < catalog_size ->
  filament w = Some (filament_at i) ->
  menu_loop fuel i w = Done tt w' ->
  exists j, 0 <= j < catalog_size /\ filament w' = Some (filament_at j).
Proof.
  induction fuel as [|n IH]; intros i w w' Hi Hf H; cbn [menu_loop] in H;
    [discriminate H|].
  apply bind_done in H. destruct H as (a & w1 & Hw & H).
  pose proof (wait_for_action_quiet w) as Q. rewrite Hw in Q.
  destruct Q as (Qf & _). cbn [final] in Qf.
  destruct (action_eqb a ActionConfirm).
  - cbn [ret] in H. injection H as <-. exists i. split; [exact Hi|congruence].
  - apply bind_done in H. destruct H as ([] & w2 & H2 & H).
    unfold exec in H2. injection H2 as <-.
    apply bind_done in H. destruct H as ([] & w3 & H3 & H).
    unfold present_filament, bind, deref_filament, exec in H3.
    cbn [filament set_filament] in H3. injection H3 as <-.
    eapply IH; [| |exact H].
    + apply next_index_in_catalog. exact Hi.
    + reflexivity.
Qed.

(** When the selection block returns, the selected profile is an entry
    of the catalog, whatever the operator did with the encoder; its
    target lies between 45 and 70 degrees, inside the range of readings
    that [query_sensor] accepts (lines 347-377, 511-518). *)
Theorem selection_picks_catalog_entry :
  forall (w w' : World),
    selection w = Done tt w' ->
    exists j,
      0 <= j < catalog_size /\
      filament w' = Some (filament_at j) /\
      In (filament_at j) filaments /\
      45 <= temp (filament_at j) <= 70.
Proof.
  intros w w' H. rewrite selection_from_menu in H.
  destruct (menu_opened_inputs w) as (_ & _ & _ & _ & Mfil).
  remember (menu_opened w) as m eqn:Hm. clear Hm.
  apply bind_done in H. destruct H as ([] & w1 & E & H). cbv beta in E.
  apply menu_loop_in_catalog with (i := 0) in E;
    [|split; [discriminate|reflexivity]|exact Mfil].
  destruct E as (j & Hj & Hfj).
  unfold bind, exec in H. injection H as <-.
  exists j. split; [exact Hj|]. split.
  - cbn [filament set_refresh_screen set_heating_stage reset_timer
         set_seconds clear_screen lcd emit]. exact Hfj.
  - destruct (index_cases j Hj) as [->|[->|[->|[->| ->]]]];
      (split; [cbn; tauto|split; discriminate]).
Qed.

(** ** One iteration of the control part *)

Lemma measured_globals : forall conversion rest w,
  filament (delay conversion (set_probe rest w)) = filament w /\
  heating_stage (delay conversion (set_probe rest w)) = heating_stage w /\
  heater_is_on (delay conversion (set_probe rest w)) = heater_is_on w /\
  trace (delay conversion (set_probe rest w)) = trace w.
Proof.
  intros conversion rest w.
  rewrite delay_filament, delay_stage, delay_heater, delay_trace.
  repeat split.
Qed.

(** [set_heater_state] out of Idle: the stage it goes to, and the timer. *)
Lemma heater_step_idle : forall t w f,
  filament w = Some f ->
  heating_stage w = Idle ->
  exists w',
    set_heater_state t w = Done tt w' /\
    filament w' = Some f /\
    heating_stage w' = (if t >? temp f then Working else PreHeating) /\
    seconds w' = 0 /\
    refresh_screen w' = false /\
    heater_is_on w' = negb (t >? temp f) /\
    trace w' = Pin HEATER_PIN (negb (t >? temp f)) :: trace w.
Proof.
  intros t w f Hf Hs. unfold set_heater_state. rewrite Hf. unfold target_of.
  destruct (t >? temp f); cbv zeta;
    cbn [turn_off turn_on heating_stage set_heater_is_on emit];
    rewrite Hs; cbn [stage_eqb orb]; eexists; (split; [reflexivity|]);
    cbn; repeat split; auto.
Qed.

(** [set_heater_state] in PreHeating. *)
Lemma heater_step_preheating : forall t w f,
  filament w = Some f ->
  heating_stage w = PreHeating ->
  exists w',
    set_heater_state t w = Done tt w' /\
    filament w' = Some f /\
    heater_is_on w' = negb (t >? temp f) /\
    trace w' = Pin HEATER_PIN (negb (t >? temp f)) :: trace w /\
    ((t >? temp f) = true ->
       heating_stage w' = Working /\ seconds w' = 0 /\
       refresh_screen w' = false) /\
    ((t >? temp f) = false ->
       heating_stage w' = PreHeating /\ seconds w' = seconds w /\
       refresh_screen w' = refresh_screen w).
Proof.
  intros t w f Hf Hs. unfold set_heater_state. rewrite Hf. unfold target_of.
  destruct (t >? temp f); cbv zeta;
    cbn [turn_off turn_on heating_stage set_heater_is_on emit];
    rewrite Hs; cbn [stage_eqb orb]; eexists; (split; [reflexivity|]);
    cbn; repeat split; auto; discriminate.
Qed.

(** [set_heater_state] in Working: the heater follows the reading and
    nothing else changes. *)
Lemma heater_step_working : forall t w f,
  filament w = Some f ->
  heating_stage w = Working ->
  set_heater_state t w =
    Done tt
      (set_heater_is_on (negb (t >? temp f))
         (emit (Pin HEATER_PIN (negb (t >? temp f))) w)).
Proof.
  intros t w f Hf Hs. unfold set_heater_state. rewrite Hf. unfold target_of.
  destruct (t >? temp f); cbv zeta;
    cbn [turn_off turn_on heating_stage set_heater_is_on emit];
    rewrite Hs; cbn [stage_eqb orb]; reflexivity.
Qed.

Lemma lcd_as_seq : forall c w, lcd c w = lcd_seq [c] w.
Proof. reflexivity. Qed.

Lemma update_screen_preheating : forall t w f,
  filament w = Some f ->
  heating_stage w = PreHeating ->
  seconds w < 3600 ->
  exists cmds, update_screen t w = Done tt (lcd_seq cmds w).
Proof.
  intros t w f Hf Hs Hsec. unfold update_screen, bind, deref_filament.
  rewrite Hf. cbv beta zeta. rewrite lcd_seq_stage, Hs. cbn [stage_eqb].
  rewrite lcd_as_seq, lcd_seq_app.
  assert (Hsame : forall cmds, seconds (lcd_seq cmds w) = seconds w)
    by (intros cmds; rewrite lcd_seq_world; reflexivity).
  rewrite Hsame.
  destruct (Z.geb_spec (seconds w) 3600) as [Hge|_]; [lia|].
  unfold print_mins_secs. rewrite lcd_seq_app. eauto.
Qed.

Lemma session_not_over : forall w f,
  filament w = Some f ->
  (heating_stage w <> Working \/ seconds w <= time_sec f) ->
  session_over w = Done false w.
Proof.
  intros w f Hf Hcase. unfold session_over, bind, deref_filament.
  rewrite Hf. cbn [ret].
  destruct (heating_stage w) eqn:Hs; cbn [stage_eqb]; try reflexivity.
  destruct Hcase as [Hne|Hle]; [contradiction Hne; reflexivity|].
  destruct (Z.gtb_spec (seconds w) (time_sec f)); [lia|reflexivity].
Qed.

(** The iteration in which a profile has just been selected: with a
    plausible reading the stage leaves Idle at once (to Working when
    the reading is above the target, to PreHeating otherwise), the
    seconds counter is 0, and the status screen is not drawn in this
    iteration: the refresh asked for at line 517 is withdrawn by the
    reset of the timer (lines 511-518, 546-552, 393-405). *)
Theorem session_starts_in_same_iteration :
  forall (w w1 : World) (conversion : Z) (value : float)
         (rest : list (Z * float)),
    filament w = None ->
    selection w = Done tt w1 ->
    probe w1 = (conversion, value) :: rest ->
    2 <= wrap8 (float_to_uint value) <= 119 ->
    exists f w',
      filament w1 = Some f /\
      loop w = Done tt w' /\
      heating_stage w' =
        (if wrap8 (float_to_uint value) >? temp f
         then Working else PreHeating) /\
      seconds w' = 0 /\
      refresh_screen w' = false /\
      heater_is_on w' = negb (wrap8 (float_to_uint value) >? temp f) /\
      trace w' =
        Pin HEATER_PIN (negb (wrap8 (float_to_uint value) >? temp f))
        :: trace w1.
Proof.
  intros w w1 conversion value rest Hnone Hsel Hp Ht.
  destruct (selection_returned _ _ Hsel) as (Hsome & Hidle & _).
  destruct (filament w1) as [f|] eqn:Hf; [|contradiction Hsome; reflexivity].
  destruct (measured_globals conversion rest w1) as (Mf & Ms & _ & Mt).
  destruct (heater_step_idle (wrap8 (float_to_uint value))
              (delay conversion (set_probe rest w1)) f)
    as (w' & Hstep & _ & Hstage & Hsec & Href & Hheat & Hlog).
  { rewrite Mf. exact Hf. }
  { rewrite Ms. exact Hidle. }
  exists f, w'. split; [reflexivity|]. split.
  - unfold loop, bind. rewrite Hnone, Hsel.
    rewrite (session_not_over w1 f Hf)
      by (left; rewrite Hidle; discriminate).
    unfold control, bind.
    rewrite (query_sensor_plausible w1 conversion value rest Hp Ht), Hstep.
    rewrite Href. reflexivity.
  - rewrite Hlog, Mt. auto.
Qed.

(** An iteration in the Working stage, before the duration is over and
    with a plausible reading: the stage stays Working, the heater is on
    exactly when the reading is not above the target, the seconds
    counter is only moved by the timer (never reset), and the one pin
    written is the heater pin (lines 523, 546-552, 385-406). *)
Theorem working_iteration :
  forall (w : World) (f : Filament) (conversion : Z) (value : float)
         (rest : list (Z * float)),
    filament w = Some f ->
    heating_stage w = Working ->
    seconds w <= time_sec f ->
    probe w = (conversion, value) :: rest ->
    2 <= wrap8 (float_to_uint value) <= 119 ->
    exists w',
      loop w = Done tt w' /\
      filament w' = Some f /\
      heating_stage w' = Working /\
      heater_is_on w' = negb (wrap8 (float_to_uint value) >? temp f) /\
      seconds w' = seconds (delay conversion (set_probe rest w)) /\
      refresh_screen w' = false /\
      pin_writes (trace w') =
        Pin HEATER_PIN (negb (wrap8 (float_to_uint value) >? temp f))
        :: pin_writes (trace w).
Proof.
  intros w f conversion value rest Hf Hs Hsec Hp Ht.
  destruct (measured_globals conversion rest w) as (Mf & Ms & _ & Mt).
  rewrite Hf in Mf. rewrite Hs in Ms.
  unfold loop, bind. rewrite Hf.
  rewrite (session_not_over w f Hf) by (right; exact Hsec).
  unfold control, bind.
  rewrite (query_sensor_plausible w conversion value rest Hp Ht).
  remember (delay conversion (set_probe rest w)) as m eqn:Em. clear Em.
  remember (wrap8 (float_to_uint value)) as t eqn:Et. clear Et Ht.
  rewrite (heater_step_working t m f Mf Ms).
  cbn [refresh_screen set_heater_is_on emit].
  destruct (refresh_screen m) eqn:Hr.
  - unfold exec.
    match goal with
    | |- context [update_screen t ?u] =>
        destruct (update_screen_working t u f) as (cmds & Hu);
        [exact Mf|exact Ms|rewrite Hu]
    end.
    eexists. split; [reflexivity|].
    rewrite lcd_seq_filament, lcd_seq_stage, lcd_seq_heater, lcd_seq_trace.
    rewrite pin_writes_screen. rewrite lcd_seq_world.
    cbn [filament heating_stage heater_is_on seconds refresh_screen trace
         set_refresh_screen set_heater_is_on emit pin_writes filter].
    rewrite Mt. repeat split; auto.
  - eexists. split; [reflexivity|].
    cbn [filament heating_stage heater_is_on seconds refresh_screen trace
         set_heater_is_on emit pin_writes filter].
    rewrite Mt. repeat split; auto.
Qed.

(** An iteration in the PreHeating stage with a plausible reading.  A
    reading above the target takes the stage to Working with the heater
    off and the seconds counter at 0, and the status screen is not drawn
    in that iteration.  Any other reading keeps the stage at PreHeating
    with the heater on and the counter as the timer left it, as long as
    the hour is not over when the screen is due
    (lines 546-552, 385-406, 441-451). *)
Theorem preheating_iteration :
  forall (w : World) (f : Filament) (conversion : Z) (value : float)
         (rest : list (Z * float)),
    filament w = Some f ->
    heating_stage w = PreHeating ->
    probe w = (conversion, value) :: rest ->
    2 <= wrap8 (float_to_uint value) <= 119 ->
    (wrap8 (float_to_uint value) > temp f ->
       exists w',
         loop w = Done tt w' /\
         heating_stage w' = Working /\
         seconds w' = 0 /\
         heater_is_on w' = false /\
         refresh_screen w' = false /\
         trace w' = Pin HEATER_PIN false :: trace w) /\
    (wrap8 (float_to_uint value) <= temp f ->
     refresh_screen (delay conversion (set_probe rest w)) = false \/
     seconds (delay conversion (set_probe rest w)) < 3600 ->
       exists w',
         loop w = Done tt w' /\
         heating_stage w' = PreHeating /\
         heater_is_on w' = true /\
         seconds w' = seconds (delay conversion (set_probe rest w)) /\
         refresh_screen w' = false /\
         pin_writes (trace w') = Pin HEATER_PIN true :: pin_writes (trace w)).
Proof.
  intros w f conversion value rest Hf Hs Hp Ht.
  destruct (measured_globals conversion rest w) as (Mf & Ms & _ & Mt).
  rewrite Hf in Mf. rewrite Hs in Ms.
  assert (Hloop : loop w =
            (set_heater_state (wrap8 (float_to_uint value));;
             fun u =>
               if refresh_screen u
               then (exec (set_refresh_screen false);;
                     update_screen (wrap8 (float_to_uint value))) u
               else Done tt u) (delay conversion (set_probe rest w))).
  { unfold loop, bind. rewrite Hf.
    rewrite (session_not_over w f Hf) by (left; rewrite Hs; discriminate).
    unfold control, bind.
    rewrite (query_sensor_plausible w conversion value rest Hp Ht).
    reflexivity. }
  rewrite Hloop. clear Hloop.
  remember (delay conversion (set_probe rest w)) as m eqn:Em. clear Em.
  remember (wrap8 (float_to_uint value)) as t eqn:Et. clear Et Ht.
  destruct (heater_step_preheating t m f Mf Ms)
    as (w2 & Hstep & Hf2 & Hheat & Hlog & Hup & Hstay).
  unfold bind. rewrite Hstep. split.
  - intros Hgt. assert (Hb : (t >? temp f) = true) by (apply Z.gtb_lt; lia).
    destruct (Hup Hb) as (H1 & H2 & H3). rewrite Hb in Hheat, Hlog.
    rewrite H3. exists w2. rewrite Hlog, Mt. repeat split; auto.
  - intros Hle Hdue.
    assert (Hb : (t >? temp f) = false)
      by (destruct (Z.gtb_spec t (temp f)); [lia|reflexivity]).
    destruct (Hstay Hb) as (H1 & H2 & H3). rewrite Hb in Hheat, Hlog.
    rewrite H3. destruct (refresh_screen m) eqn:Hr.
    + destruct Hdue as [Hdue|Hdue]; [discriminate Hdue|].
      unfold exec.
      destruct (update_screen_preheating t (set_refresh_screen false w2) f)
        as (cmds & Hu).
      { exact Hf2. }
      { exact H1. }
      { cbn [seconds set_refresh_screen]. rewrite H2. exact Hdue. }
      rewrite Hu. eexists. split; [reflexivity|].
      rewrite lcd_seq_stage, lcd_seq_heater, lcd_seq_trace, pin_writes_screen.
      rewrite lcd_seq_world.
      cbn [heating_stage heater_is_on seconds refresh_screen trace
           set_refresh_screen].
      rewrite Hlog, Mt. cbn [pin_writes filter]. repeat split; auto.
    + exists w2. rewrite Hlog, Mt. cbn [pin_writes filter].
      repeat split; auto.
Qed.

(** ** Panics of the main loop *)

Lemma query_sensor_halted : forall w reason w',
  query_sensor w = Halted reason w' ->
  (reason = "Temp NaN." \/ reason = "Frozen." \/ reason = "Burned.") /\
  heater_is_on w' = false /\ heater_pin w' = Some false.
Proof.
  intros w reason w' H. split; [eapply query_sensor_panics; exact H|].
  unfold query_sensor in H.
  destruct (probe w) as [|[conversion value] rest]; [discriminate H|].
  destruct (float_eqb value DEVICE_DISCONNECTED_C);
    [unfold panic in H; injection H as _ <-; split; reflexivity|].
  destruct (wrap8 (float_to_uint value) <=? 1);
    [unfold panic in H; injection H as _ <-; split; reflexivity|].
  destruct (wrap8 (float_to_uint value) >=? 120);
    [unfold panic in H; injection H as _ <-; split; reflexivity|].
  discriminate H.
Qed.

Lemma update_screen_halted : forall t w reason w',
  update_screen t w = Halted reason w' ->
  reason = "Preheating." /\
  heater_is_on w' = false /\ heater_pin w' = Some false.
Proof.
  intros t w reason w' H. split; [eapply update_screen_panics; exact H|].
  unfold update_screen, bind, deref_filament in H.
  destruct (filament w); [|discriminate H]. cbv beta zeta in H.
  match type of H with
  | (if ?c then _ else _) = _ => destruct c
  end; [discriminate H|].
  match type of H with
  | (if ?c then _ else _) = _ => destruct c
  end; [|discriminate H].
  unfold panic in H. injection H as _ <-. split; reflexivity.
Qed.

Lemma control_halted : forall w reason w',
  filament w <> None ->
  control w = Halted reason w' ->
  (reason = "Temp NaN." \/ reason = "Frozen." \/ reason = "Burned." \/
   reason = "Preheating.") /\
  heater_is_on w' = false /\ heater_pin w' = Some false.
Proof.
  intros w reason w' Hf H. unfold control in H.
  apply bind_halted in H. destruct H as [H|(t & w1 & Hq & H)].
  { apply query_sensor_halted in H. intuition. }
  apply query_sensor_returned in Hq.
  apply bind_halted in H. destruct H as [H|([] & w2 & _ & H)].
  { apply set_heater_state_panics in H. congruence. }
  cbv beta in H. destruct (refresh_screen w2); [|discriminate H].
  apply bind_halted in H. destruct H as [H|([] & w3 & _ & H)].
  { discriminate H. }
  apply update_screen_halted in H. intuition.
Qed.

(** Every panic the main loop can end in is one of four (sensor
    disconnected, frozen, burned, an hour of preheating), and in each
    of them the heater flag is off and the last level written to the
    heater pin is low (lines 505-553 with 167-203). *)
Theorem loop_panics_with_heater_off :
  forall (w : World) (reason : string) (w' : World),
    loop w = Halted reason w' ->
    (reason = "Temp NaN." \/ reason = "Frozen." \/ reason = "Burned." \/
     reason = "Preheating.") /\
    heater_is_on w' = false /\ heater_pin w' = Some false.
Proof.
  intros w reason w' H. unfold loop in H.
  apply bind_halted in H. destruct H as [H|([] & w1 & H1 & H)].
  { destruct (filament w); [discriminate H|].
    exfalso. eapply selection_no_panic. exact H. }
  assert (Hf : filament w1 <> None).
  { destruct (filament w) eqn:E.
    - injection H1 as <-. congruence.
    - apply selection_returned in H1. tauto. }
  apply bind_halted in H. destruct H as [H|(over & w2 & H2 & H)].
  { destruct (session_over_outcome w1) as [(over & K)|K];
      rewrite K in H; discriminate H. }
  destruct (session_over_outcome w1) as [(over' & K)|K];
    rewrite K in H2; [|discriminate H2].
  injection H2 as _ <-. destruct over.
  - exfalso. eapply completion_no_panic. exact H.
  - eapply control_halted; eassumption.
Qed.

(** ** The heater flag and the heater pin *)

Lemma same_heater_refl : forall w, same_heater w w.
Proof. intros w. split; reflexivity. Qed.

Lemma same_heater_trans : forall a b c,
  same_heater a b -> same_heater b c -> same_heater a c.
Proof.
  unfold same_heater. intros a b c (H1 & H2) (K1 & K2). split; congruence.
Qed.

Lemma quiet_same_heater : forall w w', quiet w w' -> same_heater w w'.
Proof.
  intros w w' (_ & _ & Hh & Ht & _). split; [|exact Hh].
  unfold heater_pin. rewrite Ht. reflexivity.
Qed.

Lemma same_heater_mirrored : forall w w',
  same_heater w w' -> mirrored w -> mirrored w'.
Proof.
  unfold same_heater, mirrored. intros w w' (H1 & H2) H. congruence.
Qed.

Lemma lcd_same_heater : forall c w, same_heater w (lcd c w).
Proof. intros c w. split; reflexivity. Qed.

Lemma lcd_seq_same_heater : forall cmds w, same_heater w (lcd_seq cmds w).
Proof.
  unfold lcd_seq. induction cmds as [|c cmds IH]; intros w; cbn [fold_left].
  - apply same_heater_refl.
  - eapply same_heater_trans; [apply (lcd_same_heater c)|apply IH].
Qed.

Lemma beep_same_heater : forall d w, same_heater w (beep d w).
Proof.
  intros d w. unfold beep.
  apply same_heater_trans with (emit (Pin BEEPER_PIN true) w);
    [split; reflexivity|].
  apply same_heater_trans with (delay d (emit (Pin BEEPER_PIN true) w));
    [apply quiet_same_heater, delay_quiet|split; reflexivity].
Qed.

Lemma keeps_bind : forall A B (m : M A) (k : A -> M B),
  keeps_mirror m -> (forall a, keeps_mirror (k a)) ->
  keeps_mirror (bind m k).
Proof.
  intros A B m k Hm Hk w Hw. unfold bind. specialize (Hm w Hw).
  destruct (m w) as [a w1|r w1|w1|w1]; cbn [final] in *; auto.
  apply Hk. exact Hm.
Qed.

Lemma keeps_same : forall A (m : M A),
  always same_heater m -> keeps_mirror m.
Proof.
  intros A m Hm w Hw. eapply same_heater_mirrored; [apply Hm|exact Hw].
Qed.

Lemma keeps_exec_same : forall f : World -> World,
  (forall w, same_heater w (f w)) -> keeps_mirror (exec f).
Proof.
  intros f Hf. apply keeps_same. apply always_exec. exact Hf.
Qed.

Lemma keeps_turn_off : keeps_mirror (exec turn_off).
Proof. intros w _. reflexivity. Qed.

Lemma keeps_panic : forall A reason, keeps_mirror (@panic A reason).
Proof. intros A reason w _. reflexivity. Qed.

Lemma wait_for_action_same_heater : always same_heater wait_for_action.
Proof. intros w. apply quiet_same_heater, wait_for_action_quiet. Qed.

Lemma present_filament_same_heater : always same_heater present_filament.
Proof.
  unfold present_filament.
  apply always_bind;
    [apply same_heater_trans|apply deref_filament_same, same_heater_refl|].
  intros f. apply always_exec. intros w. apply lcd_seq_same_heater.
Qed.

Lemma menu_loop_same_heater : forall fuel i,
  always same_heater (menu_loop fuel i).
Proof.
  induction fuel as [|n IH]; intros i; cbn [menu_loop].
  - intros w. apply same_heater_refl.
  - apply always_bind;
      [apply same_heater_trans|apply wait_for_action_same_heater|].
    intros a. destruct (action_eqb a ActionConfirm).
    + apply always_ret, same_heater_refl.
    + apply always_bind; [apply same_heater_trans| |intros _].
      * apply always_exec. intros w. split; reflexivity.
      * apply always_bind;
          [apply same_heater_trans|apply present_filament_same_heater|].
        intros _. apply IH.
Qed.

Lemma selection_keeps_mirror : keeps_mirror selection.
Proof.
  unfold selection. apply keeps_bind; [apply keeps_turn_off|]. intros _.
  apply keeps_bind.
  - unfold choose_filament. apply keeps_same.
    apply always_bind; [apply same_heater_trans| |intros _].
    { apply always_exec. intros w. split; reflexivity. }
    apply always_bind; [apply same_heater_trans| |intros _].
    { apply always_exec. intros w. split; reflexivity. }
    apply always_bind;
      [apply same_heater_trans|apply present_filament_same_heater|].
    intros _ w. apply menu_loop_same_heater.
  - intros _.
    repeat (apply keeps_bind;
            [apply keeps_exec_same; intros w; split; reflexivity|];
            intros _).
    apply keeps_exec_same. intros w. split; reflexivity.
Qed.

Lemma completion_keeps_mirror : keeps_mirror completion.
Proof.
  unfold completion. apply keeps_bind; [apply keeps_turn_off|]. intros _.
  apply keeps_bind;
    [apply keeps_exec_same; intros w; split; reflexivity|]. intros _.
  apply keeps_bind;
    [apply keeps_exec_same; apply lcd_seq_same_heater|]. intros _.
  apply keeps_bind; [apply keeps_exec_same; apply beep_same_heater|].
  intros _.
  apply keeps_bind;
    [apply keeps_exec_same; intros w; apply quiet_same_heater, delay_quiet|].
  intros _.
  apply keeps_bind; [apply keeps_exec_same; apply beep_same_heater|].
  intros _.
  apply keeps_bind;
    [apply keeps_exec_same; intros w; apply quiet_same_heater, delay_quiet|].
  intros _.
  apply keeps_bind; [apply keeps_exec_same; apply beep_same_heater|].
  intros _.
  apply keeps_bind;
    [apply keeps_exec_same; apply lcd_seq_same_heater|]. intros _.
  apply keeps_bind.
  - apply keeps_same. intros w.
    apply quiet_same_heater, await_confirm_quiet.
  - intros _. apply keeps_exec_same. intros w. split; reflexivity.
Qed.

Lemma query_sensor_keeps_mirror : keeps_mirror query_sensor.
Proof.
  intros w Hw. unfold query_sensor.
  destruct (probe w) as [|[conversion value] rest]; [exact Hw|].
  destruct (float_eqb value DEVICE_DISCONNECTED_C); [reflexivity|].
  destruct (wrap8 (float_to_uint value) <=? 1); [reflexivity|].
  destruct (wrap8 (float_to_uint value) >=? 120); [reflexivity|].
  cbn [final]. eapply same_heater_mirrored; [|exact Hw].
  apply same_heater_trans with (set_probe rest w); [split; reflexivity|].
  apply quiet_same_heater, delay_quiet.
Qed.

Lemma set_heater_state_keeps_mirror : forall t,
  keeps_mirror (set_heater_state t).
Proof.
  intros t w _. unfold set_heater_state.
  destruct (filament w) as [f|]; [|reflexivity].
  destruct (t >? target_of f); cbv zeta;
    match goal with
    | |- mirrored (final (if ?c then _ else _)) => destruct c
    end; reflexivity.
Qed.

Lemma update_screen_keeps_mirror : forall t, keeps_mirror (update_screen t).
Proof.
  intros t w Hw. unfold update_screen, bind, deref_filament.
  destruct (filament w); [|exact Hw]. cbv beta zeta.
  match goal with
  | |- mirrored (final (if ?c then _ else _)) => destruct c
  end.
  - cbn [final]. eapply same_heater_mirrored; [|exact Hw].
    unfold print_mins_secs.
    repeat (eapply same_heater_trans; [|apply lcd_seq_same_heater]).
    apply same_heater_refl.
  - match goal with
    | |- mirrored (final (if ?c then _ else _)) => destruct c
    end; [reflexivity|].
    cbn [final]. eapply same_heater_mirrored; [|exact Hw].
    unfold print_mins_secs.
    eapply same_heater_trans; [|apply lcd_seq_same_heater].
    eapply same_heater_trans; [|apply lcd_same_heater].
    apply lcd_seq_same_heater.
Qed.

Lemma loop_keeps_mirror : keeps_mirror loop.
Proof.
  unfold loop. apply keeps_bind.
  - intros w Hw. destruct (filament w); [exact Hw|].
    apply selection_keeps_mirror. exact Hw.
  - intros _. apply keeps_bind.
    + intros w Hw.
      destruct (session_over_outcome w) as [(over & K)|K]; rewrite K;
        exact Hw.
    + intros over. destruct over; [apply completion_keeps_mirror|].
      unfold control. apply keeps_bind; [apply query_sensor_keeps_mirror|].
      intros t. apply keeps_bind; [apply set_heater_state_keeps_mirror|].
      intros _ w Hw. destruct (refresh_screen w); [|exact Hw].
      apply (keeps_bind _ _ (exec (set_refresh_screen false))
               (fun _ => update_screen t)); [| |exact Hw].
      * apply keeps_exec_same. intros u. split; reflexivity.
      * intros _. apply update_screen_keeps_mirror.
Qed.

Lemma set_irqs_same_heater : forall v w, same_heater w (set_irqs v w).
Proof. intros v w. split; reflexivity. Qed.

Lemma clear_screen_same_heater : forall w, same_heater w (clear_screen w).
Proof. intros w. split; reflexivity. Qed.

Lemma setup_mirrored : forall schedule w, mirrored (setup schedule w).
Proof.
  intros schedule w. unfold setup.
  assert (Hoff : mirrored (turn_off w)) by reflexivity.
  eapply same_heater_mirrored; [|exact Hoff].
  eapply same_heater_trans; [|apply set_irqs_same_heater].
  eapply same_heater_trans; [|apply beep_same_heater].
  eapply same_heater_trans; [|apply lcd_same_heater].
  eapply same_heater_trans; [|apply clear_screen_same_heater].
  eapply same_heater_trans; [|apply lcd_same_heater].
  apply lcd_same_heater.
Qed.

(** In every state the firmware reaches between two iterations the
    heater flag agrees with the level last written to the heater pin,
    and an iteration started in such a state ends in one, whether it
    returns, panics or is still waiting (lines 136-147 and every caller
    of [turn_on], [turn_off]). *)
Theorem heater_flag_mirrors_pin :
  (forall w, reachable w -> mirrored w) /\
  (forall w, mirrored w -> mirrored (final (loop w))).
Proof.
  split; [|exact loop_keeps_mirror].
  intros w Hr. induction Hr as [samples readings schedule|w w' _ IH Hl].
  - apply setup_mirrored.
  - pose proof (loop_keeps_mirror w IH) as H. rewrite Hl in H. exact H.
Qed.

(** ** The status screen *)

Lemma wrap8_small : forall z, 0 <= z < 256 -> wrap8 z = z.
Proof.
  intros z Hz. unfold wrap8. change 255 with (Z.ones 8).
  rewrite Z.land_ones by lia. apply Z.mod_small. exact Hz.
Qed.

Lemma lcd_seq_seconds : forall cmds w, seconds (lcd_seq cmds w) = seconds w.
Proof. intros cmds w. rewrite lcd_seq_world. reflexivity. Qed.

Lemma printed_numbers_app : forall a b,
  printed_numbers (a ++ b) = printed_numbers b ++ printed_numbers a.
Proof.
  intros a b. unfold printed_numbers. rewrite rev_app_distr.
  apply flat_map_app.
Qed.

(** The numbers [update_screen] prints in the Working stage. *)
Lemma update_screen_working_numbers : forall t w f,
  filament w = Some f ->
  heating_stage w = Working ->
  exists w' more,
    update_screen t w = Done tt w' /\
    trace w' = more ++ trace w /\
    printed_numbers more =
      [ temp f; t;
        wrap8 (wrap32 (time_sec f - seconds w) / 3600);
        wrap8 ((wrap32 (time_sec f - seconds w) mod 3600) / 60);
        wrap8 (wrap32 (time_sec f - seconds w) mod 60) ] /\
    seconds w' = seconds w.
Proof.
  intros t w f Hf Hs. unfold update_screen, bind, deref_filament.
  rewrite Hf. cbv beta zeta. rewrite lcd_seq_stage, Hs. cbn [stage_eqb].
  rewrite lcd_seq_seconds.
  eexists. eexists. split; [reflexivity|].
  unfold print_mins_secs. rewrite !lcd_seq_trace, !lcd_seq_seconds.
  rewrite !app_assoc. split; [reflexivity|]. split; [|reflexivity].
  unfold target_of.
  repeat match goal with
  | |- context [if ?c then _ else _] => destruct c
  end; reflexivity.
Qed.

(** The numbers [update_screen] prints before the Working stage. *)
Lemma update_screen_preheating_numbers : forall t w f,
  filament w = Some f ->
  heating_stage w = PreHeating ->
  seconds w < 3600 ->
  exists w' more,
    update_screen t w = Done tt w' /\
    trace w' = more ++ trace w /\
    printed_numbers more =
      [ temp f; t;
        wrap8 ((seconds w mod 3600) / 60);
        wrap8 (seconds w mod 60) ].
Proof.
  intros t w f Hf Hs Hsec. unfold update_screen, bind, deref_filament.
  rewrite Hf. cbv beta zeta. rewrite lcd_seq_stage, Hs. cbn [stage_eqb].
  rewrite lcd_as_seq, lcd_seq_app, lcd_seq_seconds.
  destruct (Z.geb_spec (seconds w) 3600) as [Hge|_]; [lia|].
  eexists. eexists. split; [reflexivity|].
  unfold print_mins_secs. rewrite !lcd_seq_trace.
  rewrite !app_assoc. split; [reflexivity|].
  unfold target_of.
  repeat match goal with
  | |- context [if ?c then _ else _] => destruct c
  end; reflexivity.
Qed.

Lemma hms_split : forall r,
  0 <= r ->
  (r / 3600) * 3600 + ((r mod 3600) / 60) * 60 + r mod 60 = r /\
  0 <= (r mod 3600) / 60 < 60 /\
  0 <= r mod 60 < 60.
Proof.
  intros r Hr.
  pose proof (Z.div_mod r 3600 ltac:(lia)) as H1.
  pose proof (Z.div_mod (r mod 3600) 60 ltac:(lia)) as H2.
  pose proof (Z.mod_pos_bound r 3600 ltac:(lia)) as B1.
  pose proof (Z.mod_pos_bound (r mod 3600) 60 ltac:(lia)) as B2.
  pose proof (Z.mod_pos_bound r 60 ltac:(lia)) as B3.
  assert (H3 : (r mod 3600) mod 60 = r mod 60).
  { apply Z.mod_mod_divide. exists 60. reflexivity. }
  assert (B4 : 0 <= (r mod 3600) / 60 < 60).
  { split; [apply Z.div_pos; lia|].
    apply Z.div_lt_upper_bound; lia. }
  rewrite H3 in H2. split; [lia|]. split; [exact B4|exact B3].
Qed.

(** In the Working stage, with the seconds counter not above the
    duration of the profile (and the duration below 256 hours),
    [update_screen] prints target, reading and then hours, minutes and
    seconds that add up to the time left (lines 410-465). *)
Theorem eta_shows_time_left :
  forall (t : Z) (w : World) (f : Filament),
    filament w = Some f ->
    heating_stage w = Working ->
    0 <= seconds w <= time_sec f ->
    time_sec f < 256 * 3600 ->
    exists w' more hours mins secs,
      update_screen t w = Done tt w' /\
      trace w' = more ++ trace w /\
      printed_numbers more = [temp f; t; hours; mins; secs] /\
      hours * 3600 + mins * 60 + secs = time_sec f - seconds w /\
      0 <= mins < 60 /\ 0 <= secs < 60.
Proof.
  intros t w f Hf Hs Hsec Hmax.
  destruct (update_screen_working_numbers t w f Hf Hs)
    as (w' & more & Hrun & Hlog & Hnum & _).
  assert (Hleft : wrap32 (time_sec f - seconds w) = time_sec f - seconds w)
    by (unfold wrap32; apply Z.mod_small; lia).
  rewrite Hleft in Hnum.
  destruct (hms_split (time_sec f - seconds w) ltac:(lia))
    as (Hsum & Hm & Hsc).
  assert (Hh : 0 <= (time_sec f - seconds w) / 3600 < 256).
  { split; [apply Z.div_pos; lia|]. apply Z.div_lt_upper_bound; lia. }
  rewrite !wrap8_small in Hnum by lia.
  exists w', more. do 3 eexists.
  split; [exact Hrun|]. split; [exact Hlog|]. split; [exact Hnum|].
  split; [exact Hsum|]. split; assumption.
Qed.

(** Before the Working stage, within the first hour, [update_screen]
    prints target, reading and then minutes and seconds that add up to
    the seconds counter (lines 410-465). *)
Theorem preheating_screen_shows_elapsed :
  forall (t : Z) (w : World) (f : Filament),
    filament w = Some f ->
    heating_stage w = PreHeating ->
    0 <= seconds w < 3600 ->
    exists w' more mins secs,
      update_screen t w = Done tt w' /\
      trace w' = more ++ trace w /\
      printed_numbers more = [temp f; t; mins; secs] /\
      mins * 60 + secs = seconds w /\
      0 <= mins < 60 /\ 0 <= secs < 60.
Proof.
  intros t w f Hf Hs Hsec.
  destruct (update_screen_preheating_numbers t w f Hf Hs ltac:(lia))
    as (w' & more & Hrun & Hlog & Hnum).
  destruct (hms_split (seconds w) ltac:(lia)) as (Hsum & Hm & Hsc).
  assert (Hzero : seconds w / 3600 = 0) by (apply Z.div_small; lia).
  rewrite Hzero in Hsum.
  rewrite !wrap8_small in Hnum by lia.
  exists w', more. do 2 eexists.
  split; [exact Hrun|]. split; [exact Hlog|]. split; [exact Hnum|].
  split; [lia|]. split; assumption.
Qed.

(** The last second of a session.  When an iteration starts in the
    Working stage with the seconds counter equal to the duration of the
    profile and the timer ticks during the conversion, the session is
    not yet taken as over (the test at line 523 is strict), the time
    left, computed without sign at line 435, wraps around, and the
    status screen shows 86:28:15; the iteration after it is the
    completion sequence. *)
Theorem eta_wraps_in_last_second :
  forall (w : World) (f : Filament) (conversion : Z) (value : float)
         (rest : list (Z * float)) (later : list (list Isr)),
    filament w = Some f ->
    heating_stage w = Working ->
    seconds w = time_sec f ->
    0 <= time_sec f ->
    time_sec f + 1 < 4294967296 ->
    probe w = (conversion, value) :: rest ->
    2 <= wrap8 (float_to_uint value) <= 119 ->
    irqs w = [TIMER1_COMPA_vect] :: later ->
    exists w' more,
      loop w = Done tt w' /\
      seconds w' = time_sec f + 1 /\
      trace w' = more ++ trace w /\
      printed_numbers more =
        [temp f; wrap8 (float_to_uint value); 86; 28; 15] /\
      loop w' = completion w'.
Proof.
  intros w f conversion value rest later Hf Hs Hsec H0 Hmax Hp Ht Hirq.
  unfold loop at 1. unfold bind. rewrite Hf.
  rewrite (session_not_over w f Hf) by (right; lia).
  unfold control, bind.
  rewrite (query_sensor_plausible w conversion value rest Hp Ht).
  remember (wrap8 (float_to_uint value)) as t eqn:Et. clear Et Ht.
  rewrite (tick_served conversion (set_probe rest w) later Hirq).
  cbn [seconds clock set_probe].
  match goal with
  | |- context [set_heater_state t ?m] =>
      rewrite (heater_step_working t m f Hf Hs)
  end.
  cbn [refresh_screen set_heater_is_on emit set_refresh_screen]. unfold exec.
  match goal with
  | |- context [update_screen t ?u] =>
      destruct (update_screen_working_numbers t u f Hf Hs)
        as (w' & more & Hrun & Hlog & Hnum & Hsame);
      rewrite Hrun
  end.
  cbn [seconds trace set_refresh_screen set_heater_is_on emit set_seconds
       set_irqs set_clock set_probe] in Hnum, Hsame, Hlog.
  assert (Hnow : wrap32 (seconds w + 1) = time_sec f + 1)
    by (rewrite Hsec; unfold wrap32; apply Z.mod_small; lia).
  rewrite Hnow in Hnum, Hsame.
  replace (time_sec f - (time_sec f + 1)) with (-1) in Hnum by lia.
  change (wrap32 (-1)) with 4294967295 in Hnum.
  change (wrap8 (4294967295 / 3600)) with 86 in Hnum.
  change (wrap8 ((4294967295 mod 3600) / 60)) with 28 in Hnum.
  change (wrap8 (4294967295 mod 60)) with 15 in Hnum.
  assert (Hf' : filament w' = Some f).
  { apply update_screen_returned in Hrun. rewrite Hrun. exact Hf. }
  assert (Hs' : heating_stage w' = Working).
  { pose proof (update_screen_working t
                  (set_refresh_screen false
                     (set_heater_is_on (negb (t >? temp f))
                        (emit (Pin HEATER_PIN (negb (t >? temp f)))
                           (set_refresh_screen true
                              (set_seconds (wrap32 (seconds w + 1))
                                 (set_irqs later
                                    (set_clock
                                       (wrap32 (clock w + conversion))
                                       (set_probe rest w))))))))
                  f Hf Hs) as (cmds & Hu).
    rewrite Hu in Hrun. injection Hrun as <-.
    rewrite lcd_seq_stage. exact Hs. }
  exists w', (more ++ [Pin HEATER_PIN (negb (t >? temp f))]).
  split; [reflexivity|]. split; [exact Hsame|]. split.
  { rewrite Hlog, <- app_assoc. reflexivity. }
  split.
  { rewrite printed_numbers_app, Hnum. reflexivity. }
  apply (loop_completes w' f Hf' Hs'). lia.
Qed.

(** ** The probe *)

Lemma truncation_mod_256 : forall value,
  wrap8 (float_to_uint value) = float_trunc value mod 256.
Proof.
  intros value. unfold wrap8, float_to_uint, wrap16.
  change 255 with (Z.ones 8). rewrite Z.land_ones by lia.
  apply Z.mod_mod_divide. exists 256. reflexivity.
Qed.

(** Only the low eight bits of the whole degrees count.  A reading
    between 0 and 65535 degrees whose whole part, reduced modulo 256,
    lies in 2..119 is accepted and returned as that remainder: 300
    degrees pass as 44 (line 214). *)
Theorem readings_alias_modulo_256 :
  forall (w : World) (conversion : Z) (value : float)
         (rest : list (Z * float)),
    probe w = (conversion, value) :: rest ->
    0 <= float_trunc value < 65536 ->
    2 <= float_trunc value mod 256 <= 119 ->
    query_sensor w =
      Done (float_trunc value mod 256) (delay conversion (set_probe rest w)).
Proof.
  intros w conversion value rest Hp _ Ht.
  rewrite <- truncation_mod_256 in *.
  apply query_sensor_plausible; assumption.
Qed.

(** ** The alarm *)

Lemma beep_clock : forall d w, clock (beep d w) = wrap32 (clock w + d).
Proof.
  intros d w. unfold beep. cbn [clock emit]. rewrite delay_clock.
  reflexivity.
Qed.

Lemma wrap32_add : forall a b, wrap32 (wrap32 a + b) = wrap32 (a + b).
Proof. intros a b. unfold wrap32. apply Zplus_mod_idemp_l. Qed.

(** One round of the alarm that [panic] repeats for ever: nine beeps,
    18.5 seconds, nothing written but the beeper pin, the heater flag
    and the heater pin as [panic] left them (lines 178-202). *)
Theorem alarm_round_leaves_heater_alone :
  forall (w : World),
    trace (sos_round w) = sos_log ++ trace w /\
    heater_is_on (sos_round w) = heater_is_on w /\
    heater_pin (sos_round w) = heater_pin w /\
    clock (sos_round w) = wrap32 (clock w + 18500).
Proof.
  intros w.
  assert (Hlog : trace (sos_round w) = sos_log ++ trace w).
  { unfold sos_round. cbv beta zeta.
    repeat rewrite ?delay_trace, ?beep_trace. reflexivity. }
  split; [exact Hlog|]. split; [|split].
  - unfold sos_round. cbv beta zeta.
    repeat rewrite ?delay_heater, ?beep_heater. reflexivity.
  - unfold heater_pin. rewrite Hlog. reflexivity.
  - unfold sos_round. cbv beta zeta.
    repeat rewrite ?delay_clock, ?beep_clock.
    repeat (rewrite <- ?Z.add_assoc; rewrite wrap32_add).
    f_equal. unfold REPEAT_DELAY, LETTER_DELAY, SIGN_DELAY, DASH_LEN, DOT_LEN.
    lia.
Qed.

(** ** The further properties at work on concrete worlds *)

Lemma spurious_event_returns_at_once_witness :
  event_on_encoder bounce = true /\
  actions (adc bounce) = NoAction :: [ActionConfirm] /\
  exists rest,
    wait_for_action bounce = Done NoAction (set_adc rest bounce) /\
    actions rest = [ActionConfirm] /\
    event_on_encoder (set_adc rest bounce) = true /\
    clock (set_adc rest bounce) = clock bounce.
Proof.
  split; [reflexivity|]. split; [reflexivity|].
  exact (spurious_event_returns_at_once bounce [ActionConfirm]
           eq_refl eq_refl).
Defined.

Lemma no_sampling_without_event_witness :
  ~ pending nobody_there /\
  exists w',
    wait_for_action nobody_there = Blocked w' /\
    adc w' = adc nobody_there /\
    quiet nobody_there w'.
Proof.
  assert (Hnot : ~ pending nobody_there).
  { intros [H|H]; [discriminate H|].
    cbn in H. destruct H as [H|H]; [discriminate H|exact H]. }
  split; [exact Hnot|].
  exact (no_sampling_without_event nobody_there Hnot).
Defined.

Lemma wait_for_action_is_inert_witness :
  wait_for_action short_press = Done ActionConfirm short_press_end /\
  quiet short_press (final (wait_for_action short_press)) /\
  (List.length (adc short_press_end) < List.length (adc short_press))%nat.
Proof.
  assert (Hrun : wait_for_action short_press =
                 Done ActionConfirm short_press_end) by reflexivity.
  split; [exact Hrun|].
  destruct (wait_for_action_is_inert short_press) as (Hq & _ & Hless).
  split; [exact Hq|]. exact (Hless ActionConfirm short_press_end Hrun).
Defined.

(** The second contact shows at the second sampling, 1 ms after the
    first sample; with the first contact alone on the pin the wait
    gives up after 351 ms. *)
Lemma pairing_wait_is_bounded_witness :
  In ActionPrev (actions (adc second_contact)) /\
  (exists w',
     await_pair (turns second_contact) ActionPrev (millis second_contact)
       second_contact = Done tt w' /\
     0 <= elapsed (millis second_contact) w' <= ENCODER_TIMEOUT + 1) /\
  (351 <= List.length (actions (adc lone_contact)))%nat /\
  (exists w',
     await_pair (turns lone_contact) ActionPrev (millis lone_contact)
       lone_contact = Done tt w' /\
     0 <= elapsed (millis lone_contact) w' <= ENCODER_TIMEOUT + 1).
Proof.
  assert (H1 : In ActionPrev (actions (adc second_contact)))
    by (right; left; reflexivity).
  assert (H2 : (351 <= List.length (actions (adc lone_contact)))%nat)
    by (replace (List.length (actions (adc lone_contact))) with 351%nat
          by (vm_compute; reflexivity); apply le_n).
  split; [exact H1|]. split.
  { exact (proj1 (pairing_wait_is_bounded ActionPrev second_contact)
             (or_introl H1)). }
  split; [exact H2|].
  exact (proj1 (pairing_wait_is_bounded ActionPrev lone_contact)
           (or_intror H2)).
Defined.

Lemma press_resolves_to_confirm_witness :
  pending short_press /\
  actions (adc short_press) = ActionConfirm :: [] ++ NoAction :: [] /\
  exists w',
    wait_for_action short_press = Done ActionConfirm w' /\
    actions (adc w') = [] /\
    event_on_encoder w' = false /\
    quiet short_press w'.
Proof.
  assert (Hp : pending short_press) by (left; reflexivity).
  split; [exact Hp|]. split; [reflexivity|].
  apply (press_resolves_to_confirm short_press [] [] Hp eq_refl).
  intros [].
Defined.

Lemma menu_is_a_cycle_witness :
  0 <= 3 < catalog_size /\
  next_index ActionPrev (next_index ActionNext 3) = 3 /\
  next_index ActionNext (next_index ActionPrev 3) = 3 /\
  turn_next (List.length filaments) 3 = 3.
Proof.
  assert (Hi : 0 <= 3 < catalog_size) by (split; [discriminate|reflexivity]).
  split; [exact Hi|].
  destruct (menu_is_a_cycle 3 Hi) as (H1 & H2 & H3 & _).
  split; [exact H1|]. split; [exact H2|exact H3].
Defined.

Lemma selection_picks_catalog_entry_witness :
  selection no_profile = Done tt (final (selection no_profile)) /\
  exists j,
    0 <= j < catalog_size /\
    filament (final (selection no_profile)) = Some (filament_at j) /\
    In (filament_at j) filaments /\
    45 <= temp (filament_at j) <= 70.
Proof.
  assert (Hrun : selection no_profile =
                 Done tt (final (selection no_profile)))
    by (vm_compute; reflexivity).
  split; [exact Hrun|].
  exact (selection_picks_catalog_entry no_profile _ Hrun).
Defined.

Lemma session_starts_in_same_iteration_witness :
  filament fresh_choice = None /\
  selection fresh_choice = Done tt (final (selection fresh_choice)) /\
  probe (final (selection fresh_choice)) = [(94, celsius_50)] /\
  exists f w',
    filament (final (selection fresh_choice)) = Some f /\
    loop fresh_choice = Done tt w' /\
    heating_stage w' =
      (if wrap8 (float_to_uint celsius_50) >? temp f
       then Working else PreHeating) /\
    seconds w' = 0 /\
    refresh_screen w' = false /\
    heater_is_on w' = negb (wrap8 (float_to_uint celsius_50) >? temp f) /\
    trace w' =
      Pin HEATER_PIN (negb (wrap8 (float_to_uint celsius_50) >? temp f))
      :: trace (final (selection fresh_choice)).
Proof.
  assert (Hrun : selection fresh_choice =
                 Done tt (final (selection fresh_choice)))
    by (vm_compute; reflexivity).
  split; [reflexivity|]. split; [exact Hrun|].
  split; [vm_compute; reflexivity|].
  apply (session_starts_in_same_iteration fresh_choice _ 94 celsius_50 []
           eq_refl Hrun eq_refl).
  split; discriminate.
Defined.

Lemma working_iteration_witness :
  filament half_hour_in = Some PLA /\
  heating_stage half_hour_in = Working /\
  seconds half_hour_in <= time_sec PLA /\
  exists w',
    loop half_hour_in = Done tt w' /\
    filament w' = Some PLA /\
    heating_stage w' = Working /\
    heater_is_on w' = negb (wrap8 (float_to_uint celsius_50) >? temp PLA) /\
    seconds w' = seconds (delay 94 (set_probe [] half_hour_in)) /\
    refresh_screen w' = false /\
    pin_writes (trace w') =
      Pin HEATER_PIN (negb (wrap8 (float_to_uint celsius_50) >? temp PLA))
      :: pin_writes (trace half_hour_in).
Proof.
  assert (Hle : seconds half_hour_in <= time_sec PLA) by discriminate.
  split; [reflexivity|]. split; [reflexivity|]. split; [exact Hle|].
  apply (working_iteration half_hour_in PLA 94 celsius_50 []
           eq_refl eq_refl Hle eq_refl).
  split; discriminate.
Defined.

Lemma preheating_iteration_witness :
  filament ten_minutes_in = Some PLA /\
  heating_stage ten_minutes_in = PreHeating /\
  exists w',
    loop ten_minutes_in = Done tt w' /\
    heating_stage w' = PreHeating /\
    heater_is_on w' = true /\
    seconds w' = seconds (delay 94 (set_probe [] ten_minutes_in)) /\
    refresh_screen w' = false /\
    pin_writes (trace w') =
      Pin HEATER_PIN true :: pin_writes (trace ten_minutes_in).
Proof.
  split; [reflexivity|]. split; [reflexivity|].
  destruct (preheating_iteration ten_minutes_in PLA 94 celsius_45 []
              eq_refl eq_refl eq_refl) as (_ & Hstay).
  - split; discriminate.
  - apply Hstay; [discriminate|]. right. reflexivity.
Defined.

Lemma loop_panics_with_heater_off_witness :
  loop preheating_hour =
    Halted "Preheating." (final (loop preheating_hour)) /\
  heater_is_on (final (loop preheating_hour)) = false /\
  heater_pin (final (loop preheating_hour)) = Some false.
Proof.
  assert (Hrun : loop preheating_hour =
                 Halted "Preheating." (final (loop preheating_hour)))
    by (vm_compute; reflexivity).
  split; [exact Hrun|].
  exact (proj2 (loop_panics_with_heater_off preheating_hour _ _ Hrun)).
Defined.

Lemma heater_flag_mirrors_pin_witness :
  reachable (setup [] (power_on [] [])) /\
  mirrored (setup [] (power_on [] [])).
Proof.
  split; [apply reach_setup|].
  apply (proj1 heater_flag_mirrors_pin). apply reach_setup.
Defined.

Lemma eta_shows_time_left_witness :
  filament half_hour_in = Some PLA /\
  heating_stage half_hour_in = Working /\
  0 <= seconds half_hour_in <= time_sec PLA /\
  time_sec PLA < 256 * 3600 /\
  exists w' more hours mins secs,
    update_screen 50 half_hour_in = Done tt w' /\
    trace w' = more ++ trace half_hour_in /\
    printed_numbers more = [temp PLA; 50; hours; mins; secs] /\
    hours * 3600 + mins * 60 + secs =
      time_sec PLA - seconds half_hour_in /\
    0 <= mins < 60 /\ 0 <= secs < 60.
Proof.
  assert (Hsec : 0 <= seconds half_hour_in <= time_sec PLA)
    by (split; discriminate).
  assert (Hmax : time_sec PLA < 256 * 3600) by reflexivity.
  split; [reflexivity|]. split; [reflexivity|]. split; [exact Hsec|].
  split; [exact Hmax|].
  exact (eta_shows_time_left 50 half_hour_in PLA eq_refl eq_refl Hsec Hmax).
Defined.

Lemma preheating_screen_shows_elapsed_witness :
  filament ten_minutes_in = Some PLA /\
  heating_stage ten_minutes_in = PreHeating /\
  0 <= seconds ten_minutes_in < 3600 /\
  exists w' more mins secs,
    update_screen 45 ten_minutes_in = Done tt w' /\
    trace w' = more ++ trace ten_minutes_in /\
    printed_numbers more = [temp PLA; 45; mins; secs] /\
    mins * 60 + secs = seconds ten_minutes_in /\
    0 <= mins < 60 /\ 0 <= secs < 60.
Proof.
  assert (Hsec : 0 <= seconds ten_minutes_in < 3600)
    by (split; [discriminate|reflexivity]).
  split; [reflexivity|]. split; [reflexivity|]. split; [exact Hsec|].
  exact (preheating_screen_shows_elapsed 45 ten_minutes_in PLA
           eq_refl eq_refl Hsec).
Defined.

Lemma eta_wraps_in_last_second_witness :
  filament last_second = Some PLA /\
  heating_stage last_second = Working /\
  seconds last_second = time_sec PLA /\
  exists w' more,
    loop last_second = Done tt w' /\
    seconds w' = time_sec PLA + 1 /\
    trace w' = more ++ trace last_second /\
    printed_numbers more =
      [temp PLA; wrap8 (float_to_uint celsius_45); 86; 28; 15] /\
    loop w' = completion w'.
Proof.
  split; [reflexivity|]. split; [reflexivity|]. split; [reflexivity|].
  apply (eta_wraps_in_last_second last_second PLA 94 celsius_45 [] []
           eq_refl eq_refl eq_refl).
  - discriminate.
  - reflexivity.
  - reflexivity.
  - split; discriminate.
  - reflexivity.
Defined.

Lemma readings_alias_modulo_256_witness :
  probe overheated = [(94, celsius_300)] /\
  float_trunc celsius_300 = 300 /\
  query_sensor overheated =
    Done 44 (delay 94 (set_probe [] overheated)).
Proof.
  split; [reflexivity|]. split; [reflexivity|].
  apply (readings_alias_modulo_256 overheated 94 celsius_300 [] eq_refl).
  - split; [discriminate|reflexivity].
  - split; discriminate.
Defined.
